(** * A container launcher in Go: registry login, manifest, layers, chroot run

    Shallow embedding of [app/main.go] (and of the two earlier revisions of
    the same file where they differ) together with the properties of its
    pipeline: tag resolution, layer extraction, staging of the command
    binary, exit-status propagation and removal of the temporary root.

    Conventions.  Go strings are byte strings and are modelled by [string];
    file contents are byte strings too.  Integers ([int], [int64],
    [os.FileMode]) are modelled by [Z].  The outside world (registry, random
    names, the kernel running the child) is a record of oracles, [World].
    The file system is a finite map from canonical path names to nodes, and
    every call of the program that touches it is also appended to a log. *)

From stdpp Require Import gmap strings list fin_maps.
From Stdlib Require Import ZArith Ascii String Lia.

Local Open Scope string_scope.
Local Open Scope list_scope.
Local Open Scope Z_scope.

(** ** Strings *)

Module strings.

(** [split_byte sep s]: the pieces of [s] between the occurrences of the
    byte [sep]; never empty. *)
Fixpoint split_byte (sep : ascii) (s : string) : list string :=
  match s with
  | EmptyString => [""]
  | String c r =>
      if decide (c = sep) then "" :: split_byte sep r
      else match split_byte sep r with
           | h :: t => String c h :: t
           | [] => [String c ""]
           end
  end.

(** [strings.Split(s, sep)] for a separator of one byte, the only kind
    the program uses ([":"]). *)
Definition Split (s : string) (sep : ascii) : list string := split_byte sep s.

(** [strings.Join(elems, sep)]. *)
Fixpoint Join (elems : list string) (sep : string) : string :=
  match elems with
  | [] => ""
  | [e] => e
  | e :: rest => e +:+ sep +:+ Join rest sep
  end.

(** [c] occurs in [s]. *)
Fixpoint contains_byte (c : ascii) (s : string) : bool :=
  match s with
  | EmptyString => false
  | String d r => if decide (d = c) then true else contains_byte c r
  end.

(** Number of occurrences of [c] in [s]. *)
Fixpoint count_byte (c : ascii) (s : string) : nat :=
  match s with
  | EmptyString => 0%nat
  | String d r => ((if decide (d = c) then 1 else 0) + count_byte c r)%nat
  end.

End strings.

(** ** Path names ([path/filepath], Unix) *)

Module filepath.

Definition is_rooted (p : string) : bool :=
  match p with String "/" _ => true | _ => false end.

(** One component pushed on the (reversed) stack of components kept so
    far: empty components and ["."] are dropped, [".."] removes the last
    kept component, and is itself kept only at the front of a relative
    path. *)
Definition clean_step (rooted : bool) (acc : list string) (c : string)
  : list string :=
  if decide (c = "") then acc
  else if decide (c = ".") then acc
  else if decide (c = "..") then
    match acc with
    | h :: t => if decide (h = "..") then ".." :: acc else t
    | [] => if rooted then [] else [".."]
    end
  else c :: acc.

(** [filepath.Clean]. *)
Definition Clean (p : string) : string :=
  if decide (p = "") then "."
  else
    let rooted := is_rooted p in
    let comps := rev (fold_left (clean_step rooted) (strings.split_byte "/" p) []) in
    if rooted then "/" +:+ strings.Join comps "/"
    else match comps with
         | [] => "."
         | _ => strings.Join comps "/"
         end.

Fixpoint drop_empty (elem : list string) : list string :=
  match elem with
  | [] => []
  | e :: rest => if decide (e = "") then drop_empty rest else elem
  end.

(** [filepath.Join]: leading empty elements are skipped, the others are
    joined by a slash and the result is cleaned. *)
Definition Join (elem : list string) : string :=
  match drop_empty elem with
  | [] => ""
  | es => Clean (strings.Join es "/")
  end.

(** [filepath.Dir]: everything up to the last slash, cleaned. *)
Definition Dir (p : string) : string :=
  match rev (strings.split_byte "/" p) with
  | _ :: (_ :: _) as before => Clean (strings.Join (rev before) "/" +:+ "/")
  | _ => Clean ""
  end.

Fixpoint strip_trailing_slashes (rparts : list string) : list string :=
  match rparts with
  | e :: rest => if decide (e = "") then strip_trailing_slashes rest else rparts
  | [] => []
  end.

(** [filepath.Base]: the last element, trailing slashes removed. *)
Definition Base (p : string) : string :=
  if decide (p = "") then "."
  else match strip_trailing_slashes (rev (strings.split_byte "/" p)) with
       | [] => "/"
       | e :: _ => e
       end.

(** The directories above a cleaned path and the path itself, topmost
    first, the root directory excluded. *)
Definition ancestors (p : string) : list string :=
  let q := Clean p in
  let rooted := is_rooted q in
  let comps := filter (fun c => c <> "") (strings.split_byte "/" q) in
  map (fun k => (if rooted then "/" else "") +:+ strings.Join (take k comps) "/")
      (seq 1 (List.length comps)).

End filepath.

(** ** Values exchanged with the outside world *)

(** A JSON document as [encoding/json] sees it once parsed.  A number whose
    literal is an optional minus sign followed by digits is [JInt]; any
    other number literal is [JNumber]. *)
#[local] Unset Elimination Schemes.
Inductive json : Type :=
| JNull
| JBool (b : bool)
| JInt (z : Z)
| JNumber
| JString (s : string)
| JArray (items : list json)
| JObject (fields : list (string * json)).
#[local] Set Elimination Schemes.

(** [tar.Header], the fields the program reads. *)
Record tar_header : Type := mkHeader {
  Name : string;
  Typeflag : ascii;
  Mode : Z
}.

Definition tar_entry : Type := (tar_header * string)%type.

(** What [tr.Next()] answers after the last readable entry. *)
Inductive tar_end : Type := EndOfArchive | StreamError.

(** A response body: the JSON value it parses to, or the entries of the
    archive it holds when it is a gzip stream, or neither. *)
Inductive body : Type :=
| BodyJSON (j : json)
| BodyGzipTar (entries : list tar_entry) (trailer : tar_end)
| BodyOther.

Record request : Type := mkRequest {
  URL : string;
  Header : list (string * string)
}.

Record response : Type := mkResponse {
  StatusCode : Z;
  Body : body
}.

Inductive wait_status : Type :=
| Exited (code : Z)
| Signaled (sig : Z).

Inductive run_result : Type :=
| Started (ws : wait_status)
| StartFailed.

Inductive node : Type :=
| Dir (mode : Z)
| File (mode : Z) (data : string).

(** Go [error] values the program can meet. *)
Inductive error : Type :=
| ErrStatus (what : string) (code : Z)
| ErrURL (url : string)
| ErrTransport
| ErrDecode
| ErrGzip
| ErrTar
| ErrPath (op path errno : string)
| ErrTempDir
| ErrExit (ws : wait_status)
| ErrStart
| ErrEOF.

(** What a run-time panic carries: an [error] passed to [panic], or the
    run-time error of an index out of range. *)
Inductive panic_value : Type :=
| PanicErr (e : error)
| IndexOutOfRange (index len : nat).

(** Every call that leaves the process or changes the file system. *)
Inductive event : Type :=
| EHttp (req : request)
| ETempDir (path : string)
| EMkdirAll (path : string) (perm : Z)
| EOpenFile (path : string) (flag perm : Z)
| EWrite (path : string) (data : string)
| EChmod (path : string) (mode : Z)
| ERemoveAll (path : string)
| ESpawn (chroot command : string) (args : list string) (r : run_result).

(** The environment of one run. *)
Record World : Type := mkWorld {
  url_parses : string -> bool;
  round_trip : request -> option response;
  next_random : nat -> string;
  umask : Z;
  run_child : gmap string node -> string -> string -> list string -> run_result
}.

Record state : Type := mkState {
  fs : gmap string node;
  log : list event
}.

(** ** The monad of the program: state, errors, panics and [os.Exit] *)

Inductive res (A : Type) : Type :=
| Val (a : A)
| Fail (e : error)
| Panic (v : panic_value)
| Exit (code : Z).
Arguments Val {A} a.
Arguments Fail {A} e.
Arguments Panic {A} v.
Arguments Exit {A} code.

Definition M (A : Type) : Type := state -> res A * state.

Definition ret {A} (a : A) : M A := fun st => (Val a, st).

Definition bind {A B} (m : M A) (k : A -> M B) : M B :=
  fun st =>
    match m st with
    | (Val a, st') => k a st'
    | (Fail e, st') => (Fail e, st')
    | (Panic v, st') => (Panic v, st')
    | (Exit c, st') => (Exit c, st')
    end.

Notation "'do' x <- m ; k" := (bind m (fun x => k))
  (at level 10, x name, m at level 100, k at level 200).
Notation "m ;; k" := (bind m (fun _ => k))
  (at level 100, k at level 200, right associativity).

Definition fail {A} (e : error) : M A := fun st => (Fail e, st).
Definition panic {A} (v : panic_value) : M A := fun st => (Panic v, st).
Definition os_Exit {A} (code : Z) : M A := fun st => (Exit code, st).

Definition emit (e : event) : M unit :=
  fun st => (Val tt, mkState (fs st) (log st ++ [e])).

Definition get_fs : M (gmap string node) := fun st => (Val (fs st), st).

Definition put_fs (m : gmap string node) : M unit :=
  fun st => (Val tt, mkState m (log st)).

(** [v, err := f(); if err != nil { ... }]: the error becomes a value. *)
Definition catch {A} (m : M A) : M (A + error) :=
  fun st =>
    match m st with
    | (Val a, st') => (Val (inl a), st')
    | (Fail e, st') => (Val (inr e), st')
    | (Panic v, st') => (Panic v, st')
    | (Exit c, st') => (Exit c, st')
    end.

(** [if err != nil { panic(err) }]. *)
Definition must {A} (m : M A) : M A :=
  fun st =>
    match m st with
    | (Fail e, st') => (Panic (PanicErr e), st')
    | r => r
    end.

(** [defer cleanup] followed by [body]: the deferred call runs when the
    body returns and when it panics, and does not run when the body ends
    the process by [os.Exit]; its own result is dropped. *)
Definition defer {A} (cleanup : M unit) (body : M A) : M A :=
  fun st =>
    match body st with
    | (Exit c, st') => (Exit c, st')
    | (r, st') => (r, snd (cleanup st'))
    end.

(** [l[i]], with the run-time panic of Go. *)
Definition index (l : list string) (i : nat) : M string :=
  match l !! i with
  | Some x => ret x
  | None => panic (IndexOutOfRange i (List.length l))
  end.

(** The exit status the parent of the process observes. *)
Definition exit_status {A} (r : res A) : Z :=
  match r with
  | Val _ => 0
  | Fail _ => 0
  | Panic _ => 2
  | Exit c => Z.land c 255
  end.

(** What the Go run time writes on standard error when the process dies of
    a panic; the program itself writes nothing. *)
Definition diagnostic {A} (r : res A) : option panic_value :=
  match r with
  | Panic v => Some v
  | _ => None
  end.

(** ** The file system ([os], [io/ioutil])

    A node is stored under its cleaned path name: path resolution is
    lexical, there are no symbolic links (the program creates none), and
    permission bits never refuse an access (changing root needs the
    privileges that also override them).  The mode kept for a node is the
    [os.FileMode] that [os.Stat] reports for it, type bits left out.

    The one name the program can pass empty is the command, to [os.Open],
    which refuses it as the kernel does; every other name it passes is the
    temporary directory or a path joined to it, and the calls that take
    those do not tell the empty name from [.]. *)

Module os.

Definition O_RDONLY : Z := 0.
Definition O_WRONLY : Z := 1.
Definition O_RDWR : Z := 2.
Definition O_CREATE : Z := 64.
Definition O_TRUNC : Z := 512.

Definition ModeDir : Z := 2 ^ 31.
Definition ModeSetuid : Z := 2 ^ 23.
Definition ModeSetgid : Z := 2 ^ 22.
Definition ModeSticky : Z := 2 ^ 20.
(** [os.ModePerm], octal 777. *)
Definition ModePerm : Z := 511.

(** The conversion [os.FileMode(x)] of an [int64] to a 32-bit mode. *)
Definition FileMode (x : Z) : Z := x mod 2 ^ 32.

(** The bits of a mode that reach the kernel and come back from it. *)
Definition kept_bits : Z :=
  Z.lor ModePerm (Z.lor ModeSetuid (Z.lor ModeSetgid ModeSticky)).

Definition chmod_mode (mode : Z) : Z := Z.land mode kept_bits.

(** The mode of a node created with permission argument [perm]. *)
Definition create_mode (umask perm : Z) : Z :=
  Z.land (chmod_mode perm) (Z.lnot (Z.land umask ModePerm)).

Definition key (name : string) : string := filepath.Clean name.

(** The node a canonical name denotes; the root directory and the
    working directory always exist. *)
Definition node_at (m : gmap string node) (k : string) : option node :=
  if decide (k = "/") then Some (Dir 493)
  else if decide (k = ".") then Some (Dir 493)
  else m !! k.

(** [info.Mode()] and [info.IsDir()] of what [os.Stat] returns. *)
Definition Mode_of (n : node) : Z :=
  match n with
  | Dir mode => Z.lor ModeDir mode
  | File mode _ => mode
  end.

Definition IsDir (n : node) : bool :=
  match n with Dir _ => true | File _ _ => false end.

(** Writing [data] at offset 0 of a file holding [old]: the bytes beyond
    the written ones stay. *)
Fixpoint overwrite (data old : string) : string :=
  match data with
  | EmptyString => old
  | String c rest =>
      String c (overwrite rest (match old with
                                | EmptyString => EmptyString
                                | String _ o => o
                                end))
  end.

(** [k] is [dir] or lies below it. *)
Definition is_under (dir k : string) : bool :=
  if decide (dir = "/") then true
  else if decide (k = dir) then true
  else String.prefix (dir +:+ "/") k.

(** The error of the walk down to a directory that is not there, topmost
    name first: [ENOTDIR] when the walk meets a regular file, [ENOENT] when
    it meets a name that does not exist. *)
Fixpoint first_missing (m : gmap string node) (ks : list string) : string :=
  match ks with
  | [] => "ENOENT"
  | k :: rest =>
      match node_at m k with
      | Some (Dir _) => first_missing m rest
      | Some (File _ _) => "ENOTDIR"
      | None => "ENOENT"
      end
  end.

Definition missing_errno (m : gmap string node) (dir : string) : string :=
  first_missing m (filepath.ancestors dir).

Section WithWorld.
Variable w : World.

(** [os.Stat(name)].  A name that is not there fails with the error of
    the walk down to it. *)
Definition Stat (name : string) : M node :=
  do m <- get_fs;
  match node_at m (key name) with
  | Some n => ret n
  | None => fail (ErrPath "stat" name (missing_errno m (key name)))
  end.

(** Creation of the missing directories of a chain, topmost first; it
    stops at the first name that is a file, and the error names it. *)
Fixpoint mkdir_chain (perm : Z) (ks : list string)
         (m : gmap string node) : gmap string node * option error :=
  match ks with
  | [] => (m, None)
  | k :: rest =>
      match node_at m k with
      | Some (Dir _) => mkdir_chain perm rest m
      | Some (File _ _) => (m, Some (ErrPath "mkdir" k "ENOTDIR"))
      | None => mkdir_chain perm rest (<[k := Dir (create_mode (umask w) perm)]> m)
      end
  end.

Definition MkdirAll (path : string) (perm : Z) : M unit :=
  emit (EMkdirAll path perm) ;;
  do m <- get_fs;
  let '(m', err) := mkdir_chain perm (filepath.ancestors path) m in
  put_fs m' ;;
  match err with
  | None => ret tt
  | Some e => fail e
  end.

(** [os.OpenFile] for writing.  The handle returned is the canonical
    name of the file; the permission argument is used only when the
    call creates the file.  A file cannot be created in a directory that
    is not there: the error is that of the walk down to it. *)
Definition OpenFile (name : string) (flag perm : Z) : M string :=
  emit (EOpenFile name flag perm) ;;
  do m <- get_fs;
  let k := key name in
  match node_at m k with
  | Some (Dir _) => fail (ErrPath "open" name "EISDIR")
  | Some (File mode data) =>
      (if Z.testbit flag 9 then put_fs (<[k := File mode ""]> m) else ret tt) ;;
      ret k
  | None =>
      if Z.testbit flag 6 then
        match node_at m (filepath.Dir k) with
        | Some (Dir _) =>
            put_fs (<[k := File (create_mode (umask w) perm) ""]> m) ;; ret k
        | Some (File _ _) => fail (ErrPath "open" name "ENOTDIR")
        | None => fail (ErrPath "open" name (missing_errno m (filepath.Dir k)))
        end
      else fail (ErrPath "open" name (missing_errno m k))
  end.

(** [os.Create(name)] is [OpenFile(name, O_RDWR|O_CREATE|O_TRUNC, 0666)]. *)
Definition Create (name : string) : M string :=
  OpenFile name (Z.lor O_RDWR (Z.lor O_CREATE O_TRUNC)) 438.

(** [os.Open(name)]: the handle of an existing node, for reading.  The
    empty name denotes nothing, and a name that is not there fails with
    the error of the walk down to it. *)
Definition Open (name : string) : M string :=
  do m <- get_fs;
  if decide (name = "") then fail (ErrPath "open" name "ENOENT")
  else
    match node_at m (key name) with
    | Some _ => ret (key name)
    | None => fail (ErrPath "open" name (missing_errno m (key name)))
    end.

(** All the bytes [io.Copy(writer, reader)] takes from a file to hand
    them to another.  A directory has no bytes to give: the copy from one
    file to the other fails, and the error is reported as one of the write
    on the destination. *)
Definition read_all (reader writer : string) : M string :=
  do m <- get_fs;
  match node_at m reader with
  | Some (File _ data) => ret data
  | Some (Dir _) => fail (ErrPath "write" writer "EISDIR")
  | None => fail (ErrPath "read" reader "ENOENT")
  end.

(** The writes of [io.Copy(f, src)] on a handle just opened. *)
Definition write_all (handle : string) (data : string) : M unit :=
  emit (EWrite handle data) ;;
  do m <- get_fs;
  match m !! handle with
  | Some (File mode old) => put_fs (<[handle := File mode (overwrite data old)]> m)
  | _ => fail (ErrPath "write" handle "EBADF")
  end.

Definition Chmod (name : string) (mode : Z) : M unit :=
  emit (EChmod name mode) ;;
  do m <- get_fs;
  let k := key name in
  match m !! k with
  | Some (File _ data) => put_fs (<[k := File (chmod_mode mode) data]> m)
  | Some (Dir _) => put_fs (<[k := Dir (chmod_mode mode)]> m)
  | None => fail (ErrPath "chmod" name (missing_errno m k))
  end.

(** [os.RemoveAll]: the node and everything below it go; a missing
    path is no error. *)
Definition RemoveAll (path : string) : M unit :=
  emit (ERemoveAll path) ;;
  if decide (path = "") then ret tt
  else
    do m <- get_fs;
    put_fs (filter (fun kv => is_under (key path) kv.1 = false) m).

(** [ioutil.TempDir(dir, prefix)]: a new directory of mode 0700 named
    by the prefix and a random suffix, with a new suffix as long as
    the name is taken (at most [tries] times). *)
Fixpoint TempDir_try (dir pre : string) (tries : nat) (i : nat)
         (m : gmap string node) : option (string * gmap string node) :=
  match tries with
  | O => None
  | S tries' =>
      let name := filepath.Join [dir; pre +:+ next_random w i] in
      match node_at m name with
      | Some _ => TempDir_try dir pre tries' (S i) m
      | None =>
          match node_at m (key dir) with
          | Some (Dir _) => Some (name, <[name := Dir (create_mode (umask w) 448)]> m)
          | _ => None
          end
      end
  end.

Definition TempDir (dir pre : string) : M string :=
  do m <- get_fs;
  match TempDir_try dir pre (Z.to_nat 10000) 0 m with
  | Some (name, m') => put_fs m' ;; emit (ETempDir name) ;; ret name
  | None => fail ErrTempDir
  end.

End WithWorld.

End os.

(** ** [net/http] *)

Module http.

(** [http.StatusOK]. *)
Definition StatusOK : Z := 200.

Section WithWorld.
Variable w : World.

(** [http.NewRequest(http.MethodGet, url, nil)]: fails when the URL
    does not parse. *)
Definition NewRequest (url : string) : M request :=
  if url_parses w url then ret (mkRequest url [])
  else fail (ErrURL url).

(** [req.Header.Add(key, value)]. *)
Definition Header_Add (req : request) (k v : string) : request :=
  mkRequest (URL req) (Header req ++ [(k, v)]).

(** [http.DefaultClient.Do(req)]. *)
Definition Do (req : request) : M response :=
  emit (EHttp req) ;;
  match round_trip w req with
  | Some resp => ret resp
  | None => fail ErrTransport
  end.

(** [http.DefaultClient.Get(url)]. *)
Definition Get (url : string) : M response :=
  do req <- NewRequest url;
  Do req.

End WithWorld.

(** The value of the first header named [k]. *)
Fixpoint Header_Get (h : list (string * string)) (k : string) : option string :=
  match h with
  | [] => None
  | (k', v) :: rest => if decide (k' = k) then Some v else Header_Get rest k
  end.

End http.

(** ** [encoding/json]: decoding into the structs of the program *)

Module json_decode.

Definition upper (c : ascii) : ascii :=
  let n := nat_of_ascii c in
  if (97 <=? n)%nat && (n <=? 122)%nat then ascii_of_nat (n - 32) else c.

(** The folded form of an object key under which the decoder looks a
    field up when no field has exactly that name: ASCII letters in upper
    case, and the two letters outside ASCII that fold to an ASCII one,
    the Kelvin sign (bytes E2 84 AA) to K and the long s (C5 BF) to S. *)
Fixpoint foldName (s : string) : string :=
  match s with
  | EmptyString => EmptyString
  | String c r =>
      match r with
      | String d r1 =>
          match r1 with
          | String e r2 =>
              if decide (c = "226"%char /\ d = "132"%char /\ e = "170"%char)
              then String "K" (foldName r2)
              else if decide (c = "197"%char /\ d = "191"%char)
                   then String "S" (foldName r1)
                   else String (upper c) (foldName r)
          | EmptyString =>
              if decide (c = "197"%char /\ d = "191"%char)
              then String "S" (foldName r1)
              else String (upper c) (foldName r)
          end
      | EmptyString => String (upper c) EmptyString
      end
  end.

(** An object key selects the field named [field]. *)
Definition selects (key field : string) : bool :=
  bool_decide (foldName key = foldName field).

Definition into_string (cur : string) (j : json) : option string :=
  match j with
  | JString s => Some s
  | JNull => Some cur
  | _ => None
  end.

Definition into_int64 (cur : Z) (j : json) : option Z :=
  match j with
  | JInt z => if ((- 2 ^ 63 <=? z) && (z <? 2 ^ 63))%Z then Some z else None
  | JNull => Some cur
  | _ => None
  end.

(** Decoding of a value into a struct: an object sets the fields its keys
    select, one key after the other; [null] leaves the struct as it is;
    anything else is an error, as is a value of the wrong type for its
    field. *)
Definition into_struct {T} (field : T -> string -> json -> option T)
           (cur : T) (j : json) : option T :=
  match j with
  | JObject kvs =>
      fold_left (fun acc kv => match acc with
                               | Some t => field t kv.1 kv.2
                               | None => None
                               end) kvs (Some cur)
  | JNull => Some cur
  | _ => None
  end.

(** Decoding of an array into a slice: the element at each index is
    decoded into the element the slice already holds there, or into a zero
    value when it holds none, and the slice ends with the array; [null]
    makes the slice nil. *)
Fixpoint into_elements {T} (elem : T -> json -> option T) (zero : T)
         (cur : list T) (items : list json) : option (list T) :=
  match items with
  | [] => Some []
  | j :: rest =>
      match elem (default zero (head cur)) j,
            into_elements elem zero (tail cur) rest with
      | Some t, Some ts => Some (t :: ts)
      | _, _ => None
      end
  end.

Definition into_slice {T} (elem : T -> json -> option T) (zero : T)
           (cur : list T) (j : json) : option (list T) :=
  match j with
  | JArray items => into_elements elem zero cur items
  | JNull => Some []
  | _ => None
  end.

(** [json.NewDecoder(resp.Body).Decode(&v)] on a body. *)
Definition Decode {T} (into : json -> option T) (b : body) : M T :=
  match b with
  | BodyJSON j =>
      match into j with
      | Some t => ret t
      | None => fail ErrDecode
      end
  | _ => fail ErrDecode
  end.

End json_decode.

(** ** [compress/gzip] and [archive/tar] *)

Module tar.
(** [tar.TypeReg] and [tar.TypeDir]. *)
Definition TypeReg : ascii := "0"%char.
Definition TypeDir : ascii := "5"%char.

(** [gzip.NewReader(body)] followed by [tar.NewReader]: the entries that
    [tr.Next()] will deliver, and how the stream ends. *)
Definition NewReader (b : body) : M (list tar_entry * tar_end) :=
  match b with
  | BodyGzipTar es trailer => ret (es, trailer)
  | _ => fail ErrGzip
  end.
End tar.

(** ** [os/exec] *)

Module exec.
Section WithWorld.
Variable w : World.

(** [cmd.Run()] for a command with [SysProcAttr.Chroot] set: [nil] when
    the child exits with status 0, an [*exec.ExitError] when it ends
    otherwise, another error when it could not be started. *)
Definition Run (chroot command : string) (args : list string) : M unit :=
  do m <- get_fs;
  let r := run_child w m chroot command args in
  emit (ESpawn chroot command args r) ;;
  match r with
  | Started (Exited 0) => ret tt
  | Started ws => fail (ErrExit ws)
  | StartFailed => fail ErrStart
  end.
End WithWorld.

(** [exitErr.ExitCode()]. *)
Definition ExitCode (ws : wait_status) : Z :=
  match ws with
  | Exited code => code
  | Signaled _ => -1
  end.
End exec.

(** ** [app/main.go] *)

Module MainGo.

Record registryTokenSvcResponse : Type := mkTokenResponse { Token : string }.

Record layer : Type := mkLayer {
  MediaType : string;
  Size : Z;
  Digest : string
}.

Record manifestResponse : Type := mkManifest { Layers : list layer }.

(** The struct tags [json:"token"], [json:"mediaType"], [json:"size"],
    [json:"digest"] and [json:"layers"]. *)
Definition token_field (cur : registryTokenSvcResponse) (k : string) (v : json)
  : option registryTokenSvcResponse :=
  if json_decode.selects k "token"
  then option_map mkTokenResponse (json_decode.into_string (Token cur) v)
  else Some cur.

Definition layer_field (cur : layer) (k : string) (v : json) : option layer :=
  if json_decode.selects k "mediaType"
  then option_map (fun s => mkLayer s (Size cur) (Digest cur))
                  (json_decode.into_string (MediaType cur) v)
  else if json_decode.selects k "size"
  then option_map (fun z => mkLayer (MediaType cur) z (Digest cur))
                  (json_decode.into_int64 (Size cur) v)
  else if json_decode.selects k "digest"
  then option_map (fun s => mkLayer (MediaType cur) (Size cur) s)
                  (json_decode.into_string (Digest cur) v)
  else Some cur.

Definition manifest_field (cur : manifestResponse) (k : string) (v : json)
  : option manifestResponse :=
  if json_decode.selects k "layers"
  then option_map mkManifest
         (json_decode.into_slice
            (json_decode.into_struct layer_field) (mkLayer "" 0 "")
            (Layers cur) v)
  else Some cur.

(** [nullReader.Read]: the buffer after the call, the count and the error
    returned.  The buffer is not written to. *)
Definition nullReader_Read (p : list ascii) : list ascii * Z * option error :=
  (p, Z.of_nat (List.length p), None).

Section WithWorld.
Variable w : World.

Definition copy (src dst : string) : M unit :=
  do in_ <- os.Open src;
  do info <- os.Stat src;
  do out <- os.Create w dst;
  do data <- os.read_all in_ out;
  os.write_all out data ;;
  os.Chmod dst (os.Mode_of info).

Definition registryLogin (image : string) : M string :=
  let imageSplit := strings.Split image ":" in
  do name <- index imageSplit 0;
  let url := "https://auth.docker.io/token?service=registry.docker.io&scope=repository:library/"
             +:+ name +:+ ":pull" in
  do resp <- http.Get w url;
  if decide (StatusCode resp <> http.StatusOK) then
    fail (ErrStatus "failed to get docker registry token" (StatusCode resp))
  else
    do response <- json_decode.Decode
                     (json_decode.into_struct token_field (mkTokenResponse ""))
                     (Body resp);
    ret (Token response).

Definition fetchManifest (token image : string) : M manifestResponse :=
  let imageSplit := strings.Split image ":" in
  do name <- index imageSplit 0;
  do tag <- index imageSplit 1;
  let url := "https://registry.hub.docker.com/v2/library/" +:+ name
             +:+ "/manifests/" +:+ tag in
  do req <- http.NewRequest w url;
  let req := http.Header_Add req "Authorization" ("Bearer " +:+ token) in
  let req := http.Header_Add req "Accept"
               "application/vnd.docker.distribution.manifest.v2+json" in
  do resp <- http.Do w req;
  if decide (StatusCode resp <> http.StatusOK) then
    fail (ErrStatus "failed to get image manifest" (StatusCode resp))
  else
    json_decode.Decode
      (json_decode.into_struct manifest_field (mkManifest []))
      (Body resp).

(** One turn of the loop over the archive, for the entry [tr.Next()]
    delivered. *)
Definition extractEntry (rootDir : string) (e : tar_entry) : M unit :=
  let '(header, data) := e in
  let target := filepath.Join [rootDir; Name header] in
  if decide (Typeflag header = tar.TypeDir) then
    do st <- catch (os.Stat target);
    match st with
    | inr _ => os.MkdirAll w target 493
    | inl _ => ret tt
    end
  else if decide (Typeflag header = tar.TypeReg) then
    do f <- os.OpenFile w target (Z.lor os.O_CREATE os.O_RDWR)
              (os.FileMode (Mode header));
    os.write_all f data
  else ret tt.

Fixpoint extractEntries (rootDir : string) (es : list tar_entry) : M unit :=
  match es with
  | [] => ret tt
  | e :: rest => extractEntry rootDir e ;; extractEntries rootDir rest
  end.

Definition extractLayer (token image digest rootDir : string) : M unit :=
  let imageSplit := strings.Split image ":" in
  do name <- index imageSplit 0;
  let url := "https://registry.hub.docker.com/v2/library/" +:+ name
             +:+ "/blobs/" +:+ digest in
  do req <- http.NewRequest w url;
  let req := http.Header_Add req "Authorization" ("Bearer " +:+ token) in
  do resp <- http.Do w req;
  if decide (StatusCode resp <> http.StatusOK) then
    fail (ErrStatus "failed to get image manifest" (StatusCode resp))
  else
    do tr <- tar.NewReader (Body resp);
    extractEntries rootDir tr.1 ;;
    match tr.2 with
    | EndOfArchive => ret tt
    | StreamError => fail ErrTar
    end.

(** The loop of [main] over [manifest.Layers]. *)
Fixpoint extractLayers (token image : string) (layers : list layer)
         (chrootRoot : string) : M unit :=
  match layers with
  | [] => ret tt
  | l :: rest =>
      must (extractLayer token image (Digest l) chrootRoot) ;;
      extractLayers token image rest chrootRoot
  end.

(** The statements of [main] that stage the command inside the root:
    the directory of the command is created there and the binary of
    the host is copied to the same path below the root. *)
Definition stageCommand (chrootRoot command : string) : M unit :=
  let commandDir := filepath.Dir command in
  let commandName := filepath.Base command in
  let chrootCommandDir := filepath.Join [chrootRoot; commandDir] in
  let chrootCommand := filepath.Join [chrootCommandDir; commandName] in
  must (os.MkdirAll w chrootCommandDir os.ModePerm) ;;
  must (copy command chrootCommand).

(** The end of [main]: the child runs with its root changed and in a
    new PID name space; an exit error ends the process with the exit
    code of the child, any other outcome lets [main] return. *)
Definition runCommand (chrootRoot command : string) (args : list string)
  : M unit :=
  do err <- catch (exec.Run w chrootRoot command args);
  match err with
  | inr (ErrExit ws) => os_Exit (exec.ExitCode ws)
  | _ => ret tt
  end.

(** The statements of [main] after the removal of the temporary
    directory has been deferred. *)
Definition main_body (image command : string) (args : list string)
           (dir : string) : M unit :=
  let chrootRoot := filepath.Join ["/tmp"; dir] in
  do token <- must (registryLogin image);
  do manifest <- must (fetchManifest token image);
  extractLayers token image (Layers manifest) chrootRoot ;;
  stageCommand chrootRoot command ;;
  runCommand chrootRoot command args.

(** [main], on the arguments of the process ([os.Args]). *)
Definition main (Args : list string) : M unit :=
  do image <- index Args 2;
  do command <- index Args 3;
  let args := drop 4 Args in
  do dir <- must (os.TempDir w "/tmp" "docker");
  defer (os.RemoveAll dir) (main_body image command args dir).

End WithWorld.

End MainGo.

(** ** The revision of the file that runs [tar] (tag resolution) *)

Module Part001.
Import MainGo.

Section WithWorld.
Variable w : World.

(** [fetchManifest] of this revision: the tag is the second component
    of the reference when there are exactly two, [latest] otherwise. *)
Definition fetchManifest (token image : string) : M manifestResponse :=
  let imageSplit := strings.Split image ":" in
  let tag := if decide (List.length imageSplit = 2%nat)
             then default "latest" (imageSplit !! 1%nat)
             else "latest" in
  do name <- index imageSplit 0;
  let url := "https://registry.hub.docker.com/v2/library/" +:+ name
             +:+ "/manifests/" +:+ tag in
  do req <- http.NewRequest w url;
  let req := http.Header_Add req "Authorization" ("Bearer " +:+ token) in
  let req := http.Header_Add req "Accept"
               "application/vnd.docker.distribution.manifest.v2+json" in
  do resp <- http.Do w req;
  if decide (StatusCode resp <> http.StatusOK) then
    fail (ErrStatus "failed to get image manifest" (StatusCode resp))
  else
    json_decode.Decode
      (json_decode.into_struct manifest_field (mkManifest []))
      (Body resp).

End WithWorld.
End Part001.

(** ** The revision of the file that truncates on extraction *)

Module Part000.

(** [header.FileInfo().Mode()], the bits that matter to [os]: permission
    bits, setuid, setgid and sticky translated from their tar encoding,
    and the directory bit. *)
Definition FileInfo_Mode (h : tar_header) : Z :=
  let m := os.FileMode (Mode h) in
  let perm := Z.land m os.ModePerm in
  let suid := if Z.testbit (Mode h) 11 then os.ModeSetuid else 0 in
  let sgid := if Z.testbit (Mode h) 10 then os.ModeSetgid else 0 in
  let svtx := if Z.testbit (Mode h) 9 then os.ModeSticky else 0 in
  let isdir := if decide (Z.land m (Z.lnot 4095) = 16384 \/ Typeflag h = tar.TypeDir)
               then os.ModeDir else 0 in
  Z.lor perm (Z.lor suid (Z.lor sgid (Z.lor svtx isdir))).

Definition FileInfo_IsDir (h : tar_header) : bool :=
  Z.testbit (FileInfo_Mode h) 31.

Section WithWorld.
Variable w : World.

Definition extractEntry (rootDir : string) (e : tar_entry) : M unit :=
  let '(header, data) := e in
  let path := filepath.Join [rootDir; Name header] in
  if FileInfo_IsDir header then
    os.MkdirAll w path (FileInfo_Mode header)
  else
    do file <- os.OpenFile w path
                 (Z.lor os.O_CREATE (Z.lor os.O_TRUNC os.O_WRONLY))
                 (FileInfo_Mode header);
    os.write_all file data.

Fixpoint extractEntries (rootDir : string) (es : list tar_entry) : M unit :=
  match es with
  | [] => ret tt
  | e :: rest => extractEntry rootDir e ;; extractEntries rootDir rest
  end.

End WithWorld.
End Part000.

(** ** [io.Copy] from a reader, as [os/exec] runs it for a standard input
    that is not a file: the bytes go to the pipe the child reads. *)

Module io.

(** An [io.Reader]: the buffer after the call, the count and the error. *)
Definition Reader : Type := list ascii -> list ascii * Z * option error.

(** A call returns as at the end of the input: no byte, and [io.EOF]. *)
Definition at_EOF (r : list ascii * Z * option error) : Prop :=
  r.1.2 = 0 /\ r.2 = Some ErrEOF.

(** The loop of [io.Copy], [rounds] reads long: the bytes written so far,
    and the result of the copy when it has ended ([None] while it has
    not; [io.EOF] ends it without error). *)
Fixpoint Copy_rounds (src : Reader) (buf : list ascii) (rounds : nat)
  : list ascii * option (option error) :=
  match rounds with
  | O => ([], None)
  | S n =>
      let '(buf', nr, er) := src buf in
      let written := if (0 <? nr)%Z then take (Z.to_nat nr) buf' else [] in
      match er with
      | Some ErrEOF => (written, Some None)
      | Some e => (written, Some (Some e))
      | None =>
          let '(more, ended) := Copy_rounds src buf' n in
          (written ++ more, ended)
      end
  end.

(** The buffer [io.Copy] allocates: 32 KiB of zero bytes. *)
Definition copy_buffer : list ascii := repeat zero (Z.to_nat 32768).

End io.

(** ** Runs and their logs *)

(** The state a run starts from: a file system and nothing logged. *)
Definition boot (m : gmap string node) : state := mkState m [].

(** The requests sent, in order. *)
Fixpoint requests (l : list event) : list request :=
  match l with
  | [] => []
  | EHttp req :: rest => req :: requests rest
  | _ :: rest => requests rest
  end.

(** The paths [os.RemoveAll] was called on, in order. *)
Fixpoint removals (l : list event) : list string :=
  match l with
  | [] => []
  | ERemoveAll path :: rest => path :: removals rest
  | _ :: rest => removals rest
  end.

(** The registry answered [req] with a status other than 200. *)
Definition non200 (w : World) (req : request) : Prop :=
  match round_trip w req with
  | Some resp => StatusCode resp <> http.StatusOK
  | None => False
  end.

(** An event other than a request answered with a status other than 200. *)
Definition good (w : World) (e : event) : Prop :=
  match e with
  | EHttp req => ~ non200 w req
  | _ => True
  end.

Definition is_http (e : event) : Prop :=
  match e with EHttp _ => True | _ => False end.

Definition is_spawn (e : event) : Prop :=
  match e with ESpawn _ _ _ _ => True | _ => False end.

Definition is_remove (e : event) : Prop :=
  match e with ERemoveAll _ => True | _ => False end.

(** The request carries [token] as its bearer credential. *)
Definition has_bearer (token : string) (req : request) : Prop :=
  http.Header_Get (Header req) "Authorization" = Some ("Bearer " +:+ token).

(** The result of a computation, its value forgotten. *)
Definition outcome {A} (r : res A) : res unit :=
  match r with
  | Val _ => Val tt
  | Fail e => Fail e
  | Panic v => Panic v
  | Exit c => Exit c
  end.

(** The request [registryLogin] sends for an image reference. *)
Definition token_request (image : string) : request :=
  mkRequest ("https://auth.docker.io/token?service=registry.docker.io&scope=repository:library/"
             +:+ default "" (strings.Split image ":" !! 0%nat) +:+ ":pull") [].

(** The URL of the manifest of [name] at [tag], and the request for it. *)
Definition manifest_url (name tag : string) : string :=
  "https://registry.hub.docker.com/v2/library/" +:+ name +:+ "/manifests/" +:+ tag.

Definition manifest_request (token name tag : string) : request :=
  mkRequest (manifest_url name tag)
    [("Authorization", "Bearer " +:+ token);
     ("Accept", "application/vnd.docker.distribution.manifest.v2+json")].

(** The request [extractLayer] sends for a layer of an image. *)
Definition blob_request (token image digest : string) : request :=
  mkRequest ("https://registry.hub.docker.com/v2/library/"
             +:+ default "" (strings.Split image ":" !! 0%nat) +:+ "/blobs/" +:+ digest)
    [("Authorization", "Bearer " +:+ token)].

(** The entries of the archive the registry serves for a layer. *)
Definition layer_entries (w : World) (token image digest : string)
  : list tar_entry :=
  match round_trip w (blob_request token image digest) with
  | Some (mkResponse _ (BodyGzipTar es _)) => es
  | _ => []
  end.

(** [e] is a regular-file entry unpacked at the canonical name [t] when the
    root is [rootDir]. *)
Definition writes_to (rootDir t : string) (e : tar_entry) : Prop :=
  Typeflag e.1 = tar.TypeReg /\ os.key (filepath.Join [rootDir; Name e.1]) = t.

(** The path of the command inside the root, as [main] computes it. *)
Definition chrootCommand (chrootRoot command : string) : string :=
  filepath.Join [filepath.Join [chrootRoot; filepath.Dir command];
                 filepath.Base command].

(** [t] names a regular file of mode [mode]. *)
Definition file_with_mode (m : gmap string node) (t : string) (mode : Z) : Prop :=
  exists data, m !! t = Some (File mode data).

(** The regular file at [t], if there is one, holds at most [n] bytes. *)
Definition holds_at_most (m : gmap string node) (t : string) (n : nat) : Prop :=
  forall mode data, m !! t = Some (File mode data) -> (String.length data <= n)%nat.

(** The regular-file entries of [es] unpacked at [t] carry at most [n]
    bytes each. *)
Definition writes_at_most (rootDir t : string) (n : nat) (es : list tar_entry)
  : Prop :=
  Forall (fun e => writes_to rootDir t e -> (String.length e.2 <= n)%nat) es.

(** ** The shape of the log of a run *)

(** An event of the stages that fill the root: a change of the file system
    other than a removal. *)
Definition is_fs_event (e : event) : Prop :=
  match e with
  | EHttp _ | ESpawn _ _ _ _ | ERemoveAll _ => False
  | _ => True
  end.

(** An event of a stage that went on: a change of the file system, or a
    request that carried [token] and was not answered with a status other
    than 200. *)
Definition tame (w : World) (token : string) (e : event) : Prop :=
  match e with
  | EHttp req => has_bearer token req /\ ~ non200 w req
  | ESpawn _ _ _ _ | ERemoveAll _ => False
  | _ => True
  end.

(** [r] is the error of a status other than 200 in answer to [req], as a
    stage returns it or as [main] panics with it. *)
Definition refused (w : World) (req : request) (r : res unit) : Prop :=
  exists resp what,
    round_trip w req = Some resp
    /\ StatusCode resp <> http.StatusOK
    /\ (r = Fail (ErrStatus what (StatusCode resp))
        \/ r = Panic (PanicErr (ErrStatus what (StatusCode resp)))).

(** The events of stages that use [token]: all tame, or tame up to a last
    request that was refused, the stages ending with that error. *)
Definition trace (w : World) (token : string) (r : res unit) (l : list event)
  : Prop :=
  Forall (tame w token) l
  \/ exists pre req,
       l = pre ++ [EHttp req]
       /\ Forall (tame w token) pre
       /\ has_bearer token req
       /\ refused w req r.

(** [m] adds to the log only changes of the file system. *)
Definition quiet {A} (m : M A) : Prop :=
  forall st, exists l, log (m st).2 = log st ++ l /\ Forall is_fs_event l.

(** [m] adds to the log a trace of stages that use [token]. *)
Definition traced {A} (w : World) (token : string) (m : M A) : Prop :=
  forall st, exists l,
    log (m st).2 = log st ++ l /\ trace w token (outcome (m st).1) l.

(** The token [registryLogin] obtains for an image, if it obtains one. *)
Definition login_token (w : World) (image : string) : option string :=
  match round_trip w (token_request image) with
  | Some resp =>
      if decide (StatusCode resp <> http.StatusOK) then None
      else match Body resp with
           | BodyJSON j =>
               option_map MainGo.Token
                 (json_decode.into_struct MainGo.token_field
                    (MainGo.mkTokenResponse "") j)
           | _ => None
           end
  | None => None
  end.

(** The layers of the manifest [fetchManifest] obtains with [token] for
    [name] at [tag]; none when it obtains no manifest. *)
Definition manifest_layers (w : World) (token name tag : string)
  : list MainGo.layer :=
  match round_trip w (manifest_request token name tag) with
  | Some resp =>
      if decide (StatusCode resp <> http.StatusOK) then []
      else match Body resp with
           | BodyJSON j =>
               match json_decode.into_struct MainGo.manifest_field
                       (MainGo.mkManifest []) j with
               | Some manifest => MainGo.Layers manifest
               | None => []
               end
           | _ => []
           end
  | None => []
  end.

(** How [main] ends once the child has been run. *)
Definition after_run (r : run_result) : res unit :=
  match r with
  | Started (Exited 0) => Val tt
  | Started ws => Exit (exec.ExitCode ws)
  | StartFailed => Val tt
  end.

(** The events of the body of [main] and its result: the login fails, with
    its request as the only possible event; or it yields a token, the
    stages that use the token leave their trace, and the child is run when
    they all succeeded. *)
Definition body_shape (w : World) (image command : string) (args : list string)
           (dir : string) (r : res unit) (lb : list event) : Prop :=
  ((lb = [] \/ lb = [EHttp (token_request image)])
   /\ (exists v, r = Panic v)
   /\ (lb <> [] -> non200 w (token_request image) -> refused w (token_request image) r))
  \/ exists token lA lrun rA,
       lb = EHttp (token_request image) :: lA ++ lrun
       /\ login_token w image = Some token
       /\ trace w token rA lA
       /\ ((rA = Val tt
            /\ exists rr, lrun = [ESpawn (filepath.Join ["/tmp"; dir]) command args rr]
                          /\ r = after_run rr)
           \/ ((forall u, rA <> Val u) /\ lrun = [] /\ r = rA)).

(** [m] leaves a trace of stages that use [token] and then, when they
    succeeded, runs the child and ends as [main] does after it. *)
Definition runs (w : World) (token chrootRoot command : string)
           (args : list string) (m : M unit) : Prop :=
  forall st, exists lA lrun rA,
    log (m st).2 = log st ++ lA ++ lrun
    /\ trace w token rA lA
    /\ ((rA = Val tt
         /\ exists rr, lrun = [ESpawn chrootRoot command args rr]
                       /\ (m st).1 = after_run rr)
        \/ ((forall u, rA <> Val u) /\ lrun = [] /\ (m st).1 = rA)).

(** ** What a computation leaves alone *)

(** [m] does not change what the file system holds at [k]. *)
Definition frames {A} (m : M A) (k : string) : Prop :=
  forall st, fs (m st).2 !! k = fs st !! k.

(** Two nodes of the same kind and mode. *)
Definition same_shape (n n' : node) : Prop :=
  match n, n' with
  | Dir mode, Dir mode' => mode = mode'
  | File mode _, File mode' _ => mode = mode'
  | _, _ => False
  end.

(** [m] removes no node and changes neither the kind nor the mode of one. *)
Definition persists {A} (m : M A) : Prop :=
  forall st k n, fs st !! k = Some n ->
                 exists n', fs (m st).2 !! k = Some n' /\ same_shape n n'.

(** The entries the extraction loop of [app/main.go] acts on. *)
Definition handled (e : tar_entry) : Prop :=
  Typeflag e.1 = tar.TypeDir \/ Typeflag e.1 = tar.TypeReg.

#[global] Instance handled_dec (e : tar_entry) : Decision (handled e).
Proof. unfold handled. apply _. Defined.

(** ** A sample registry and host *)

Module Sample.

Definition layer_a : list tar_entry :=
  [(mkHeader "bin/" tar.TypeDir 493, "");
   (mkHeader "bin/echo" tar.TypeReg 493, "busybox-echo");
   (mkHeader "etc/" tar.TypeDir 493, "");
   (mkHeader "etc/motd" tar.TypeReg 420, "hello")].

Definition layer_b : list tar_entry :=
  [(mkHeader "etc/" tar.TypeDir 493, "");
   (mkHeader "etc/motd" tar.TypeReg 384, "hi")].

(** A layer with [etc/motd] again: another mode, as many bytes. *)
Definition layer_c : list tar_entry :=
  [(mkHeader "etc/" tar.TypeDir 493, "");
   (mkHeader "etc/motd" tar.TypeReg 384, "howdy")].

Definition manifest_json : json :=
  JObject [("schemaVersion", JInt 2);
           ("layers", JArray [JObject [("mediaType", JString "layer");
                                       ("size", JInt 12);
                                       ("digest", JString "sha256:a")];
                              JObject [("digest", JString "sha256:b")]])].

(** The registry: [token_json] is what the token service answers, and
    [blob_status] the status of the second layer's blob. *)
Definition registry (token_json : json) (blob_status : Z) (req : request)
  : option response :=
  if decide (URL req = "https://auth.docker.io/token?service=registry.docker.io&scope=repository:library/busybox:pull")
  then Some (mkResponse 200 (BodyJSON token_json))
  else if decide (URL req = "https://registry.hub.docker.com/v2/library/busybox/manifests/latest")
  then Some (mkResponse 200 (BodyJSON manifest_json))
  else if decide (URL req = "https://registry.hub.docker.com/v2/library/busybox/blobs/sha256:a")
  then Some (mkResponse 200 (BodyGzipTar layer_a EndOfArchive))
  else if decide (URL req = "https://registry.hub.docker.com/v2/library/busybox/blobs/sha256:b")
  then Some (mkResponse blob_status (BodyGzipTar layer_b EndOfArchive))
  else if decide (URL req = "https://registry.hub.docker.com/v2/library/busybox/blobs/sha256:c")
  then Some (mkResponse 200 (BodyGzipTar layer_c EndOfArchive))
  else Some (mkResponse 404 BodyOther).

(** A world whose child ends as [r]; the umask is 022. *)
Definition world (token_json : json) (blob_status : Z) (r : run_result) : World :=
  mkWorld (fun _ => true) (registry token_json blob_status)
          (fun _ => "123") 18 (fun _ _ _ _ => r).

Definition token_ok : json := JObject [("token", JString "tok")].

Definition host : gmap string node :=
  <["/tmp" := Dir 511]> (<["/bin" := Dir 493]> (<["/bin/echo" := File 493 "ELF"]> ∅)).

Definition Args : list string :=
  ["your_docker"; "run"; "busybox:latest"; "/bin/echo"; "hello"].

Definition Args_no_tag : list string :=
  ["your_docker"; "run"; "busybox"; "/bin/echo"; "hello"].

Definition layers : list MainGo.layer :=
  [MainGo.mkLayer "layer" 12 "sha256:a"; MainGo.mkLayer "" 0 "sha256:b"].

(** Two layers with [etc/motd], the second one [layer_c]. *)
Definition layers_ac : list MainGo.layer :=
  [MainGo.mkLayer "layer" 12 "sha256:a"; MainGo.mkLayer "" 0 "sha256:c"].

(** The root of the sample run, and a state where it exists. *)
Definition root : string := "/tmp/tmp/docker123".

(** The state once the two layers of the sample are unpacked. *)
Definition unpacked : state :=
  (MainGo.extractLayers (world token_ok 200 (Started (Exited 0)))
     "tok" "busybox:latest" layers root (boot host)).2.

End Sample.

(** * Properties *)

(** ** Strings *)

Lemma append_cons (c : ascii) (a b : string) :
  String c a +:+ b = String c (a +:+ b).
Proof. reflexivity. Qed.

Lemma append_empty (b : string) : "" +:+ b = b.
Proof. reflexivity. Qed.

Lemma split_byte_not_nil sep s : strings.split_byte sep s <> [].
Proof.
  destruct s as [|c r]; simpl; [discriminate|].
  destruct (decide (c = sep)); [discriminate|].
  destruct (strings.split_byte sep r); discriminate.
Qed.

Lemma split_byte_absent sep s :
  strings.contains_byte sep s = false -> strings.split_byte sep s = [s].
Proof.
  induction s as [|c r IH]; simpl; [reflexivity|].
  destruct (decide (c = sep)); [discriminate|].
  intros H. rewrite (IH H). reflexivity.
Qed.

Lemma split_byte_once sep a b :
  strings.contains_byte sep a = false ->
  strings.contains_byte sep b = false ->
  strings.split_byte sep (a +:+ String sep b) = [a; b].
Proof.
  intros Ha Hb. induction a as [|c r IH].
  - rewrite append_empty. simpl. rewrite decide_True by reflexivity.
    now rewrite split_byte_absent.
  - rewrite append_cons. simpl in *.
    destruct (decide (c = sep)); [discriminate|].
    now rewrite IH.
Qed.

Lemma split_byte_length sep s :
  List.length (strings.split_byte sep s) = S (strings.count_byte sep s).
Proof.
  induction s as [|c r IH]; simpl; [reflexivity|].
  destruct (decide (c = sep)); simpl; [now rewrite IH|].
  destruct (strings.split_byte sep r) eqn:E; simpl in *; lia.
Qed.

(** ** Tag resolution *)

Section TagResolution.
Variable w : World.

(** In [app/main.go] a reference [name:tag] is resolved to [tag]: the
    manifest request goes to the manifest URL of [name] at [tag]. *)
Lemma MainGo_fetchManifest_tagged token name tag st :
  strings.contains_byte ":" name = false ->
  strings.contains_byte ":" tag = false ->
  url_parses w (manifest_url name tag) = true ->
  log (MainGo.fetchManifest w token (name +:+ String ":" tag) st).2
  = log st ++ [EHttp (manifest_request token name tag)].
Proof.
  intros Hn Ht Hu. unfold MainGo.fetchManifest, strings.Split.
  rewrite split_byte_once by assumption.
  unfold bind, index, http.NewRequest; simpl.
  fold (manifest_url name tag). rewrite Hu. simpl.
  unfold http.Do, bind, emit, http.Header_Add; simpl.
  fold (manifest_request token name tag).
  destruct (round_trip w _) as [resp|]; simpl; [|reflexivity].
  destruct (decide (StatusCode resp <> http.StatusOK)); simpl; [reflexivity|].
  unfold json_decode.Decode.
  destruct (Body resp); simpl; try reflexivity.
  destruct (json_decode.into_struct _ _ _); reflexivity.
Qed.

(** In [app/main.go] a reference without a colon makes [fetchManifest]
    panic on [imageSplit[1]] before any request is built. *)
Lemma MainGo_fetchManifest_untagged token image st :
  strings.contains_byte ":" image = false ->
  MainGo.fetchManifest w token image st = (Panic (IndexOutOfRange 1 1), st).
Proof.
  intros H. unfold MainGo.fetchManifest, strings.Split.
  rewrite split_byte_absent by assumption. reflexivity.
Qed.

(** The revision with the default: [name:tag] asks for [tag], a reference
    without a colon asks for [latest]. *)
Lemma Part001_fetchManifest_tagged token name tag st :
  strings.contains_byte ":" name = false ->
  strings.contains_byte ":" tag = false ->
  url_parses w (manifest_url name tag) = true ->
  log (Part001.fetchManifest w token (name +:+ String ":" tag) st).2
  = log st ++ [EHttp (manifest_request token name tag)].
Proof.
  intros Hn Ht Hu. unfold Part001.fetchManifest, strings.Split.
  rewrite split_byte_once by assumption.
  unfold bind, index, http.NewRequest; simpl.
  fold (manifest_url name tag). rewrite Hu. simpl.
  unfold http.Do, bind, emit, http.Header_Add; simpl.
  fold (manifest_request token name tag).
  destruct (round_trip w _) as [resp|]; simpl; [|reflexivity].
  destruct (decide (StatusCode resp <> http.StatusOK)); simpl; [reflexivity|].
  unfold json_decode.Decode.
  destruct (Body resp); simpl; try reflexivity.
  destruct (json_decode.into_struct _ _ _); reflexivity.
Qed.

(** In the revision with the default, a reference without a colon asks for
    the tag [latest] of the image it names. *)
Lemma Part001_fetchManifest_untagged token image st :
  strings.contains_byte ":" image = false ->
  url_parses w (manifest_url image "latest") = true ->
  log (Part001.fetchManifest w token image st).2
  = log st ++ [EHttp (manifest_request token image "latest")].
Proof.
  intros Hi Hu. unfold Part001.fetchManifest, strings.Split.
  rewrite split_byte_absent by assumption.
  unfold bind, index, http.NewRequest; simpl.
  fold (manifest_url image "latest"). rewrite Hu. simpl.
  unfold http.Do, bind, emit, http.Header_Add; simpl.
  fold (manifest_request token image "latest").
  destruct (round_trip w _) as [resp|]; simpl; [|reflexivity].
  destruct (decide (StatusCode resp <> http.StatusOK)); simpl; [reflexivity|].
  unfold json_decode.Decode.
  destruct (Body resp); simpl; try reflexivity.
  destruct (json_decode.into_struct _ _ _); reflexivity.
Qed.

End TagResolution.

(** C1 (the code departs from the claim).  In [app/main.go] the reference
    [busybox], which has no colon, does not make the Manifest Resolver ask
    for the tag [latest]: [fetchManifest] panics with an index out of range
    on [imageSplit[1]], sends no request and leaves the state as it was. *)
Theorem C1_untagged_reference_panics (w : World) (token : string) (st : state) :
  MainGo.fetchManifest w token "busybox" st = (Panic (IndexOutOfRange 1 1), st).
Proof. apply MainGo_fetchManifest_untagged. reflexivity. Qed.

(** ** The reader given to the child as standard input *)

Lemma concat_repeat_repeat {A} (x : A) (k n : nat) :
  List.concat (repeat (repeat x k) n) = repeat x (n * k).
Proof.
  induction n as [|n IH]; simpl; [reflexivity|].
  now rewrite IH, repeat_app.
Qed.

Lemma Copy_rounds_nullReader (buf : list ascii) (rounds : nat) :
  io.Copy_rounds MainGo.nullReader_Read buf rounds
  = (List.concat (repeat buf rounds), None).
Proof.
  induction rounds as [|n IH]; [reflexivity|].
  cbn [io.Copy_rounds MainGo.nullReader_Read]. rewrite IH.
  cbn [repeat List.concat]. f_equal. f_equal.
  rewrite Nat2Z.id.
  destruct (0 <? Z.of_nat (List.length buf)) eqn:E.
  - apply firstn_all.
  - apply Z.ltb_ge in E. destruct buf; [reflexivity|simpl in E; lia].
Qed.

(** C5 (the code departs from the claim).  The standard input of the child
    is no empty stream: no read on the [nullReader] returns as at the end
    of the input, and the copy that feeds the standard input of the child
    has, after any number of rounds, not ended and has delivered 32768
    zero bytes per round.  A child that reads its input to the end never
    gets there. *)
Theorem C5_nullReader_never_reports_end_of_input (rounds : nat) :
  (forall p, ~ io.at_EOF (MainGo.nullReader_Read p))
  /\ io.Copy_rounds MainGo.nullReader_Read io.copy_buffer rounds
     = (repeat zero (rounds * Z.to_nat 32768), None).
Proof.
  split.
  - intros p [_ H]. discriminate H.
  - rewrite Copy_rounds_nullReader. unfold io.copy_buffer.
    now rewrite concat_repeat_repeat.
Qed.

(** A read into a buffer of 32768 bytes returns 32768 and no error, not
    the end of the input, and after one round of the copy the child has
    32768 bytes to read. *)
Lemma nullReader_read_is_not_at_end_of_input :
  (MainGo.nullReader_Read io.copy_buffer).1.2 = 32768
  /\ (MainGo.nullReader_Read io.copy_buffer).2 = None
  /\ ~ io.at_EOF (MainGo.nullReader_Read io.copy_buffer)
  /\ List.length (io.Copy_rounds MainGo.nullReader_Read io.copy_buffer 1).1
     = Z.to_nat 32768.
Proof.
  assert (Hlen : List.length io.copy_buffer = Z.to_nat 32768)
    by apply repeat_length.
  split; [unfold MainGo.nullReader_Read; cbn [fst snd]; rewrite Hlen; lia|].
  split; [reflexivity|].
  split; [intros [_ H]; discriminate H|].
  rewrite Copy_rounds_nullReader. cbn [repeat List.concat fst].
  now rewrite app_nil_r.
Qed.

(** ** Directory entries *)

(** C9.  A directory entry whose target already exists is no error: the
    turn of the extraction loop for it returns [nil] and changes nothing. *)
Theorem C9_existing_directory_entry_is_no_error
        (w : World) (rootDir : string) (header : tar_header) (data : string)
        (st : state) (n : node) :
  Typeflag header = tar.TypeDir ->
  os.node_at (fs st) (os.key (filepath.Join [rootDir; Name header])) = Some n ->
  MainGo.extractEntry w rootDir (header, data) st = (Val tt, st).
Proof.
  intros Ht Hn. unfold MainGo.extractEntry.
  rewrite decide_True by assumption.
  unfold bind, catch, os.Stat, get_fs, bind. simpl. rewrite Hn. reflexivity.
Qed.

Lemma C9_existing_directory_entry_witness :
  MainGo.extractEntry (Sample.world Sample.token_ok 200 (Started (Exited 0)))
    "/" (mkHeader "tmp/" tar.TypeDir 493, "") (boot Sample.host)
  = (Val tt, boot Sample.host).
Proof.
  apply (C9_existing_directory_entry_is_no_error _ _ _ _ _ (Dir 511)).
  - reflexivity.
  - vm_compute. reflexivity.
Defined.

(** ** The file system under the calls of the program *)

Lemma overwrite_prefix (data old : string) :
  String.prefix data (os.overwrite data old) = true.
Proof.
  revert old. induction data as [|c r IH]; intros old; simpl.
  - destruct old; reflexivity.
  - destruct (ascii_dec c c); [apply IH|congruence].
Qed.

Lemma overwrite_empty (data : string) : os.overwrite data "" = data.
Proof. induction data as [|c r IH]; simpl; [reflexivity|now rewrite IH]. Qed.

Lemma overwrite_short (data old : string) :
  (String.length old <= String.length data)%nat -> os.overwrite data old = data.
Proof.
  revert old. induction data as [|c r IH]; intros old H; simpl in *.
  - destruct old; [reflexivity|simpl in H; lia].
  - f_equal. apply IH. destruct old; simpl in *; lia.
Qed.

Lemma overwrite_length (data old : string) (n : nat) :
  (String.length data <= n)%nat -> (String.length old <= n)%nat ->
  (String.length (os.overwrite data old) <= n)%nat.
Proof.
  revert old n. induction data as [|c r IH]; intros old n Hd Ho; simpl in *;
    [assumption|].
  destruct n as [|n]; [lia|].
  apply le_n_S, IH; [lia|destruct old; simpl in *; lia].
Qed.

Lemma node_at_None (m : gmap string node) (k : string) :
  os.node_at m k = None -> m !! k = None.
Proof. unfold os.node_at. repeat case_decide; congruence. Qed.

Lemma name_of_a_file (m : gmap string node) (name : string) mode data :
  os.node_at m (os.key name) = Some (File mode data) -> name <> "".
Proof. intros H ->. vm_compute in H. discriminate H. Qed.

Lemma node_at_File (m : gmap string node) (k : string) mode data :
  os.node_at m k = Some (File mode data) -> m !! k = Some (File mode data).
Proof. unfold os.node_at. repeat case_decide; congruence. Qed.

Section FileSystem.
Variable w : World.

Lemma mkdir_chain_keeps perm ks (m : gmap string node) k n :
  m !! k = Some n -> (os.mkdir_chain w perm ks m).1 !! k = Some n.
Proof.
  revert m. induction ks as [|a ks IH]; intros m Hk; simpl; [assumption|].
  destruct (os.node_at m a) as [[dm|fm fd]|] eqn:E; simpl; auto.
  apply IH. apply node_at_None in E.
  rewrite lookup_insert_ne; [assumption|congruence].
Qed.

Lemma MkdirAll_keeps path perm st k n :
  fs st !! k = Some n -> fs (os.MkdirAll w path perm st).2 !! k = Some n.
Proof.
  intros Hk. unfold os.MkdirAll, bind, emit, get_fs, put_fs. simpl.
  pose proof (mkdir_chain_keeps perm (filepath.ancestors path) (fs st) k n Hk) as H.
  destruct (os.mkdir_chain w perm (filepath.ancestors path) (fs st)) as [m' [e|]];
    simpl in *; assumption.
Qed.

(** A turn of the extraction loop keeps an existing regular file a regular
    file of the same mode. *)
Lemma extractEntry_keeps_mode rootDir e st t mode :
  file_with_mode (fs st) t mode ->
  file_with_mode (fs (MainGo.extractEntry w rootDir e st).2) t mode.
Proof.
  intros [c Hc]. destruct e as [h d]. unfold MainGo.extractEntry.
  set (target := filepath.Join [rootDir; Name h]).
  destruct (decide (Typeflag h = tar.TypeDir)).
  - unfold bind, catch, os.Stat, get_fs, bind. simpl.
    destruct (os.node_at (fs st) (os.key target)); simpl; [exists c; assumption|].
    exists c. now apply MkdirAll_keeps.
  - destruct (decide (Typeflag h = tar.TypeReg)); [|exists c; assumption].
    unfold bind, os.OpenFile, os.write_all, bind, emit, get_fs, put_fs. simpl.
    destruct (os.node_at (fs st) (os.key target)) as [[dm|fm fd]|] eqn:E; simpl.
    + exists c; assumption.
    + apply node_at_File in E. rewrite E. simpl.
      destruct (decide (os.key target = t)) as [Heq|Hne].
      * rewrite Heq in E |- *. rewrite Hc in E. injection E as <- <-.
        eexists. apply lookup_insert_eq.
      * exists c. rewrite lookup_insert_ne; assumption.
    + apply node_at_None in E.
      assert (Hne : os.key target <> t) by congruence.
      destruct (os.node_at (fs st) (filepath.Dir (os.key target))) as [[dm|fm fd]|];
        simpl; try (exists c; assumption).
      rewrite lookup_insert_eq. simpl.
      exists c. rewrite !lookup_insert_ne; assumption.
Qed.

(** A turn for an entry that is not a regular-file entry at [t] leaves the
    file at [t] as it is. *)
Lemma extractEntry_keeps_file rootDir e st t mode data :
  fs st !! t = Some (File mode data) ->
  ~ writes_to rootDir t e ->
  fs (MainGo.extractEntry w rootDir e st).2 !! t = Some (File mode data).
Proof.
  intros Hc Hnw. destruct e as [h d]. unfold MainGo.extractEntry.
  set (target := filepath.Join [rootDir; Name h]).
  destruct (decide (Typeflag h = tar.TypeDir)).
  - unfold bind, catch, os.Stat, get_fs, bind. simpl.
    destruct (os.node_at (fs st) (os.key target)); simpl; [assumption|].
    now apply MkdirAll_keeps.
  - destruct (decide (Typeflag h = tar.TypeReg)) as [Hreg|]; [|assumption].
    assert (Hne : os.key target <> t).
    { intros Heq. apply Hnw. split; assumption. }
    unfold bind, os.OpenFile, os.write_all, bind, emit, get_fs, put_fs. simpl.
    destruct (os.node_at (fs st) (os.key target)) as [[dm|fm fd]|] eqn:E; simpl.
    + assumption.
    + apply node_at_File in E. rewrite E. simpl.
      rewrite lookup_insert_ne; assumption.
    + destruct (os.node_at (fs st) (filepath.Dir (os.key target))) as [[dm|fm fd]|];
        simpl; try assumption.
      rewrite lookup_insert_eq. simpl.
      rewrite !lookup_insert_ne; assumption.
Qed.

(** After the turn for a regular-file entry at [t] has succeeded, [t] is a
    regular file and its content begins with the bytes of the entry. *)
Lemma extractEntry_writes rootDir e st st' t :
  MainGo.extractEntry w rootDir e st = (Val tt, st') ->
  writes_to rootDir t e ->
  exists mode data,
    fs st' !! t = Some (File mode data) /\ String.prefix e.2 data = true.
Proof.
  destruct e as [h d]. intros Hrun [Hreg Ht]. simpl in Hreg, Ht.
  unfold MainGo.extractEntry in Hrun.
  set (target := filepath.Join [rootDir; Name h]) in *.
  assert (Hnd : Typeflag h <> tar.TypeDir) by (rewrite Hreg; discriminate).
  rewrite decide_False in Hrun by assumption.
  rewrite decide_True in Hrun by assumption.
  unfold bind, os.OpenFile, os.write_all, bind, emit, get_fs, put_fs in Hrun.
  simpl in Hrun. rewrite !Ht in Hrun.
  destruct (os.node_at (fs st) t) as [[dm|fm fd]|] eqn:E; simpl in Hrun.
  - discriminate.
  - apply node_at_File in E. rewrite E in Hrun. simpl in Hrun.
    injection Hrun as <-. simpl. rewrite lookup_insert_eq.
    eexists _, _. split; [reflexivity|apply overwrite_prefix].
  - destruct (os.node_at (fs st) (filepath.Dir t)) as [[dm|fm fd]|];
      simpl in Hrun; try discriminate.
    rewrite lookup_insert_eq in Hrun. simpl in Hrun.
    injection Hrun as <-. simpl. rewrite lookup_insert_eq.
    eexists _, _. split; [reflexivity|apply overwrite_prefix].
Qed.

Lemma mkdir_chain_files perm ks (m : gmap string node) k mode data :
  (os.mkdir_chain w perm ks m).1 !! k = Some (File mode data) ->
  m !! k = Some (File mode data).
Proof.
  revert m. induction ks as [|a ks IH]; intros m H; simpl in H; [assumption|].
  destruct (os.node_at m a) as [[dm|fm fd]|] eqn:E; simpl in H; auto.
  apply IH in H. destruct (decide (a = k)) as [->|Hne].
  - rewrite lookup_insert_eq in H. discriminate H.
  - rewrite lookup_insert_ne in H; assumption.
Qed.

Lemma MkdirAll_files path perm st k mode data :
  fs (os.MkdirAll w path perm st).2 !! k = Some (File mode data) ->
  fs st !! k = Some (File mode data).
Proof.
  unfold os.MkdirAll, bind, emit, get_fs, put_fs. simpl.
  pose proof (mkdir_chain_files perm (filepath.ancestors path) (fs st) k mode data)
    as H.
  destruct (os.mkdir_chain w perm (filepath.ancestors path) (fs st)) as [m' [e|]];
    simpl in *; assumption.
Qed.

(** A turn of the extraction loop leaves the file at [t] no longer than it
    was, or than the bytes it writes there. *)
Lemma extractEntry_at_most rootDir e st t n :
  holds_at_most (fs st) t n ->
  (writes_to rootDir t e -> (String.length e.2 <= n)%nat) ->
  holds_at_most (fs (MainGo.extractEntry w rootDir e st).2) t n.
Proof.
  intros H He. destruct e as [h d]. unfold MainGo.extractEntry.
  set (target := filepath.Join [rootDir; Name h]).
  destruct (decide (Typeflag h = tar.TypeDir)).
  - unfold bind, catch, os.Stat, get_fs, bind. simpl.
    destruct (os.node_at (fs st) (os.key target)); simpl; [assumption|].
    intros mode data Hl. apply MkdirAll_files in Hl. eapply H. exact Hl.
  - destruct (decide (Typeflag h = tar.TypeReg)) as [Hreg|]; [|assumption].
    unfold bind, os.OpenFile, os.write_all, bind, emit, get_fs, put_fs. simpl.
    destruct (os.node_at (fs st) (os.key target)) as [[dm|fm fd]|] eqn:E; simpl.
    + assumption.
    + apply node_at_File in E. rewrite E. simpl.
      intros mode data Hl.
      destruct (decide (os.key target = t)) as [Heq|Hne].
      * rewrite Heq in E, Hl. rewrite lookup_insert_eq in Hl.
        injection Hl as <- <-.
        apply overwrite_length; [apply He; split; assumption|].
        eapply H. exact E.
      * rewrite lookup_insert_ne in Hl by assumption. eapply H. exact Hl.
    + destruct (os.node_at (fs st) (filepath.Dir (os.key target))) as [[dm|fm fd]|];
        simpl; try assumption.
      rewrite lookup_insert_eq. simpl.
      intros mode data Hl.
      destruct (decide (os.key target = t)) as [Heq|Hne].
      * rewrite Heq in Hl. rewrite lookup_insert_eq in Hl.
        injection Hl as <- <-. rewrite overwrite_empty.
        apply He. split; assumption.
      * rewrite !lookup_insert_ne in Hl by assumption. eapply H. exact Hl.
Qed.

(** After the turn for a regular-file entry at [t] has succeeded on a file
    no longer than the entry, [t] holds the bytes of the entry and no
    other. *)
Lemma extractEntry_writes_exact rootDir e st st' t :
  MainGo.extractEntry w rootDir e st = (Val tt, st') ->
  writes_to rootDir t e ->
  holds_at_most (fs st) t (String.length e.2) ->
  exists mode, fs st' !! t = Some (File mode e.2).
Proof.
  destruct e as [h d]. intros Hrun [Hreg Ht] Hmost. simpl in Hreg, Ht, Hmost.
  unfold MainGo.extractEntry in Hrun.
  set (target := filepath.Join [rootDir; Name h]) in *.
  assert (Hnd : Typeflag h <> tar.TypeDir) by (rewrite Hreg; discriminate).
  rewrite decide_False in Hrun by assumption.
  rewrite decide_True in Hrun by assumption.
  unfold bind, os.OpenFile, os.write_all, bind, emit, get_fs, put_fs in Hrun.
  simpl in Hrun. rewrite !Ht in Hrun.
  destruct (os.node_at (fs st) t) as [[dm|fm fd]|] eqn:E; simpl in Hrun.
  - discriminate.
  - apply node_at_File in E. rewrite E in Hrun. simpl in Hrun.
    injection Hrun as <-. simpl. rewrite lookup_insert_eq.
    exists fm. rewrite overwrite_short; [reflexivity|]. eapply Hmost. exact E.
  - destruct (os.node_at (fs st) (filepath.Dir t)) as [[dm|fm fd]|];
      simpl in Hrun; try discriminate.
    rewrite lookup_insert_eq in Hrun. simpl in Hrun.
    injection Hrun as <-. simpl. rewrite lookup_insert_eq.
    eexists. rewrite overwrite_empty. reflexivity.
Qed.

End FileSystem.

(** ** Extraction of archives and layers *)

Lemma must_state {A} (m : M A) st : (must m st).2 = (m st).2.
Proof. unfold must. destruct (m st) as [[a|e|v|c] st']; reflexivity. Qed.

Lemma must_Val {A} (m : M A) st a st' :
  must m st = (Val a, st') -> m st = (Val a, st').
Proof. unfold must. destruct (m st) as [[x|e|v|c] s]; congruence. Qed.

Lemma index_Split_0 image :
  index (strings.Split image ":") 0
  = ret (default "" (strings.Split image ":" !! 0%nat)).
Proof.
  unfold index, strings.Split.
  pose proof (split_byte_not_nil ":" image) as H.
  destruct (strings.split_byte ":" image); [congruence|reflexivity].
Qed.

Section Extraction.
Variable w : World.
Variable rootDir : string.
Variable t : string.

Lemma extractEntries_keeps_mode es st mode :
  file_with_mode (fs st) t mode ->
  file_with_mode (fs (MainGo.extractEntries w rootDir es st).2) t mode.
Proof.
  revert st. induction es as [|e es IH]; intros st H; simpl; [assumption|].
  unfold bind.
  pose proof (extractEntry_keeps_mode w rootDir e st t mode H) as H1.
  destruct (MainGo.extractEntry w rootDir e st) as [[[]|err|v|c] st1];
    simpl in *; auto.
Qed.

Lemma extractEntries_keeps_file es st mode data :
  fs st !! t = Some (File mode data) ->
  Forall (fun e => ~ writes_to rootDir t e) es ->
  fs (MainGo.extractEntries w rootDir es st).2 !! t = Some (File mode data).
Proof.
  revert st. induction es as [|e es IH]; intros st H Hall; simpl; [assumption|].
  inversion Hall as [|? ? He Hes]; subst.
  unfold bind.
  pose proof (extractEntry_keeps_file w rootDir e st t mode data H He) as H1.
  destruct (MainGo.extractEntry w rootDir e st) as [[[]|err|v|c] st1];
    simpl in *; auto.
Qed.

Lemma extractEntries_file_exists es st st' e :
  MainGo.extractEntries w rootDir es st = (Val tt, st') ->
  In e es -> writes_to rootDir t e ->
  exists mode, file_with_mode (fs st') t mode.
Proof.
  revert st. induction es as [|a es IH]; intros st Hrun Hin Hw; [destruct Hin|].
  simpl in Hrun. unfold bind in Hrun.
  destruct (MainGo.extractEntry w rootDir a st) as [[[]|err|v|c] st1] eqn:E;
    try discriminate.
  destruct Hin as [->|Hin].
  - destruct (extractEntry_writes w rootDir e st st1 t E Hw) as (mode & data & H & _).
    exists mode.
    replace st' with (MainGo.extractEntries w rootDir es st1).2 by now rewrite Hrun.
    apply extractEntries_keeps_mode. now exists data.
  - eapply IH; eassumption.
Qed.

Lemma extractEntries_last_write a e b st st' :
  MainGo.extractEntries w rootDir (a ++ e :: b) st = (Val tt, st') ->
  writes_to rootDir t e ->
  Forall (fun e' => ~ writes_to rootDir t e') b ->
  exists mode data,
    fs st' !! t = Some (File mode data)
    /\ String.prefix e.2 data = true
    /\ (forall m0, file_with_mode (fs st) t m0 -> mode = m0).
Proof.
  revert st. induction a as [|x a IH]; intros st Hrun Hw Hb.
  - simpl in Hrun. unfold bind in Hrun.
    destruct (MainGo.extractEntry w rootDir e st) as [[[]|err|v|c] st1] eqn:E;
      try discriminate.
    destruct (extractEntry_writes w rootDir e st st1 t E Hw) as (mode & data & H & Hp).
    exists mode, data. split; [|split; [assumption|]].
    + replace st' with (MainGo.extractEntries w rootDir b st1).2 by now rewrite Hrun.
      now apply extractEntries_keeps_file.
    + intros m0 Hm0.
      pose proof (extractEntry_keeps_mode w rootDir e st t m0 Hm0) as [d0 Hd0].
      rewrite E in Hd0. simpl in Hd0. congruence.
  - simpl in Hrun. unfold bind in Hrun.
    destruct (MainGo.extractEntry w rootDir x st) as [[[]|err|v|c] st1] eqn:E;
      try discriminate.
    destruct (IH st1 Hrun Hw Hb) as (mode & data & H & Hp & Hm).
    exists mode, data. split; [assumption|split; [assumption|]].
    intros m0 Hm0. apply Hm.
    pose proof (extractEntry_keeps_mode w rootDir x st t m0 Hm0) as H1.
    now rewrite E in H1.
Qed.

Lemma extractEntries_at_most es st n :
  holds_at_most (fs st) t n ->
  writes_at_most rootDir t n es ->
  holds_at_most (fs (MainGo.extractEntries w rootDir es st).2) t n.
Proof.
  revert st. induction es as [|e es IH]; intros st H Hall; simpl; [assumption|].
  inversion Hall as [|? ? He Hes]; subst.
  unfold bind.
  pose proof (extractEntry_at_most w rootDir e st t n H He) as H1.
  destruct (MainGo.extractEntry w rootDir e st) as [[[]|err|v|c] st1];
    simpl in *; auto.
Qed.

(** The last regular-file entry for [t] in an archive leaves there its
    bytes and no other, when nothing longer was there or written there
    before it; the mode is the one of the file the archive found. *)
Lemma extractEntries_last_write_exact a e b st st' :
  MainGo.extractEntries w rootDir (a ++ e :: b) st = (Val tt, st') ->
  writes_to rootDir t e ->
  Forall (fun e' => ~ writes_to rootDir t e') b ->
  holds_at_most (fs st) t (String.length e.2) ->
  writes_at_most rootDir t (String.length e.2) a ->
  exists mode,
    fs st' !! t = Some (File mode e.2)
    /\ (forall m0, file_with_mode (fs st) t m0 -> mode = m0).
Proof.
  revert st. induction a as [|x a IH]; intros st Hrun Hw Hb Hmost Ha.
  - simpl in Hrun. unfold bind in Hrun.
    destruct (MainGo.extractEntry w rootDir e st) as [[[]|err|v|c] st1] eqn:E;
      try discriminate.
    destruct (extractEntry_writes_exact w rootDir e st st1 t E Hw Hmost)
      as (mode & H).
    exists mode. split.
    + replace st' with (MainGo.extractEntries w rootDir b st1).2 by now rewrite Hrun.
      now apply extractEntries_keeps_file.
    + intros m0 Hm0.
      pose proof (extractEntry_keeps_mode w rootDir e st t m0 Hm0) as [d0 Hd0].
      rewrite E in Hd0. simpl in Hd0. congruence.
  - simpl in Hrun. unfold bind in Hrun.
    inversion Ha as [|? ? Hx Ha']; subst.
    pose proof (extractEntry_at_most w rootDir x st t _ Hmost Hx) as Hmost1.
    destruct (MainGo.extractEntry w rootDir x st) as [[[]|err|v|c] st1] eqn:E;
      try discriminate.
    destruct (IH st1 Hrun Hw Hb Hmost1 Ha') as (mode & H & Hm).
    exists mode. split; [assumption|].
    intros m0 Hm0. apply Hm.
    pose proof (extractEntry_keeps_mode w rootDir x st t m0 Hm0) as H1.
    now rewrite E in H1.
Qed.

Variable token image : string.

(** [extractLayer], step by step. *)
Lemma extractLayer_eq digest st :
  MainGo.extractLayer w token image digest rootDir st
  = let req := blob_request token image digest in
    if url_parses w (URL req) then
      let st1 := mkState (fs st) (log st ++ [EHttp req]) in
      match round_trip w req with
      | None => (Fail ErrTransport, st1)
      | Some resp =>
          if decide (StatusCode resp <> http.StatusOK) then
            (Fail (ErrStatus "failed to get image manifest" (StatusCode resp)), st1)
          else
            match Body resp with
            | BodyGzipTar es trailer =>
                match MainGo.extractEntries w rootDir es st1 with
                | (Val _, st2) =>
                    match trailer with
                    | EndOfArchive => (Val tt, st2)
                    | StreamError => (Fail ErrTar, st2)
                    end
                | other => other
                end
            | _ => (Fail ErrGzip, st1)
            end
      end
    else (Fail (ErrURL (URL req)), st).
Proof.
  unfold MainGo.extractLayer. rewrite index_Split_0.
  unfold blob_request, http.NewRequest, http.Do, http.Header_Add, tar.NewReader.
  unfold bind, ret, fail, emit. simpl.
  destruct (url_parses w _); [|reflexivity].
  destruct (round_trip w _) as [[status b]|]; [|reflexivity].
  simpl.
  destruct (decide (status <> http.StatusOK)); [reflexivity|].
  destruct b as [j|es trailer|]; try reflexivity.
  simpl.
  destruct (MainGo.extractEntries w rootDir es _) as [[[]|err|v|c] st2];
    try reflexivity.
  destruct trailer; reflexivity.
Qed.

(** What [extractLayer] does to the file system: nothing, or what the
    extraction of the entries of the blob does. *)
Lemma extractLayer_fs digest st :
  fs (MainGo.extractLayer w token image digest rootDir st).2 = fs st
  \/ exists st1, fs st1 = fs st
       /\ fs (MainGo.extractLayer w token image digest rootDir st).2
          = fs (MainGo.extractEntries w rootDir
                  (layer_entries w token image digest) st1).2.
Proof.
  rewrite extractLayer_eq. unfold layer_entries. cbv zeta.
  destruct (url_parses w _); [|left; reflexivity].
  destruct (round_trip w (blob_request token image digest)) as [[status b]|];
    [|left; reflexivity].
  cbn [StatusCode Body].
  destruct (decide (status <> http.StatusOK)); [left; reflexivity|].
  destruct b as [j|es trailer|]; try (left; reflexivity).
  right. exists (mkState (fs st) (log st ++ [EHttp (blob_request token image digest)])).
  split; [reflexivity|].
  destruct (MainGo.extractEntries w rootDir es _) as [[[]|err|v|c] st2];
    try reflexivity.
  destruct trailer; reflexivity.
Qed.

Lemma extractLayer_success digest st st' :
  MainGo.extractLayer w token image digest rootDir st = (Val tt, st') ->
  exists st1, fs st1 = fs st
    /\ MainGo.extractEntries w rootDir (layer_entries w token image digest) st1
       = (Val tt, st').
Proof.
  rewrite extractLayer_eq. unfold layer_entries. cbv zeta.
  destruct (url_parses w _); [|discriminate].
  destruct (round_trip w (blob_request token image digest)) as [[status b]|];
    [|discriminate].
  cbn [StatusCode Body].
  destruct (decide (status <> http.StatusOK)); [discriminate|].
  destruct b as [j|es trailer|]; try discriminate.
  intros H. exists (mkState (fs st) (log st ++ [EHttp (blob_request token image digest)])).
  split; [reflexivity|].
  destruct (MainGo.extractEntries w rootDir es _) as [[[]|err|v|c] st2];
    try discriminate.
  destruct trailer; [|discriminate]. exact H.
Qed.

End Extraction.

Section Layers.
Variable w : World.
Variable rootDir : string.
Variable t : string.
Variable token image : string.

Lemma extractLayer_keeps_mode digest st mode :
  file_with_mode (fs st) t mode ->
  file_with_mode (fs (MainGo.extractLayer w token image digest rootDir st).2) t mode.
Proof.
  intros H.
  destruct (extractLayer_fs w rootDir token image digest st) as [->|(st1 & E1 & ->)];
    [assumption|].
  apply extractEntries_keeps_mode. now rewrite E1.
Qed.

Lemma extractLayer_keeps_file digest st mode data :
  fs st !! t = Some (File mode data) ->
  Forall (fun e => ~ writes_to rootDir t e) (layer_entries w token image digest) ->
  fs (MainGo.extractLayer w token image digest rootDir st).2 !! t
  = Some (File mode data).
Proof.
  intros H Hall.
  destruct (extractLayer_fs w rootDir token image digest st) as [->|(st1 & E1 & ->)];
    [assumption|].
  apply extractEntries_keeps_file; [now rewrite E1|assumption].
Qed.

Lemma extractLayers_cons l rest st :
  MainGo.extractLayers w token image (l :: rest) rootDir st
  = match MainGo.extractLayer w token image (MainGo.Digest l) rootDir st with
    | (Val _, st1) => MainGo.extractLayers w token image rest rootDir st1
    | (Fail e, st1) => (Panic (PanicErr e), st1)
    | other => other
    end.
Proof.
  simpl. unfold bind, must.
  destruct (MainGo.extractLayer w token image (MainGo.Digest l) rootDir st)
    as [[[]|e|v|c] st1]; reflexivity.
Qed.

Lemma extractLayers_app x y st :
  MainGo.extractLayers w token image (x ++ y) rootDir st
  = match MainGo.extractLayers w token image x rootDir st with
    | (Val _, st1) => MainGo.extractLayers w token image y rootDir st1
    | other => other
    end.
Proof.
  revert st. induction x as [|l x IH]; intros st; [reflexivity|].
  rewrite <- app_comm_cons, !extractLayers_cons.
  destruct (MainGo.extractLayer w token image (MainGo.Digest l) rootDir st)
    as [[[]|e|v|c] st1]; try reflexivity.
  apply IH.
Qed.

Lemma extractLayers_app_Val x y st st' :
  MainGo.extractLayers w token image (x ++ y) rootDir st = (Val tt, st') ->
  exists st1,
    MainGo.extractLayers w token image x rootDir st = (Val tt, st1)
    /\ MainGo.extractLayers w token image y rootDir st1 = (Val tt, st').
Proof.
  rewrite extractLayers_app.
  destruct (MainGo.extractLayers w token image x rootDir st)
    as [[[]|e|v|c] st1]; try discriminate.
  intros H. exists st1. split; [reflexivity|assumption].
Qed.

Lemma extractLayers_cons_Val l rest st st' :
  MainGo.extractLayers w token image (l :: rest) rootDir st = (Val tt, st') ->
  exists st1,
    MainGo.extractLayer w token image (MainGo.Digest l) rootDir st = (Val tt, st1)
    /\ MainGo.extractLayers w token image rest rootDir st1 = (Val tt, st').
Proof.
  rewrite extractLayers_cons.
  destruct (MainGo.extractLayer w token image (MainGo.Digest l) rootDir st)
    as [[[]|e|v|c] st1]; try discriminate.
  intros H. exists st1. split; [reflexivity|assumption].
Qed.

Lemma extractLayer_at_most digest st n :
  holds_at_most (fs st) t n ->
  writes_at_most rootDir t n (layer_entries w token image digest) ->
  holds_at_most (fs (MainGo.extractLayer w token image digest rootDir st).2) t n.
Proof.
  intros H Hall.
  destruct (extractLayer_fs w rootDir token image digest st) as [->|(st1 & E1 & ->)];
    [assumption|].
  apply extractEntries_at_most; [now rewrite E1|assumption].
Qed.

Lemma extractLayers_at_most layers st n :
  holds_at_most (fs st) t n ->
  Forall (fun l => writes_at_most rootDir t n
                     (layer_entries w token image (MainGo.Digest l))) layers ->
  holds_at_most (fs (MainGo.extractLayers w token image layers rootDir st).2) t n.
Proof.
  revert st. induction layers as [|l layers IH]; intros st H Hall; [assumption|].
  inversion Hall as [|? ? Hl Hrest]; subst.
  rewrite extractLayers_cons.
  pose proof (extractLayer_at_most (MainGo.Digest l) st n H Hl) as H1.
  destruct (MainGo.extractLayer w token image (MainGo.Digest l) rootDir st)
    as [[[]|e|v|c] st1]; simpl in *; auto.
Qed.

Lemma extractLayers_keeps_mode layers st mode :
  file_with_mode (fs st) t mode ->
  file_with_mode (fs (MainGo.extractLayers w token image layers rootDir st).2) t mode.
Proof.
  revert st. induction layers as [|l layers IH]; intros st H; [assumption|].
  rewrite extractLayers_cons.
  pose proof (extractLayer_keeps_mode (MainGo.Digest l) st mode H) as H1.
  destruct (MainGo.extractLayer w token image (MainGo.Digest l) rootDir st)
    as [[[]|e|v|c] st1]; simpl in *; auto.
Qed.

Lemma extractLayers_keeps_file layers st mode data :
  fs st !! t = Some (File mode data) ->
  Forall (fun l => Forall (fun e => ~ writes_to rootDir t e)
                          (layer_entries w token image (MainGo.Digest l))) layers ->
  fs (MainGo.extractLayers w token image layers rootDir st).2 !! t
  = Some (File mode data).
Proof.
  revert st. induction layers as [|l layers IH]; intros st H Hall; [assumption|].
  inversion Hall as [|? ? Hl Hrest]; subst.
  rewrite extractLayers_cons.
  pose proof (extractLayer_keeps_file (MainGo.Digest l) st mode data H Hl) as H1.
  destruct (MainGo.extractLayer w token image (MainGo.Digest l) rootDir st)
    as [[[]|e|v|c] st1]; simpl in *; auto.
Qed.

End Layers.

(** Whatever the lengths of the contents: once the layers of a manifest
    have been unpacked in order onto one root, a path [t] with a
    regular-file entry in a layer [li] and in a later layer [lj], the entry
    [ej] of [lj] being the last regular-file entry for [t] in the manifest,
    is a regular file whose content begins with the bytes of [ej] and whose
    mode is the mode the file had once [li] was unpacked. *)
Lemma later_layer_content_begins_and_mode_kept
        (w : World) (token image rootDir t : string)
        (ls1 ls2 ls3 : list MainGo.layer) (li lj : MainGo.layer)
        (ei ej : tar_entry) (a b : list tar_entry) (st st' : state) :
  MainGo.extractLayers w token image (ls1 ++ li :: ls2 ++ lj :: ls3) rootDir st
  = (Val tt, st') ->
  In ei (layer_entries w token image (MainGo.Digest li)) ->
  writes_to rootDir t ei ->
  layer_entries w token image (MainGo.Digest lj) = a ++ ej :: b ->
  writes_to rootDir t ej ->
  Forall (fun e => ~ writes_to rootDir t e) b ->
  Forall (fun l => Forall (fun e => ~ writes_to rootDir t e)
                          (layer_entries w token image (MainGo.Digest l))) ls3 ->
  exists st_i mode data_i data,
    MainGo.extractLayers w token image (ls1 ++ [li]) rootDir st = (Val tt, st_i)
    /\ fs st_i !! t = Some (File mode data_i)
    /\ fs st' !! t = Some (File mode data)
    /\ String.prefix ej.2 data = true.
Proof.
  intros Hrun Hin Hwi Hlj Hwj Hb Hls3.
  apply extractLayers_app_Val in Hrun as (s1 & Hls1 & Hrun).
  apply extractLayers_cons_Val in Hrun as (s_i & Hli & Hrun).
  apply extractLayers_app_Val in Hrun as (s2 & Hls2 & Hrun).
  apply extractLayers_cons_Val in Hrun as (s_j & Hlj_run & Hrun).
  (* the file exists once [li] is unpacked *)
  destruct (extractLayer_success w rootDir token image _ _ _ Hli) as (s1' & E1 & Hes_i).
  destruct (extractEntries_file_exists w rootDir t _ _ _ ei Hes_i Hin Hwi)
    as (mode & data_i & Hfile_i).
  (* the layers in between keep its mode *)
  assert (Hmode2 : file_with_mode (fs s2) t mode).
  { replace s2 with (MainGo.extractLayers w token image ls2 rootDir s_i).2
      by now rewrite Hls2.
    apply extractLayers_keeps_mode. now exists data_i. }
  (* [lj] writes its bytes and keeps the mode *)
  destruct (extractLayer_success w rootDir token image _ _ _ Hlj_run) as (s2' & E2 & Hes_j).
  rewrite Hlj in Hes_j.
  destruct (extractEntries_last_write w rootDir t a ej b _ _ Hes_j Hwj Hb)
    as (mode' & data & Hfile_j & Hprefix & Hsame).
  assert (mode' = mode) as -> by (apply Hsame; now rewrite E2).
  exists s_i, mode, data_i, data. repeat split.
  - rewrite extractLayers_app, Hls1, extractLayers_cons, Hli. reflexivity.
  - assumption.
  - replace st' with (MainGo.extractLayers w token image ls3 rootDir s_j).2
      by now rewrite Hrun.
    now apply extractLayers_keeps_file.
  - assumption.
Qed.


(** C2 (as amended).  When the layers of a manifest have been unpacked in
    order onto one root, a path [t] with a regular-file entry in a layer
    [li] and in a later layer [lj], the entry [ej] of [lj] being the last
    regular-file entry for [t] in the manifest, is a regular file that
    holds exactly the bytes of [ej], provided that neither the file found
    at [t] before the run nor an earlier regular-file entry for [t] is
    longer than [ej].  Its mode is not the mode of [ej] but the mode the
    file had once [li] was unpacked: an entry sets the mode only of a file
    it creates. *)
Theorem C2_later_layer_content_wins_and_mode_stays
        (w : World) (token image rootDir t : string)
        (ls1 ls2 ls3 : list MainGo.layer) (li lj : MainGo.layer)
        (ei ej : tar_entry) (a b : list tar_entry) (st st' : state) :
  MainGo.extractLayers w token image (ls1 ++ li :: ls2 ++ lj :: ls3) rootDir st
  = (Val tt, st') ->
  In ei (layer_entries w token image (MainGo.Digest li)) ->
  writes_to rootDir t ei ->
  layer_entries w token image (MainGo.Digest lj) = a ++ ej :: b ->
  writes_to rootDir t ej ->
  Forall (fun e => ~ writes_to rootDir t e) b ->
  Forall (fun l => Forall (fun e => ~ writes_to rootDir t e)
                          (layer_entries w token image (MainGo.Digest l))) ls3 ->
  holds_at_most (fs st) t (String.length ej.2) ->
  Forall (fun l => writes_at_most rootDir t (String.length ej.2)
                     (layer_entries w token image (MainGo.Digest l)))
         (ls1 ++ li :: ls2) ->
  writes_at_most rootDir t (String.length ej.2) a ->
  exists st_i mode data_i,
    MainGo.extractLayers w token image (ls1 ++ [li]) rootDir st = (Val tt, st_i)
    /\ fs st_i !! t = Some (File mode data_i)
    /\ fs st' !! t = Some (File mode ej.2).
Proof.
  intros Hrun Hin Hwi Hlj Hwj Hb Hls3 Hmost Hearlier Ha.
  apply extractLayers_app_Val in Hrun as (s1 & Hls1 & Hrun).
  apply extractLayers_cons_Val in Hrun as (s_i & Hli & Hrun).
  apply extractLayers_app_Val in Hrun as (s2 & Hls2 & Hrun).
  apply extractLayers_cons_Val in Hrun as (s_j & Hlj_run & Hrun).
  apply Forall_app in Hearlier as [Hearlier1 Hearlier2].
  apply Forall_cons in Hearlier2 as [Hearlier_i Hearlier2].
  (* the file exists once [li] is unpacked *)
  destruct (extractLayer_success w rootDir token image _ _ _ Hli) as (s1' & E1 & Hes_i).
  destruct (extractEntries_file_exists w rootDir t _ _ _ ei Hes_i Hin Hwi)
    as (mode & data_i & Hfile_i).
  (* the layers in between keep its mode *)
  assert (Hmode2 : file_with_mode (fs s2) t mode).
  { replace s2 with (MainGo.extractLayers w token image ls2 rootDir s_i).2
      by now rewrite Hls2.
    apply extractLayers_keeps_mode. now exists data_i. }
  (* and nothing longer than [ej] has come to [t] *)
  assert (Hmost1 : holds_at_most (fs s1) t (String.length ej.2)).
  { replace s1 with (MainGo.extractLayers w token image ls1 rootDir st).2
      by now rewrite Hls1.
    now apply extractLayers_at_most. }
  assert (Hmost_i : holds_at_most (fs s_i) t (String.length ej.2)).
  { replace s_i with (MainGo.extractLayer w token image (MainGo.Digest li) rootDir s1).2
      by now rewrite Hli.
    now apply extractLayer_at_most. }
  assert (Hmost2 : holds_at_most (fs s2) t (String.length ej.2)).
  { replace s2 with (MainGo.extractLayers w token image ls2 rootDir s_i).2
      by now rewrite Hls2.
    now apply extractLayers_at_most. }
  (* [lj] writes its bytes and keeps the mode *)
  destruct (extractLayer_success w rootDir token image _ _ _ Hlj_run) as (s2' & E2 & Hes_j).
  rewrite Hlj in Hes_j. rewrite <- E2 in Hmost2.
  destruct (extractEntries_last_write_exact w rootDir t a ej b _ _ Hes_j Hwj Hb Hmost2 Ha)
    as (mode' & Hfile_j & Hsame).
  assert (mode' = mode) as -> by (apply Hsame; now rewrite E2).
  exists s_i, mode, data_i. repeat split.
  - rewrite extractLayers_app, Hls1, extractLayers_cons, Hli. reflexivity.
  - assumption.
  - replace st' with (MainGo.extractLayers w token image ls3 rootDir s_j).2
      by now rewrite Hrun.
    now apply extractLayers_keeps_file.
Qed.

Lemma C2_later_layer_content_witness :
  exists st_i mode data_i,
    MainGo.extractLayers (Sample.world Sample.token_ok 200 (Started (Exited 0)))
      "tok" "busybox:latest" ([] ++ [MainGo.mkLayer "layer" 12 "sha256:a"])
      Sample.root (boot Sample.host) = (Val tt, st_i)
    /\ fs st_i !! "/tmp/tmp/docker123/etc/motd" = Some (File mode data_i)
    /\ fs (MainGo.extractLayers (Sample.world Sample.token_ok 200 (Started (Exited 0)))
             "tok" "busybox:latest" Sample.layers_ac Sample.root (boot Sample.host)).2
       !! "/tmp/tmp/docker123/etc/motd" = Some (File mode "howdy").
Proof.
  apply (C2_later_layer_content_wins_and_mode_stays
           (Sample.world Sample.token_ok 200 (Started (Exited 0)))
           "tok" "busybox:latest" Sample.root "/tmp/tmp/docker123/etc/motd"
           [] [] [] (MainGo.mkLayer "layer" 12 "sha256:a") (MainGo.mkLayer "" 0 "sha256:c")
           (mkHeader "etc/motd" tar.TypeReg 420, "hello")
           (mkHeader "etc/motd" tar.TypeReg 384, "howdy")
           [(mkHeader "etc/" tar.TypeDir 493, "")] []
           (boot Sample.host)).
  - vm_compute. reflexivity.
  - vm_compute. tauto.
  - split; vm_compute; reflexivity.
  - vm_compute. reflexivity.
  - split; vm_compute; reflexivity.
  - constructor.
  - constructor.
  - intros mode data H. vm_compute in H. discriminate H.
  - apply List.Forall_cons; [|apply List.Forall_nil].
    unfold writes_at_most.
    replace (layer_entries _ _ _ _) with Sample.layer_a by (vm_compute; reflexivity).
    unfold Sample.layer_a.
    repeat (apply List.Forall_cons); try apply List.Forall_nil;
      first [intros _; simpl; lia|intros [_ H]; vm_compute in H; discriminate H].
  - unfold writes_at_most.
    repeat (apply List.Forall_cons); try apply List.Forall_nil; intros _; simpl; lia.
Defined.

(** C2 (counterexample).  The two layers have [etc/motd], the first with
    mode 0644 and content [hello], the second with mode 0600 and content
    [howdy], as many bytes.  After both are unpacked the file has the
    content of the later layer and the mode of the earlier one, 0644, not
    the mode 0600 of the later layer. *)
Lemma C2_later_layer_mode_does_not_win :
  let out := MainGo.extractLayers
               (Sample.world Sample.token_ok 200 (Started (Exited 0)))
               "tok" "busybox:latest" Sample.layers_ac Sample.root (boot Sample.host) in
  out.1 = Val tt
  /\ fs out.2 !! "/tmp/tmp/docker123/etc/motd" = Some (File 420 "howdy")
  /\ fs out.2 !! "/tmp/tmp/docker123/etc/motd"
     <> Some (File (os.create_mode 18 (os.FileMode 384)) "howdy").
Proof.
  vm_compute. repeat split; congruence.
Qed.

(** Where the later content is the shorter one, [app/main.go], which opens
    the file without [O_TRUNC], also leaves the end of the earlier content:
    [hello] then [hi] gives [hillo]. *)
Lemma later_shorter_content_keeps_old_tail :
  let out := MainGo.extractLayers
               (Sample.world Sample.token_ok 200 (Started (Exited 0)))
               "tok" "busybox:latest" Sample.layers Sample.root (boot Sample.host) in
  out.1 = Val tt
  /\ fs out.2 !! "/tmp/tmp/docker123/etc/motd" = Some (File 420 "hillo")
  /\ fs out.2 !! "/tmp/tmp/docker123/etc/motd"
     <> Some (File (os.create_mode 18 (os.FileMode 384)) "hi").
Proof.
  vm_compute. repeat split; congruence.
Qed.

(** The revision that opens with [O_TRUNC] replaces the content on the same
    entries, and it too leaves the mode of the existing file alone. *)
Lemma Part000_extraction_truncates_and_keeps_mode :
  let out := Part000.extractEntries
               (Sample.world Sample.token_ok 200 (Started (Exited 0)))
               Sample.root (Sample.layer_a ++ Sample.layer_b) (boot Sample.host) in
  out.1 = Val tt
  /\ fs out.2 !! "/tmp/tmp/docker123/etc/motd" = Some (File 420 "hi").
Proof. vm_compute. split; reflexivity. Qed.

(** The mode of a file an entry creates: the permission bits of the entry,
    less the bits of the umask. *)
Lemma extractEntry_creates (w : World) rootDir h data st st' :
  Typeflag h = tar.TypeReg ->
  os.node_at (fs st) (os.key (filepath.Join [rootDir; Name h])) = None ->
  MainGo.extractEntry w rootDir (h, data) st = (Val tt, st') ->
  fs st' !! os.key (filepath.Join [rootDir; Name h])
  = Some (File (os.create_mode (umask w) (os.FileMode (Mode h))) data).
Proof.
  intros Hreg Hnone. unfold MainGo.extractEntry.
  set (target := filepath.Join [rootDir; Name h]) in *.
  assert (Hnd : Typeflag h <> tar.TypeDir) by (rewrite Hreg; discriminate).
  rewrite decide_False by assumption. rewrite decide_True by assumption.
  unfold bind, os.OpenFile, os.write_all, bind, emit, get_fs, put_fs.
  simpl. rewrite Hnone. simpl.
  destruct (os.node_at (fs st) (filepath.Dir (os.key target))) as [[dm|fm fd]|];
    simpl; try discriminate.
  rewrite lookup_insert_eq. simpl. intros [= <-]. simpl.
  rewrite lookup_insert_eq, overwrite_empty. reflexivity.
Qed.

(** ** Staging of the command *)

(** C8 (as amended).  The command is staged without looking at what the
    layers provided: whenever the staging succeeds, the path of the command
    inside the root holds the bytes and the mode of the host binary,
    whatever was there before. *)
Theorem C8_host_binary_always_copied
        (w : World) (chrootRoot command : string) (st st' : state)
        (mode : Z) (data : string) :
  os.node_at (fs st) (os.key command) = Some (File mode data) ->
  os.key command <> os.key (chrootCommand chrootRoot command) ->
  MainGo.stageCommand w chrootRoot command st = (Val tt, st') ->
  fs st' !! os.key (chrootCommand chrootRoot command)
  = Some (File (os.chmod_mode mode) data).
Proof.
  intros Hsrc Hne. unfold MainGo.stageCommand. fold (chrootCommand chrootRoot command).
  pose proof (name_of_a_file _ _ _ _ Hsrc) as Hname.
  set (dst := chrootCommand chrootRoot command) in *.
  set (dir := filepath.Join [chrootRoot; filepath.Dir command]).
  assert (Hat : forall m, m !! os.key command = Some (File mode data) ->
                          os.node_at m (os.key command) = Some (File mode data)).
  { intros m Hm. unfold os.node_at in *. repeat case_decide; congruence. }
  apply node_at_File in Hsrc.
  unfold bind at 1.
  pose proof (MkdirAll_keeps w dir os.ModePerm st _ _ Hsrc) as Hsrc1.
  rewrite <- (must_state (os.MkdirAll w dir os.ModePerm)) in Hsrc1.
  destruct (must (os.MkdirAll w dir os.ModePerm) st) as [[[]|e|v|c] st1];
    try discriminate.
  simpl in Hsrc1. intros Hcopy. apply must_Val in Hcopy. revert Hcopy.
  unfold MainGo.copy, os.Open, os.Stat, os.Create, os.OpenFile, os.read_all,
    os.write_all, os.Chmod, bind, emit, get_fs, put_fs, ret, fail.
  rewrite (decide_False (P := command = "")) by exact Hname.
  simpl.
  repeat (rewrite (Hat _ Hsrc1); simpl).
  assert (Hins : forall n, os.node_at (<[os.key dst := n]> (fs st1)) (os.key command)
                           = Some (File mode data)).
  { intros n. apply Hat. rewrite lookup_insert_ne; [assumption|congruence]. }
  destruct (os.node_at (fs st1) (os.key dst)) as [[dm|fm fd]|] eqn:E; simpl.
  - discriminate.
  - rewrite Hins. simpl. rewrite lookup_insert_eq. simpl. rewrite lookup_insert_eq.
    intros [= <-]. simpl. rewrite lookup_insert_eq, overwrite_empty. reflexivity.
  - destruct (os.node_at (fs st1) (filepath.Dir (os.key dst))) as [[dm|fm fd]|];
      simpl; try discriminate.
    rewrite Hins. simpl. rewrite lookup_insert_eq. simpl. rewrite lookup_insert_eq.
    intros [= <-]. simpl. rewrite lookup_insert_eq, overwrite_empty. reflexivity.
Qed.

Lemma C8_host_binary_witness :
  fs (MainGo.stageCommand (Sample.world Sample.token_ok 200 (Started (Exited 0)))
        Sample.root "/bin/echo" Sample.unpacked).2
  !! os.key (chrootCommand Sample.root "/bin/echo")
  = Some (File (os.chmod_mode 493) "ELF").
Proof.
  eapply (C8_host_binary_always_copied
            (Sample.world Sample.token_ok 200 (Started (Exited 0)))
            Sample.root "/bin/echo" Sample.unpacked).
  - vm_compute. reflexivity.
  - vm_compute. congruence.
  - vm_compute. reflexivity.
Defined.

(** C8 (counterexample).  The layers of the sample provide [bin/echo], an
    executable with content [busybox-echo]; staging [/bin/echo] succeeds and
    replaces it by the binary of the host, [ELF]. *)
Lemma C8_layer_provided_binary_is_overwritten :
  fs Sample.unpacked !! "/tmp/tmp/docker123/bin/echo"
  = Some (File 493 "busybox-echo")
  /\ (MainGo.stageCommand (Sample.world Sample.token_ok 200 (Started (Exited 0)))
        Sample.root "/bin/echo" Sample.unpacked).1 = Val tt
  /\ fs (MainGo.stageCommand (Sample.world Sample.token_ok 200 (Started (Exited 0)))
           Sample.root "/bin/echo" Sample.unpacked).2
     !! "/tmp/tmp/docker123/bin/echo" = Some (File 493 "ELF").
Proof. vm_compute. repeat split; reflexivity. Qed.

(** ** What the calls add to the log *)

Lemma quiet_ret {A} (a : A) : quiet (ret a).
Proof. intros st. exists []. split; [now rewrite app_nil_r|constructor]. Qed.

Lemma quiet_fail {A} (e : error) : quiet (@fail A e).
Proof. intros st. exists []. split; [now rewrite app_nil_r|constructor]. Qed.

Lemma quiet_get_fs : quiet get_fs.
Proof. intros st. exists []. split; [now rewrite app_nil_r|constructor]. Qed.

Lemma quiet_put_fs m : quiet (put_fs m).
Proof. intros st. exists []. split; [simpl; now rewrite app_nil_r|constructor]. Qed.

Lemma quiet_emit e : is_fs_event e -> quiet (emit e).
Proof. intros He st. exists [e]. split; [reflexivity|repeat constructor; assumption]. Qed.

Lemma quiet_bind {A B} (m : M A) (k : A -> M B) :
  quiet m -> (forall a, quiet (k a)) -> quiet (bind m k).
Proof.
  intros Hm Hk st. unfold bind.
  destruct (Hm st) as (l1 & E1 & F1).
  destruct (m st) as [[a|e|v|c] st1]; simpl in *;
    try (exists l1; split; assumption).
  destruct (Hk a st1) as (l2 & E2 & F2).
  exists (l1 ++ l2). split.
  - now rewrite E2, E1, app_assoc.
  - apply Forall_app. split; assumption.
Qed.

Lemma quiet_catch {A} (m : M A) : quiet m -> quiet (catch m).
Proof.
  intros Hm st. unfold catch. destruct (Hm st) as (l & E & F).
  destruct (m st) as [[a|e|v|c] st1]; exists l; split; assumption.
Qed.

Lemma quiet_must {A} (m : M A) : quiet m -> quiet (must m).
Proof.
  intros Hm st. destruct (Hm st) as (l & E & F).
  exists l. rewrite must_state. split; assumption.
Qed.

Ltac quiet_step :=
  first [ apply quiet_ret | apply quiet_fail | apply quiet_get_fs
        | apply quiet_put_fs | apply quiet_emit; exact I
        | apply quiet_catch | apply quiet_must
        | apply quiet_bind; [|intros ?]
        | case_match ].

Section QuietCalls.
Variable w : World.

Lemma quiet_Stat name : quiet (os.Stat name).
Proof. unfold os.Stat. repeat quiet_step. Qed.

Lemma quiet_MkdirAll path perm : quiet (os.MkdirAll w path perm).
Proof. unfold os.MkdirAll. repeat quiet_step. Qed.

Lemma quiet_OpenFile name flag perm : quiet (os.OpenFile w name flag perm).
Proof. unfold os.OpenFile. repeat quiet_step. Qed.

Lemma quiet_Open name : quiet (os.Open name).
Proof. unfold os.Open. repeat quiet_step. Qed.

Lemma quiet_read_all h h' : quiet (os.read_all h h').
Proof. unfold os.read_all. repeat quiet_step. Qed.

Lemma quiet_write_all h data : quiet (os.write_all h data).
Proof. unfold os.write_all. repeat quiet_step. Qed.

Lemma quiet_Chmod name mode : quiet (os.Chmod name mode).
Proof. unfold os.Chmod. repeat quiet_step. Qed.

Lemma quiet_copy src dst : quiet (MainGo.copy w src dst).
Proof.
  unfold MainGo.copy, os.Create.
  repeat first [ apply quiet_Open | apply quiet_Stat | apply quiet_OpenFile
               | apply quiet_read_all | apply quiet_write_all | apply quiet_Chmod
               | quiet_step ].
Qed.

Lemma quiet_extractEntry rootDir e : quiet (MainGo.extractEntry w rootDir e).
Proof.
  unfold MainGo.extractEntry. destruct e as [h d].
  repeat first [ apply quiet_Stat | apply quiet_MkdirAll | apply quiet_OpenFile
               | apply quiet_write_all | quiet_step ].
Qed.

Lemma quiet_extractEntries rootDir es : quiet (MainGo.extractEntries w rootDir es).
Proof.
  induction es as [|e es IH]; simpl; [apply quiet_ret|].
  apply quiet_bind; [apply quiet_extractEntry|intros _; exact IH].
Qed.

Lemma quiet_stageCommand chrootRoot command :
  quiet (MainGo.stageCommand w chrootRoot command).
Proof.
  unfold MainGo.stageCommand.
  repeat first [ apply quiet_MkdirAll | apply quiet_copy | quiet_step ].
Qed.

End QuietCalls.

(** ** Traces of the stages that talk to the registry *)

Section Traces.
Variable w : World.
Variable token : string.

Lemma tame_of_fs_event e : is_fs_event e -> tame w token e.
Proof. destruct e; simpl; tauto. Qed.

Lemma trace_nil r : trace w token r [].
Proof. left. constructor. Qed.

Lemma trace_Val u l : trace w token (Val u) l -> Forall (tame w token) l.
Proof.
  intros [H|(pre & req & _ & _ & _ & resp & what & _ & _ & [H|H])];
    [assumption|discriminate|discriminate].
Qed.

Lemma trace_app r l1 l2 :
  Forall (tame w token) l1 -> trace w token r l2 -> trace w token r (l1 ++ l2).
Proof.
  intros H1 [H2|(pre & req & -> & Hpre & Hb & Hr)].
  - left. apply Forall_app. split; assumption.
  - right. exists (l1 ++ pre), req. rewrite app_assoc.
    repeat split; try assumption. apply Forall_app. split; assumption.
Qed.

Lemma quiet_traced {A} (m : M A) : quiet m -> traced w token m.
Proof.
  intros Hm st. destruct (Hm st) as (l & E & F). exists l. split; [assumption|].
  left. eapply Forall_impl; [exact F|]. intros e. apply tame_of_fs_event.
Qed.

Lemma traced_bind {A B} (m : M A) (k : A -> M B) :
  traced w token m -> (forall a, traced w token (k a)) -> traced w token (bind m k).
Proof.
  intros Hm Hk st. unfold bind.
  destruct (Hm st) as (l1 & E1 & T1).
  destruct (m st) as [[a|e|v|c] st1]; simpl in *;
    try (exists l1; split; assumption).
  destruct (Hk a st1) as (l2 & E2 & T2).
  exists (l1 ++ l2). split.
  - now rewrite E2, E1, app_assoc.
  - apply trace_app; [|assumption]. eapply trace_Val. exact T1.
Qed.

Lemma traced_must {A} (m : M A) : traced w token m -> traced w token (must m).
Proof.
  intros Hm st. destruct (Hm st) as (l & E & T).
  exists l. rewrite must_state. split; [assumption|].
  unfold must. destruct (m st) as [[a|e|v|c] st1]; simpl in *; try assumption.
  destruct T as [T|(pre & req & -> & Hpre & Hb & resp & what & Hrt & Hs & [H|H])].
  - left. assumption.
  - right. exists pre, req. repeat split; try assumption.
    exists resp, what. repeat split; try assumption.
    right. congruence.
  - discriminate.
Qed.

Lemma has_bearer_blob image digest :
  has_bearer token (blob_request token image digest).
Proof. reflexivity. Qed.

Lemma has_bearer_manifest name tag :
  has_bearer token (manifest_request token name tag).
Proof. reflexivity. Qed.

(** A request that goes out, whatever comes back: the stage ends with the
    error of the status when it is not 200, and goes on otherwise. *)
Lemma trace_request {A} (req : request) (r : res A) (l : list event) :
  has_bearer token req ->
  (forall resp, round_trip w req = Some resp ->
                StatusCode resp <> http.StatusOK ->
                l = [] /\ exists what, r = Fail (ErrStatus what (StatusCode resp))) ->
  Forall is_fs_event l ->
  trace w token (outcome r) (EHttp req :: l).
Proof.
  intros Hb Hbad Hl. unfold trace.
  destruct (round_trip w req) as [resp|] eqn:Ert.
  - destruct (decide (StatusCode resp <> http.StatusOK)) as [Hs|Hs].
    + destruct (Hbad resp eq_refl Hs) as (-> & what & ->).
      right. exists [], req. repeat split; try assumption; [constructor|].
      exists resp, what. repeat split; try assumption. left. reflexivity.
    + left. constructor.
      * split; [assumption|]. unfold non200. now rewrite Ert.
      * eapply Forall_impl; [exact Hl|]. intros e. apply tame_of_fs_event.
  - left. constructor.
    + split; [assumption|]. unfold non200. now rewrite Ert.
    + eapply Forall_impl; [exact Hl|]. intros e. apply tame_of_fs_event.
Qed.

Lemma traced_extractLayer image digest rootDir :
  traced w token (MainGo.extractLayer w token image digest rootDir).
Proof.
  intros st. rewrite extractLayer_eq. cbv zeta.
  destruct (url_parses w _).
  2:{ exists []. split; [simpl; now rewrite app_nil_r|apply trace_nil]. }
  set (req := blob_request token image digest).
  set (st1 := mkState (fs st) (log st ++ [EHttp req])).
  destruct (quiet_extractEntries w rootDir (layer_entries w token image digest) st1)
    as (le & Ele & Fle).
  unfold layer_entries in Ele. fold req in Ele.
  destruct (round_trip w req) as [[status b]|] eqn:Ert; simpl.
  - destruct (decide (status <> http.StatusOK)) as [Hs|Hs]; simpl.
    + exists [EHttp req]. split; [reflexivity|].
      apply (trace_request req (@Fail unit _) []);
        [apply has_bearer_blob| |constructor].
      intros resp Hresp _. rewrite Ert in Hresp. injection Hresp as <-.
      split; [reflexivity|]. eexists. reflexivity.
    + assert (Hok : forall resp, round_trip w req = Some resp ->
                      StatusCode resp <> http.StatusOK -> False).
      { intros resp Hresp. rewrite Ert in Hresp. injection Hresp as <-. exact Hs. }
      destruct b as [j|es trailer|].
      * exists [EHttp req]. split; [reflexivity|].
        apply (trace_request req (@Fail unit ErrGzip) []);
          [apply has_bearer_blob| |constructor].
        intros resp H1 H2. destruct (Hok resp H1 H2).
      * exists (EHttp req :: le). split.
        { destruct (MainGo.extractEntries w rootDir es st1) as [[[]|e|v|c] st2];
            simpl in *; try (rewrite Ele; now rewrite <- app_assoc).
          destruct trailer; simpl; rewrite Ele; now rewrite <- app_assoc. }
        apply trace_request; [apply has_bearer_blob| |assumption].
        intros resp H1 H2. destruct (Hok resp H1 H2).
      * exists [EHttp req]. split; [reflexivity|].
        apply (trace_request req (@Fail unit ErrGzip) []);
          [apply has_bearer_blob| |constructor].
        intros resp H1 H2. destruct (Hok resp H1 H2).
  - exists [EHttp req]. split; [reflexivity|].
    apply (trace_request req (@Fail unit ErrTransport) []);
      [apply has_bearer_blob| |constructor].
    intros resp Hresp. rewrite Ert in Hresp. discriminate.
Qed.

Lemma traced_extractLayers image layers rootDir :
  traced w token (MainGo.extractLayers w token image layers rootDir).
Proof.
  induction layers as [|l layers IH]; simpl.
  - apply quiet_traced, quiet_ret.
  - apply traced_bind; [|intros _; exact IH].
    apply traced_must, traced_extractLayer.
Qed.

End Traces.

Section Stages.
Variable w : World.

(** [fetchManifest], step by step. *)
Lemma fetchManifest_eq token image st :
  MainGo.fetchManifest w token image st
  = match strings.Split image ":" !! 1%nat with
    | None => (Panic (IndexOutOfRange 1 (List.length (strings.Split image ":"))), st)
    | Some tag =>
        let req := manifest_request token
                     (default "" (strings.Split image ":" !! 0%nat)) tag in
        if url_parses w (URL req) then
          let st1 := mkState (fs st) (log st ++ [EHttp req]) in
          match round_trip w req with
          | None => (Fail ErrTransport, st1)
          | Some resp =>
              if decide (StatusCode resp <> http.StatusOK) then
                (Fail (ErrStatus "failed to get image manifest" (StatusCode resp)), st1)
              else
                match Body resp with
                | BodyJSON j =>
                    match json_decode.into_struct MainGo.manifest_field
                            (MainGo.mkManifest []) j with
                    | Some v => (Val v, st1)
                    | None => (Fail ErrDecode, st1)
                    end
                | _ => (Fail ErrDecode, st1)
                end
          end
        else (Fail (ErrURL (URL req)), st)
    end.
Proof.
  unfold MainGo.fetchManifest. rewrite index_Split_0.
  unfold index at 1.
  destruct (strings.Split image ":" !! 1%nat) as [tag|]; [|reflexivity].
  unfold manifest_request, manifest_url, http.NewRequest, http.Do,
    http.Header_Add, json_decode.Decode.
  unfold bind, ret, fail, emit. simpl.
  destruct (url_parses w _); [|reflexivity].
  destruct (round_trip w _) as [[status b]|]; [|reflexivity].
  simpl.
  destruct (decide (status <> http.StatusOK)); [reflexivity|].
  destruct b as [j|es trailer|]; try reflexivity.
  destruct (json_decode.into_struct _ _ j); reflexivity.
Qed.

Lemma traced_fetchManifest token image :
  traced w token (MainGo.fetchManifest w token image).
Proof.
  intros st. rewrite fetchManifest_eq.
  destruct (strings.Split image ":" !! 1%nat) as [tag|].
  2:{ exists []. split; [simpl; now rewrite app_nil_r|apply trace_nil]. }
  cbv zeta.
  set (req := manifest_request token _ tag).
  destruct (url_parses w _).
  2:{ exists []. split; [simpl; now rewrite app_nil_r|apply trace_nil]. }
  exists [EHttp req].
  destruct (round_trip w req) as [[status b]|] eqn:Ert; simpl.
  - destruct (decide (status <> http.StatusOK)) as [Hs|Hs]; simpl.
    + split; [reflexivity|].
      apply (trace_request w token req (@Fail unit _) []);
        [apply has_bearer_manifest| |constructor].
      intros resp Hresp _. rewrite Ert in Hresp. injection Hresp as <-.
      split; [reflexivity|]. eexists. reflexivity.
    + assert (Hok : forall resp, round_trip w req = Some resp ->
                      StatusCode resp <> http.StatusOK -> False).
      { intros resp Hresp. rewrite Ert in Hresp. injection Hresp as <-. exact Hs. }
      assert (Ht : forall r : res MainGo.manifestResponse,
                 trace w token (outcome r) [EHttp req]).
      { intros r. apply trace_request; [apply has_bearer_manifest| |constructor].
        intros resp H1 H2. destruct (Hok resp H1 H2). }
      destruct b as [j|es trailer|]; try (split; [reflexivity|apply Ht]).
      destruct (json_decode.into_struct _ _ j); split; try reflexivity; apply Ht.
  - split; [reflexivity|].
    apply (trace_request w token req (@Fail unit ErrTransport) []);
      [apply has_bearer_manifest| |constructor].
    intros resp Hresp. rewrite Ert in Hresp. discriminate.
Qed.

(** [registryLogin], step by step. *)
Lemma registryLogin_eq image st :
  MainGo.registryLogin w image st
  = let req := token_request image in
    if url_parses w (URL req) then
      let st1 := mkState (fs st) (log st ++ [EHttp req]) in
      match round_trip w req with
      | None => (Fail ErrTransport, st1)
      | Some resp =>
          if decide (StatusCode resp <> http.StatusOK) then
            (Fail (ErrStatus "failed to get docker registry token" (StatusCode resp)), st1)
          else
            match login_token w image with
            | Some tok => (Val tok, st1)
            | None => (Fail ErrDecode, st1)
            end
      end
    else (Fail (ErrURL (URL req)), st).
Proof.
  unfold MainGo.registryLogin. rewrite index_Split_0.
  unfold login_token, token_request, http.Get, http.NewRequest, http.Do,
    json_decode.Decode.
  unfold bind, ret, fail, emit. simpl.
  destruct (url_parses w _); [|reflexivity].
  destruct (round_trip w _) as [[status b]|]; [|reflexivity].
  simpl.
  destruct (decide (status <> http.StatusOK)); [reflexivity|].
  destruct b as [j|es trailer|]; try reflexivity.
  destruct (json_decode.into_struct _ _ j); reflexivity.
Qed.

Lemma runs_runCommand token chrootRoot command args :
  runs w token chrootRoot command args (MainGo.runCommand w chrootRoot command args).
Proof.
  intros st.
  exists [], [ESpawn chrootRoot command args (run_child w (fs st) chrootRoot command args)],
    (Val tt).
  unfold MainGo.runCommand, exec.Run, bind, catch, get_fs, emit, ret, fail, os_Exit.
  simpl.
  destruct (run_child w (fs st) chrootRoot command args) as [[code|sig]|]; simpl.
  - destruct code; simpl; (split; [reflexivity|]); (split; [apply trace_nil|]);
      left; (split; [reflexivity|]); eexists; split; reflexivity.
  - split; [reflexivity|]. split; [apply trace_nil|].
    left. split; [reflexivity|]. eexists. split; reflexivity.
  - split; [reflexivity|]. split; [apply trace_nil|].
    left. split; [reflexivity|]. eexists. split; reflexivity.
Qed.

Lemma runs_bind {A} token chrootRoot command args (m : M A) (k : A -> M unit) :
  traced w token m ->
  (forall a, runs w token chrootRoot command args (k a)) ->
  runs w token chrootRoot command args (bind m k).
Proof.
  intros Hm Hk st. unfold bind.
  destruct (Hm st) as (l1 & E1 & T1).
  destruct (m st) as [[a|e|v|c] st1]; simpl in *.
  - destruct (Hk a st1) as (lA & lrun & rA & E2 & T2 & Hend).
    exists (l1 ++ lA), lrun, rA. split; [|split].
    + now rewrite E2, E1, <- !app_assoc.
    + apply trace_app; [|assumption]. eapply trace_Val. exact T1.
    + assumption.
  - exists l1, [], (Fail e). rewrite app_nil_r. repeat split; try assumption.
    right. repeat split; congruence.
  - exists l1, [], (Panic v). rewrite app_nil_r. repeat split; try assumption.
    right. repeat split; congruence.
  - exists l1, [], (Exit c). rewrite app_nil_r. repeat split; try assumption.
    right. repeat split; congruence.
Qed.

Lemma main_body_eq image command args dir st :
  MainGo.main_body w image command args dir st
  = match MainGo.registryLogin w image st with
    | (Val token, st1) =>
        (do manifest <- must (MainGo.fetchManifest w token image);
         MainGo.extractLayers w token image (MainGo.Layers manifest)
           (filepath.Join ["/tmp"; dir]);;
         MainGo.stageCommand w (filepath.Join ["/tmp"; dir]) command;;
         MainGo.runCommand w (filepath.Join ["/tmp"; dir]) command args) st1
    | (Fail e, st1) => (Panic (PanicErr e), st1)
    | (Panic v, st1) => (Panic v, st1)
    | (Exit c, st1) => (Exit c, st1)
    end.
Proof.
  unfold MainGo.main_body. cbv zeta. unfold bind at 1. unfold must at 1.
  destruct (MainGo.registryLogin w image st) as [[tok|e|v|c] st1]; reflexivity.
Qed.

Lemma main_body_shape image command args dir st :
  exists lb,
    log (MainGo.main_body w image command args dir st).2 = log st ++ lb
    /\ body_shape w image command args dir
         (MainGo.main_body w image command args dir st).1 lb.
Proof.
  rewrite main_body_eq, registryLogin_eq. cbv zeta.
  set (chrootRoot := filepath.Join ["/tmp"; dir]).
  set (req := token_request image).
  destruct (url_parses w (URL req)).
  2:{ exists []. split; [simpl; now rewrite app_nil_r|].
      left. split; [now left|]. split; [eexists; reflexivity|]. congruence. }
  destruct (round_trip w req) as [[status b]|] eqn:Ert.
  2:{ exists [EHttp req]. split; [reflexivity|].
      left. split; [now right|]. split; [eexists; reflexivity|].
      intros _ Hbad. unfold non200 in Hbad. fold req in Hbad. now rewrite Ert in Hbad. }
  cbn [StatusCode].
  destruct (decide (status <> http.StatusOK)) as [Hs|Hs].
  { exists [EHttp req]. split; [reflexivity|].
    left. split; [now right|]. split; [eexists; reflexivity|].
    intros _ _. eexists _, _. split; [exact Ert|]. split; [exact Hs|].
    right. reflexivity. }
  destruct (login_token w image) as [tok|] eqn:Etok.
  2:{ exists [EHttp req]. split; [reflexivity|].
      left. split; [now right|]. split; [eexists; reflexivity|].
      intros _ Hbad. unfold non200 in Hbad. fold req in Hbad.
      rewrite Ert in Hbad. simpl in Hbad. contradiction. }
  set (st1 := mkState (fs st) (log st ++ [EHttp req])).
  assert (Hruns : runs w tok chrootRoot command args
            (do manifest <- must (MainGo.fetchManifest w tok image);
             MainGo.extractLayers w tok image (MainGo.Layers manifest) chrootRoot;;
             MainGo.stageCommand w chrootRoot command;;
             MainGo.runCommand w chrootRoot command args)).
  { apply runs_bind; [apply traced_must, traced_fetchManifest|intros manifest].
    apply runs_bind; [apply traced_extractLayers|intros _].
    apply runs_bind; [apply quiet_traced, quiet_stageCommand|intros _].
    apply runs_runCommand. }
  destruct (Hruns st1) as (lA & lrun & rA & E & T & Hend).
  exists (EHttp req :: lA ++ lrun). split.
  - rewrite E. unfold st1. simpl. now rewrite <- app_assoc.
  - right. exists tok, lA, lrun, rA. split; [reflexivity|]. split; [exact Etok|].
    split; [assumption|]. exact Hend.
Qed.

End Stages.

(** ** The run as a whole *)

Lemma RemoveAll_log path st :
  log (os.RemoveAll path st).2 = log st ++ [ERemoveAll path].
Proof.
  unfold os.RemoveAll, bind, emit, get_fs, put_fs, ret. simpl.
  destruct (decide (path = "")); reflexivity.
Qed.

Lemma TempDir_cases (w : World) dir pre st :
  os.TempDir w dir pre st = (Fail ErrTempDir, st)
  \/ exists name m',
       os.TempDir w dir pre st
       = (Val name, mkState m' (log st ++ [ETempDir name])).
Proof.
  unfold os.TempDir. generalize (Z.to_nat 10000). intros tries.
  unfold bind, get_fs, put_fs, emit, ret, fail. cbv beta iota.
  destruct (os.TempDir_try w dir pre tries 0 (fs st)) as [[name m']|].
  - right. exists name, m'. reflexivity.
  - left. reflexivity.
Qed.

(** [main], step by step. *)
Lemma main_eq (w : World) (Args : list string) (st : state) :
  MainGo.main w Args st
  = match Args !! 2%nat with
    | None => (Panic (IndexOutOfRange 2 (List.length Args)), st)
    | Some image =>
        match Args !! 3%nat with
        | None => (Panic (IndexOutOfRange 3 (List.length Args)), st)
        | Some command =>
            match os.TempDir w "/tmp" "docker" st with
            | (Val dir, st1) =>
                defer (os.RemoveAll dir)
                      (MainGo.main_body w image command (drop 4 Args) dir) st1
            | (Fail e, st1) => (Panic (PanicErr e), st1)
            | (Panic v, st1) => (Panic v, st1)
            | (Exit c, st1) => (Exit c, st1)
            end
        end
    end.
Proof.
  unfold MainGo.main, index.
  destruct (Args !! 2%nat) as [image|]; [|reflexivity].
  destruct (Args !! 3%nat) as [command|]; [|reflexivity].
  unfold bind at 1. unfold ret at 1. unfold bind at 1. unfold ret at 1.
  unfold bind at 1. unfold must at 1.
  destruct (os.TempDir w "/tmp" "docker" st) as [[dir|e|v|c] st1]; reflexivity.
Qed.

(** The log of a run of [main]: empty when the process dies before the
    temporary directory exists; otherwise the creation of the directory,
    the events of the body and, unless the process ended by [os.Exit], the
    deferred removal. *)
Lemma main_shape (w : World) (Args : list string) (m : gmap string node) :
  let out := MainGo.main w Args (boot m) in
  (log out.2 = [] /\ exists v, out.1 = Panic v)
  \/ exists image command dir lb,
       Args !! 2%nat = Some image
       /\ Args !! 3%nat = Some command
       /\ body_shape w image command (drop 4 Args) dir out.1 lb
       /\ log out.2 = ETempDir dir :: lb
                      ++ match out.1 with
                         | Exit _ => []
                         | _ => [ERemoveAll dir]
                         end.
Proof.
  cbv zeta. rewrite main_eq.
  destruct (Args !! 2%nat) as [image|];
    [|left; split; [reflexivity|eexists; reflexivity]].
  destruct (Args !! 3%nat) as [command|];
    [|left; split; [reflexivity|eexists; reflexivity]].
  destruct (TempDir_cases w "/tmp" "docker" (boot m)) as [->|(dir & m' & ->)];
    [left; split; [reflexivity|eexists; reflexivity]|].
  right. exists image, command, dir.
  unfold defer. cbn [boot log app].
  destruct (main_body_shape w image command (drop 4 Args) dir
              (mkState m' [ETempDir dir])) as (lb & Elog & Hshape).
  exists lb. split; [reflexivity|]. split; [reflexivity|].
  destruct (MainGo.main_body w image command (drop 4 Args) dir
              (mkState m' [ETempDir dir])) as [[[]|e|v|c] st1];
    cbn [fst snd log] in *; (split; [exact Hshape|]);
    rewrite ?RemoveAll_log, Elog; cbn [app]; rewrite ?app_nil_r; reflexivity.
Qed.

Lemma trace_no_spawn w token r l e :
  trace w token r l -> In e l -> ~ is_spawn e.
Proof.
  intros [H|(pre & req & -> & Hpre & _)] Hin Hsp.
  - rewrite Forall_forall in H. apply list_elem_of_In, H in Hin.
    destruct e; simpl in *; tauto.
  - apply in_app_or in Hin as [Hin|[<-|[]]]; [|exact Hsp].
    rewrite Forall_forall in Hpre. apply list_elem_of_In, Hpre in Hin.
    destruct e; simpl in *; tauto.
Qed.

Lemma land_255 (n : Z) : 0 <= n <= 255 -> Z.land n 255 = n.
Proof.
  intros H. change 255 with (Z.ones 8). rewrite Z.land_ones by lia.
  apply Z.mod_small. change (2 ^ 8) with 256. lia.
Qed.

(** C4.  When the child the tool spawned ends normally with exit code [N],
    0 through 255, the tool ends with exit status [N]. *)
Theorem C4_exit_code_propagates
        (w : World) (Args : list string) (m : gmap string node)
        (N : Z) (chroot command : string) (args : list string) :
  0 <= N <= 255 ->
  In (ESpawn chroot command args (Started (Exited N)))
     (log (MainGo.main w Args (boot m)).2) ->
  exit_status (MainGo.main w Args (boot m)).1 = N.
Proof.
  intros HN Hin.
  destruct (main_shape w Args m) as [[E _]|(image & cmd & dir & lb & _ & _ & Hb & E)];
    cbv zeta in *; rewrite E in Hin; [destruct Hin|].
  destruct Hin as [Hin|Hin]; [discriminate|].
  apply in_app_or in Hin as [Hin|Hin].
  2:{ destruct (MainGo.main w Args (boot m)).1; simpl in Hin;
      try destruct Hin as [Hin|[]]; try discriminate; destruct Hin. }
  destruct Hb as [([->| ->] & _)|(token & lA & lrun & rA & -> & _ & T & Hend)].
  - destruct Hin.
  - destruct Hin as [Hin|[]]; discriminate.
  - destruct Hin as [Hin|Hin]; [discriminate|].
    apply in_app_or in Hin as [Hin|Hin].
    { exfalso. eapply trace_no_spawn; [exact T|exact Hin|exact I]. }
    destruct Hend as [(_ & rr & -> & Hr)|(_ & -> & _)]; [|destruct Hin].
    destruct Hin as [Hin|[]]. injection Hin as _ _ _ ->.
    rewrite Hr. unfold after_run.
    destruct N; simpl; try reflexivity.
    + apply (land_255 (Z.pos p)). assumption.
    + lia.
Qed.

Lemma C4_exit_code_witness :
  exit_status
    (MainGo.main (Sample.world Sample.token_ok 200 (Started (Exited 7)))
       Sample.Args (boot Sample.host)).1 = 7.
Proof.
  apply (C4_exit_code_propagates _ _ _ 7 Sample.root "/bin/echo" ["hello"]).
  - lia.
  - vm_compute. do 17 right. left. reflexivity.
Defined.

(** [main] never ends with an error value: every error is turned into a
    panic or into an exit. *)
Lemma main_body_not_Fail (w : World) image command args dir st e :
  (MainGo.main_body w image command args dir st).1 <> Fail e.
Proof.
  destruct (main_body_shape w image command args dir st)
    as (lb & _ & [(_ & (v & Hv) & _)|(token & lA & lrun & rA & _ & _ & T & Hend)]).
  - rewrite Hv. discriminate.
  - revert Hend.
    rewrite main_body_eq, registryLogin_eq. cbv zeta.
    destruct (url_parses w _); [|discriminate].
    destruct (round_trip w _) as [resp|]; [|discriminate].
    destruct (decide (StatusCode resp <> http.StatusOK)); [discriminate|].
    destruct (login_token w image) as [tok|]; [|discriminate].
    intros _. unfold bind at 1. unfold must at 1.
    destruct (MainGo.fetchManifest w tok image _) as [[mf|e1|v1|c1] s1];
      try discriminate.
    generalize (filepath.Join ["/tmp"; dir]). intros root.
    unfold bind at 1.
    assert (Hl : forall layers s,
               (MainGo.extractLayers w tok image layers root s).1 <> Fail e).
    { induction layers as [|l layers IH]; intros s; [discriminate|].
      rewrite extractLayers_cons.
      destruct (MainGo.extractLayer w tok image (MainGo.Digest l) root s)
        as [[[]|e2|v2|c2] s2]; try discriminate. apply IH. }
    specialize (Hl (MainGo.Layers mf) s1).
    destruct (MainGo.extractLayers w tok image (MainGo.Layers mf) root s1)
      as [[[]|e2|v2|c2] s2]; try discriminate; [|exact Hl].
    unfold bind at 1. unfold MainGo.stageCommand. unfold bind at 1.
    unfold must at 1.
    destruct (os.MkdirAll w _ os.ModePerm s2) as [[[]|e3|v3|c3] s3];
      try discriminate.
    unfold must at 1.
    destruct (MainGo.copy w command _ s3) as [[[]|e4|v4|c4] s4];
      try discriminate.
    unfold MainGo.runCommand, exec.Run, bind, catch, get_fs, emit, ret, fail, os_Exit.
    simpl.
    destruct (run_child w (fs s4) root command args) as [[code|sig]|];
      simpl; try discriminate.
    destruct code; discriminate.
Qed.

Lemma main_not_Fail (w : World) (Args : list string) (st : state) e :
  (MainGo.main w Args st).1 <> Fail e.
Proof.
  rewrite main_eq.
  destruct (Args !! 2%nat) as [image|]; [|discriminate].
  destruct (Args !! 3%nat) as [command|]; [|discriminate].
  destruct (os.TempDir w "/tmp" "docker" st) as [[d|e1|v1|c1] s1];
    try discriminate.
  unfold defer.
  pose proof (main_body_not_Fail w image command (drop 4 Args) d s1 e) as H.
  destruct (MainGo.main_body w image command (drop 4 Args) d s1)
    as [[[]|e2|v2|c2] s2]; cbn [fst] in *; try discriminate. exact H.
Qed.

Lemma login_token_status (w : World) image tok :
  login_token w image = Some tok -> ~ non200 w (token_request image).
Proof.
  unfold login_token, non200.
  destruct (round_trip w (token_request image)) as [resp|]; [|discriminate].
  destruct (decide (StatusCode resp <> http.StatusOK)); [discriminate|].
  intros _. assumption.
Qed.

Lemma tame_good (w : World) token e : tame w token e -> good w e.
Proof. destruct e; simpl; tauto. Qed.

Lemma tame_http_ok (w : World) token l req :
  Forall (tame w token) l -> In (EHttp req) l -> ~ non200 w req.
Proof.
  intros H Hin. rewrite Forall_forall in H.
  apply list_elem_of_In, H in Hin. simpl in Hin. tauto.
Qed.

(** C7.  When one of the three registry endpoints answers a request of the
    run with a status other than 200, the stage returns the error of that
    status, [main] panics with it, and the request is the last thing the
    run does before the deferred removal of the temporary directory: no
    request, no extraction and no child come after it, and no earlier
    request had been answered that way. *)
Theorem C7_non_200_aborts_the_run
        (w : World) (Args : list string) (m : gmap string node) (req : request) :
  In (EHttp req) (log (MainGo.main w Args (boot m)).2) ->
  non200 w req ->
  exists pre dir resp what,
    log (MainGo.main w Args (boot m)).2 = pre ++ [EHttp req; ERemoveAll dir]
    /\ Forall (good w) pre
    /\ round_trip w req = Some resp
    /\ (MainGo.main w Args (boot m)).1
       = Panic (PanicErr (ErrStatus what (StatusCode resp))).
Proof.
  intros Hin Hbad.
  destruct (main_shape w Args m) as [[E _]|(image & cmd & dir & lb & _ & _ & Hb & E)];
    cbv zeta in *; rewrite E in Hin; [destruct Hin|].
  pose proof (main_not_Fail w Args (boot m)) as Hnf.
  destruct Hin as [Hin|Hin]; [discriminate|].
  destruct Hb as [(Hlb & (v & Hv) & Href)|(token & lA & lrun & rA & -> & Htok & T & Hend)].
  - (* the token request was refused *)
    rewrite Hv in E, Hin. simpl in E.
    destruct Hlb as [->| ->]; simpl in Hin.
    + destruct Hin as [Hin|[]]; discriminate.
    + destruct Hin as [Hin|[Hin|[]]]; [|discriminate].
      injection Hin as <-.
      destruct (Href ltac:(discriminate) Hbad) as (resp & what & Hrt & Hs & [Hr|Hr]);
        [destruct (Hnf _ Hr)|].
      exists [ETempDir dir], dir, resp, what.
      split; [exact E|]. split; [repeat constructor|]. split; assumption.
  - pose proof (login_token_status w image token Htok) as Hlogin.
    destruct T as [T|(pre' & req' & -> & Hpre & Hbearer & resp & what & Hrt & Hs & Hr)].
    + (* no stage was refused: the request cannot be in the log *)
      exfalso. simpl in Hin. destruct Hin as [Hin|Hin].
      { injection Hin as <-. exact (Hlogin Hbad). }
      rewrite <- app_assoc in Hin.
      apply in_app_or in Hin as [Hin|Hin];
        [exact (tame_http_ok w token lA req T Hin Hbad)|].
      apply in_app_or in Hin as [Hin|Hin].
      * destruct Hend as [(_ & rr & -> & _)|(_ & -> & _)];
          [destruct Hin as [Hin|[]]; discriminate|destruct Hin].
      * destruct (MainGo.main w Args (boot m)).1; simpl in Hin;
          try destruct Hin as [Hin|[]]; try discriminate; destruct Hin.
    + (* a stage was refused at [req'] *)
      destruct Hend as [(HrA & _)|(_ & -> & Hmain)].
      { destruct Hr as [Hr|Hr]; rewrite Hr in HrA; discriminate. }
      rewrite Hmain in E.
      assert (Hpanic : (MainGo.main w Args (boot m)).1
                       = Panic (PanicErr (ErrStatus what (StatusCode resp)))).
      { rewrite Hmain. destruct Hr as [Hr|Hr]; [|exact Hr].
        exfalso. apply (Hnf (ErrStatus what (StatusCode resp))). congruence. }
      assert (HrA : rA = Panic (PanicErr (ErrStatus what (StatusCode resp))))
        by congruence.
      rewrite HrA in E. simpl in E. rewrite app_nil_r in E.
      assert (req = req') as <-.
      { rewrite Hpanic in Hin. cbn [app] in Hin. rewrite app_nil_r in Hin.
        destruct Hin as [Hin|Hin].
        - injection Hin as <-. destruct (Hlogin Hbad).
        - apply in_app_or in Hin as [Hin|Hin].
          + apply in_app_or in Hin as [Hin|Hin];
              [destruct (tame_http_ok w token pre' req Hpre Hin Hbad)|].
            destruct Hin as [Hin|[]]. congruence.
          + destruct Hin as [Hin|[]]. discriminate. }
      exists (ETempDir dir :: EHttp (token_request image) :: pre'), dir, resp, what.
      split; [|split; [|split; assumption]].
      * rewrite E. simpl. now rewrite <- !app_assoc.
      * constructor; [exact I|]. constructor; [exact Hlogin|].
        eapply Forall_impl; [exact Hpre|]. intros e. apply tame_good.
Qed.

Lemma C7_non_200_witness :
  exists pre dir resp what,
    log (MainGo.main (Sample.world Sample.token_ok 404 (Started (Exited 0)))
           Sample.Args (boot Sample.host)).2
    = pre ++ [EHttp (blob_request "tok" "busybox:latest" "sha256:b"); ERemoveAll dir]
    /\ Forall (good (Sample.world Sample.token_ok 404 (Started (Exited 0)))) pre
    /\ round_trip (Sample.world Sample.token_ok 404 (Started (Exited 0)))
         (blob_request "tok" "busybox:latest" "sha256:b") = Some resp
    /\ (MainGo.main (Sample.world Sample.token_ok 404 (Started (Exited 0)))
          Sample.Args (boot Sample.host)).1
       = Panic (PanicErr (ErrStatus what (StatusCode resp))).
Proof.
  apply (C7_non_200_aborts_the_run
           (Sample.world Sample.token_ok 404 (Started (Exited 0)))
           Sample.Args Sample.host
           (blob_request "tok" "busybox:latest" "sha256:b")).
  - vm_compute. do 10 right. left. reflexivity.
  - vm_compute. discriminate.
Defined.

(** ** The token *)

Lemma requests_app l1 l2 : requests (l1 ++ l2) = requests l1 ++ requests l2.
Proof.
  induction l1 as [|e l1 IH]; [reflexivity|].
  destruct e; simpl; rewrite IH; reflexivity.
Qed.

Lemma tame_requests (w : World) token l :
  Forall (tame w token) l -> Forall (has_bearer token) (requests l).
Proof.
  induction 1 as [|e l He _ IH]; [constructor|].
  destruct e; simpl in *; try assumption.
  constructor; tauto.
Qed.

Lemma trace_requests (w : World) token r l :
  trace w token r l -> Forall (has_bearer token) (requests l).
Proof.
  intros [H|(pre & req & -> & Hpre & Hb & _)]; [now apply (tame_requests w)|].
  rewrite requests_app. apply Forall_app. split; [now apply (tame_requests w)|].
  simpl. repeat constructor. assumption.
Qed.

Lemma into_struct_token_absent kvs cur :
  (forall k v, In (k, v) kvs -> json_decode.selects k "token" = false) ->
  json_decode.into_struct MainGo.token_field cur (JObject kvs) = Some cur.
Proof.
  unfold json_decode.into_struct. intros H.
  induction kvs as [|[k v] kvs IH]; [reflexivity|].
  simpl. unfold MainGo.token_field at 2.
  rewrite (H k v) by (left; reflexivity).
  apply IH. intros k' v' Hin. apply (H k' v'). right. assumption.
Qed.

(** *** The requests of a run, one by one *)

Lemma requests_fs_events l : Forall is_fs_event l -> requests l = [].
Proof.
  induction 1 as [|e l He _ IH]; [reflexivity|].
  destruct e; simpl in *; try assumption; contradiction.
Qed.

Lemma fs_events_no_spawn l e : Forall is_fs_event l -> In e l -> ~ is_spawn e.
Proof.
  intros H Hin Hs. rewrite Forall_forall in H.
  apply list_elem_of_In, H in Hin. destruct e; simpl in *; contradiction.
Qed.

Section Requests.
Variable w : World.
Variable token image rootDir : string.

(** A layer whose blob URL parses costs one request, the one for its blob;
    one whose URL does not parse costs none and is not unpacked. *)
Lemma extractLayer_requests digest st :
  exists l,
    log (MainGo.extractLayer w token image digest rootDir st).2 = log st ++ l
    /\ requests l
       = (if url_parses w (URL (blob_request token image digest))
          then [blob_request token image digest] else [])
    /\ (forall e, In e l -> ~ is_spawn e)
    /\ (url_parses w (URL (blob_request token image digest)) = false ->
        forall u, (MainGo.extractLayer w token image digest rootDir st).1 <> Val u).
Proof.
  rewrite extractLayer_eq. cbv zeta.
  set (req := blob_request token image digest).
  assert (Hone : forall e, In e [EHttp req] -> ~ is_spawn e).
  { intros e [<-|[]] Hs. exact Hs. }
  destruct (url_parses w (URL req)).
  2:{ exists []. simpl. rewrite app_nil_r. repeat split; try tauto.
      intros _ u. discriminate. }
  destruct (round_trip w req) as [[status b]|].
  2:{ exists [EHttp req]. repeat split; try assumption. discriminate. }
  cbn [StatusCode Body].
  destruct (decide (status <> http.StatusOK)).
  { exists [EHttp req]. repeat split; try assumption. discriminate. }
  destruct b as [j|es trailer|];
    try (exists [EHttp req]; repeat split; try assumption; discriminate).
  destruct (quiet_extractEntries w rootDir es
              (mkState (fs st) (log st ++ [EHttp req]))) as (l & E & F).
  exists (EHttp req :: l).
  assert (Hlog : log (MainGo.extractEntries w rootDir es
                        (mkState (fs st) (log st ++ [EHttp req]))).2
                 = log st ++ EHttp req :: l).
  { rewrite E. cbn [log]. now rewrite <- app_assoc. }
  split.
  - destruct (MainGo.extractEntries w rootDir es _) as [[[]|err|v|c] st2];
      try exact Hlog.
    destruct trailer; exact Hlog.
  - split; [simpl; now rewrite (requests_fs_events l F)|].
    split; [|discriminate].
    intros e [<-|Hin]; [intros Hs; exact Hs|].
    now apply (fs_events_no_spawn l).
Qed.

(** The loop over the layers asks for the blobs of the layers it comes to,
    in their order, and for nothing else: for all of them when it ends well,
    and for the first one whenever its URL parses. *)
Lemma extractLayers_requests layers st :
  exists attempted l,
    log (MainGo.extractLayers w token image layers rootDir st).2 = log st ++ l
    /\ requests l
       = map (fun la => blob_request token image (MainGo.Digest la)) attempted
    /\ (forall e, In e l -> ~ is_spawn e)
    /\ attempted `prefix_of` layers
    /\ ((exists u, (MainGo.extractLayers w token image layers rootDir st).1 = Val u) ->
        attempted = layers)
    /\ (forall la rest,
          layers = la :: rest ->
          url_parses w (URL (blob_request token image (MainGo.Digest la))) = true ->
          exists more, attempted = la :: more).
Proof.
  revert st. induction layers as [|la layers IH]; intros st.
  { exists [], []. simpl. rewrite app_nil_r.
    repeat split; try tauto; try reflexivity. intros la rest H. discriminate H. }
  rewrite extractLayers_cons.
  destruct (extractLayer_requests (MainGo.Digest la) st) as (l1 & E1 & R1 & S1 & V1).
  destruct (url_parses w (URL (blob_request token image (MainGo.Digest la)))) eqn:P.
  - destruct (MainGo.extractLayer w token image (MainGo.Digest la) rootDir st)
      as [[[]|err|v|c] st1]; cbn [fst snd] in *.
    + destruct (IH st1) as (attempted & l2 & E2 & R2 & S2 & Pre & V2 & _).
      exists (la :: attempted), (l1 ++ l2).
      split; [now rewrite E2, E1, <- app_assoc|].
      split; [rewrite requests_app, R1, R2; reflexivity|].
      split; [intros e Hin; apply in_app_or in Hin as [Hin|Hin]; auto|].
      split; [destruct Pre as [k ->]; exists k; reflexivity|].
      split; [intros Hv; now rewrite (V2 Hv)|].
      intros la' rest [= <- <-] _. eexists. reflexivity.
    + exists [la], l1. repeat split; try assumption.
      * exists layers. reflexivity.
      * intros [u Hu]. discriminate Hu.
      * intros la' rest [= <- <-] _. eexists. reflexivity.
    + exists [la], l1. repeat split; try assumption.
      * exists layers. reflexivity.
      * intros [u Hu]. discriminate Hu.
      * intros la' rest [= <- <-] _. eexists. reflexivity.
    + exists [la], l1. repeat split; try assumption.
      * exists layers. reflexivity.
      * intros [u Hu]. discriminate Hu.
      * intros la' rest [= <- <-] _. eexists. reflexivity.
  - specialize (V1 eq_refl).
    destruct (MainGo.extractLayer w token image (MainGo.Digest la) rootDir st)
      as [[[]|err|v|c] st1]; cbn [fst snd] in *;
      [destruct (V1 tt); reflexivity|..];
      (exists [], l1; repeat split; try assumption;
       [exists (la :: layers); reflexivity
       |intros [u Hu]; discriminate Hu
       |intros la' rest [= <- <-] Hp; rewrite Hp in P; discriminate P]).
Qed.

End Requests.

Section RunRequests.
Variable w : World.
Variable token image : string.

Lemma runCommand_log chrootRoot command args st :
  exists rr,
    log (MainGo.runCommand w chrootRoot command args st).2
    = log st ++ [ESpawn chrootRoot command args rr].
Proof.
  exists (run_child w (fs st) chrootRoot command args).
  unfold MainGo.runCommand, exec.Run, bind, catch, get_fs, emit, ret, fail, os_Exit.
  simpl.
  destruct (run_child w (fs st) chrootRoot command args) as [[code|sig]|]; simpl;
    try reflexivity.
  destruct code; reflexivity.
Qed.

(** Staging and running the command send no request. *)
Lemma stage_and_run_requests chrootRoot command args st :
  exists l,
    log ((MainGo.stageCommand w chrootRoot command;;
          MainGo.runCommand w chrootRoot command args) st).2 = log st ++ l
    /\ requests l = [].
Proof.
  unfold bind.
  destruct (quiet_stageCommand w chrootRoot command st) as (l1 & E1 & F1).
  destruct (MainGo.stageCommand w chrootRoot command st) as [[[]|err|v|c] st1];
    cbn [fst snd] in *;
    try (exists l1; split; [exact E1|now apply requests_fs_events]).
  destruct (runCommand_log chrootRoot command args st1) as (rr & E2).
  exists (l1 ++ [ESpawn chrootRoot command args rr]).
  split; [now rewrite E2, E1, <- app_assoc|].
  rewrite requests_app, (requests_fs_events l1 F1). reflexivity.
Qed.

(** What follows the login when the reference has a tag and the URL of the
    manifest parses: the request for the manifest, then the requests for
    the blobs of the layers the loop comes to. *)
Lemma after_login_requests command args dir name tag more st :
  strings.Split image ":" = name :: tag :: more ->
  url_parses w (manifest_url name tag) = true ->
  exists attempted l,
    log ((do manifest <- must (MainGo.fetchManifest w token image);
          MainGo.extractLayers w token image (MainGo.Layers manifest)
            (filepath.Join ["/tmp"; dir]);;
          MainGo.stageCommand w (filepath.Join ["/tmp"; dir]) command;;
          MainGo.runCommand w (filepath.Join ["/tmp"; dir]) command args) st).2
    = log st ++ l
    /\ requests l
       = manifest_request token name tag
         :: map (fun la => blob_request token image (MainGo.Digest la)) attempted
    /\ attempted `prefix_of` manifest_layers w token name tag
    /\ ((exists e, In e l /\ is_spawn e) ->
        attempted = manifest_layers w token name tag)
    /\ (forall la rest,
          manifest_layers w token name tag = la :: rest ->
          url_parses w (URL (blob_request token image (MainGo.Digest la))) = true ->
          exists more', attempted = la :: more').
Proof.
  intros Hsplit Hurl.
  unfold bind at 1. unfold must at 1. rewrite fetchManifest_eq, Hsplit.
  change ((name :: tag :: more) !! 1%nat) with (Some tag).
  change ((name :: tag :: more) !! 0%nat) with (Some name).
  change (default "" (Some name)) with name.
  cbv beta iota zeta.
  change (URL (manifest_request token name tag)) with (manifest_url name tag).
  rewrite Hurl. unfold manifest_layers.
  set (req := manifest_request token name tag).
  assert (Hstop : forall (r : res unit),
             exists attempted l,
               log st ++ [EHttp req] = log st ++ l
               /\ requests l
                  = req :: map (fun la => blob_request token image (MainGo.Digest la))
                             attempted
               /\ attempted `prefix_of` []
               /\ ((exists e, In e l /\ is_spawn e) -> attempted = [])
               /\ (forall la rest,
                     @nil MainGo.layer = la :: rest ->
                     url_parses w (URL (blob_request token image (MainGo.Digest la)))
                     = true ->
                     exists more', attempted = la :: more')).
  { intros _. exists [], [EHttp req]. repeat split.
    - exists []. reflexivity.
    - intros la rest H. discriminate H. }
  destruct (round_trip w req) as [[status b]|]; [|exact (Hstop (Val tt))].
  cbn [StatusCode Body].
  destruct (decide (status <> http.StatusOK)); [exact (Hstop (Val tt))|].
  destruct b as [j|es trailer|]; try exact (Hstop (Val tt)).
  destruct (json_decode.into_struct MainGo.manifest_field (MainGo.mkManifest []) j)
    as [manifest|]; [|exact (Hstop (Val tt))].
  clear Hstop.
  set (st1 := mkState (fs st) (log st ++ [EHttp req])).
  destruct (extractLayers_requests w token image (filepath.Join ["/tmp"; dir])
              (MainGo.Layers manifest) st1)
    as (attempted & l & E & R & S & Pre & V & F).
  unfold bind at 1.
  destruct (MainGo.extractLayers w token image (MainGo.Layers manifest)
              (filepath.Join ["/tmp"; dir]) st1) as [[[]|err|v|c] st2];
    cbn [fst snd] in *.
  - rewrite (V (ex_intro _ tt eq_refl)) in *.
    destruct (stage_and_run_requests (filepath.Join ["/tmp"; dir]) command args st2)
      as (l' & E' & R').
    exists (MainGo.Layers manifest), (EHttp req :: l ++ l').
    split; [rewrite E', E; unfold st1; cbn [log]; now rewrite <- !app_assoc|].
    split; [simpl; now rewrite requests_app, R, R', app_nil_r|].
    split; [exists []; now rewrite app_nil_r|].
    split; [reflexivity|].
    intros la rest Hl _. rewrite Hl. eexists. reflexivity.
  - exists attempted, (EHttp req :: l).
    split; [rewrite E; unfold st1; cbn [log]; now rewrite <- app_assoc|].
    split; [simpl; now rewrite R|]. split; [exact Pre|].
    split; [|exact F].
    intros (e & [<-|Hin] & Hs); [destruct Hs|destruct (S e Hin Hs)].
  - exists attempted, (EHttp req :: l).
    split; [rewrite E; unfold st1; cbn [log]; now rewrite <- app_assoc|].
    split; [simpl; now rewrite R|]. split; [exact Pre|].
    split; [|exact F].
    intros (e & [<-|Hin] & Hs); [destruct Hs|destruct (S e Hin Hs)].
  - exists attempted, (EHttp req :: l).
    split; [rewrite E; unfold st1; cbn [log]; now rewrite <- app_assoc|].
    split; [simpl; now rewrite R|]. split; [exact Pre|].
    split; [|exact F].
    intros (e & [<-|Hin] & Hs); [destruct Hs|destruct (S e Hin Hs)].
Qed.

End RunRequests.

Lemma defer_RemoveAll_log {A} dir (body : M A) st :
  log (defer (os.RemoveAll dir) body st).2
  = log (body st).2 ++ match (body st).1 with
                       | Exit _ => []
                       | _ => [ERemoveAll dir]
                       end.
Proof.
  unfold defer.
  destruct (body st) as [[a|e|v|c] st']; cbn [fst snd];
    rewrite ?RemoveAll_log, ?app_nil_r; reflexivity.
Qed.

(** C10.  When the token endpoint answers 200 with a JSON object that has
    no field the decoder takes for [token], [registryLogin] returns the
    empty string and no error, and that empty token is the credential of
    what the run asks for next.  Every request after the token request
    carries [Bearer ] followed by nothing; and when the run comes to its
    registry stages (a command is given, the temporary directory is made,
    the reference has a tag and the URL of the manifest parses), these
    requests are there: the one for the manifest, then the ones for the
    blobs of the layers of the manifest, in their order, as far as the
    loop over the layers comes, which is to the first layer at least
    when its URL parses, and to all of them when the child is started. *)
Theorem C10_missing_token_field_gives_empty_bearer
        (w : World) (Args : list string) (m : gmap string node)
        (image : string) (kvs : list (string * json)) :
  Args !! 2%nat = Some image ->
  url_parses w (URL (token_request image)) = true ->
  round_trip w (token_request image)
  = Some (mkResponse 200 (BodyJSON (JObject kvs))) ->
  (forall k v, In (k, v) kvs -> json_decode.selects k "token" = false) ->
  (forall st, MainGo.registryLogin w image st
              = (Val "", mkState (fs st) (log st ++ [EHttp (token_request image)])))
  /\ (requests (log (MainGo.main w Args (boot m)).2) = []
      \/ exists rest,
           requests (log (MainGo.main w Args (boot m)).2)
           = token_request image :: rest
           /\ Forall (has_bearer "") rest)
  /\ (forall command dir name tag more,
        Args !! 3%nat = Some command ->
        (os.TempDir w "/tmp" "docker" (boot m)).1 = Val dir ->
        strings.Split image ":" = name :: tag :: more ->
        url_parses w (manifest_url name tag) = true ->
        exists attempted,
          requests (log (MainGo.main w Args (boot m)).2)
          = token_request image
            :: manifest_request "" name tag
            :: map (fun la => blob_request "" image (MainGo.Digest la)) attempted
          /\ attempted `prefix_of` manifest_layers w "" name tag
          /\ ((exists e, In e (log (MainGo.main w Args (boot m)).2) /\ is_spawn e) ->
              attempted = manifest_layers w "" name tag)
          /\ (forall la rest,
                manifest_layers w "" name tag = la :: rest ->
                url_parses w (URL (blob_request "" image (MainGo.Digest la))) = true ->
                exists more', attempted = la :: more')).
Proof.
  intros Himage Hurl Hrt Hkvs.
  assert (Htok : login_token w image = Some "").
  { unfold login_token. rewrite Hrt. cbn [StatusCode Body].
    destruct (decide (200 <> http.StatusOK)) as [Hc|_];
      [exfalso; apply Hc; reflexivity|].
    now rewrite into_struct_token_absent. }
  assert (Hlogin : forall st,
             MainGo.registryLogin w image st
             = (Val "", mkState (fs st) (log st ++ [EHttp (token_request image)]))).
  { intros st. rewrite registryLogin_eq. cbv zeta. rewrite Hurl, Hrt.
    cbn [StatusCode Body].
    destruct (decide (200 <> http.StatusOK)) as [Hc|_];
      [exfalso; apply Hc; reflexivity|].
    now rewrite Htok. }
  split; [exact Hlogin|]. split.
  - destruct (main_shape w Args m)
      as [[E _]|(image' & cmd & dir & lb & Hi & _ & Hb & E)];
      cbv zeta in *; rewrite E; [left; reflexivity|].
    rewrite Himage in Hi. injection Hi as <-.
    assert (Hclean : requests
                       (match (MainGo.main w Args (boot m)).1 with
                        | Exit _ => []
                        | _ => [ERemoveAll dir]
                        end) = []).
    { destruct (MainGo.main w Args (boot m)).1; reflexivity. }
    simpl. rewrite requests_app, Hclean, app_nil_r.
    destruct Hb as [([->| ->] & _)|(token & lA & lrun & rA & -> & Htok' & T & Hend)].
    + left. reflexivity.
    + right. exists []. split; [reflexivity|constructor].
    + right. rewrite Htok in Htok'. injection Htok' as <-.
      simpl. rewrite requests_app.
      assert (Hrun : requests lrun = []).
      { destruct Hend as [(_ & rr & -> & _)|(_ & -> & _)]; reflexivity. }
      rewrite Hrun, app_nil_r.
      exists (requests lA). split; [reflexivity|].
      eapply trace_requests. exact T.
  - intros command dir name tag more Hcommand Hdir Hsplit Hurl'.
    rewrite main_eq, Himage, Hcommand.
    destruct (TempDir_cases w "/tmp" "docker" (boot m)) as [E|(dir' & m' & E)];
      rewrite E in Hdir |- *; [discriminate Hdir|].
    cbn [fst] in Hdir. injection Hdir as ->.
    rewrite defer_RemoveAll_log.
    set (tail := match _ with Exit _ => [] | _ => [ERemoveAll dir] end).
    assert (Htail : requests tail = [] /\ forall e, In e tail -> ~ is_spawn e).
    { unfold tail.
      destruct (MainGo.main_body w image command (drop 4 Args) dir _).1;
        (split; [reflexivity|]); intros ev Hin;
        try destruct Hin as [<-|[]]; try destruct Hin; intros Hs; exact Hs. }
    destruct Htail as [Rtail Stail]. clearbody tail.
    rewrite main_body_eq, Hlogin. cbn [fs log boot app].
    destruct (after_login_requests w "" image command (drop 4 Args) dir name tag more
                (mkState m' ([ETempDir dir] ++ [EHttp (token_request image)]))
                Hsplit Hurl')
      as (attempted & l & E' & R & Pre & Sp & F).
    cbn [app] in E'. rewrite E'. cbn [log].
    exists attempted.
    split; [rewrite !requests_app, R, Rtail, app_nil_r; reflexivity|].
    split; [exact Pre|]. split; [|exact F].
    intros (e & Hin & Hs). apply Sp. exists e. split; [|exact Hs].
    apply in_app_or in Hin as [Hin|Hin]; [|destruct (Stail e Hin Hs)].
    apply in_app_or in Hin as [Hin|Hin]; [|exact Hin].
    destruct Hin as [<-|[<-|[]]]; destruct Hs.
Qed.

Lemma C10_missing_token_field_witness :
  (forall st, MainGo.registryLogin (Sample.world (JObject []) 200 (Started (Exited 0)))
                "busybox:latest" st
              = (Val "", mkState (fs st)
                           (log st ++ [EHttp (token_request "busybox:latest")])))
  /\ (exists rest,
        requests (log (MainGo.main (Sample.world (JObject []) 200 (Started (Exited 0)))
                         Sample.Args (boot Sample.host)).2)
        = token_request "busybox:latest" :: rest
        /\ Forall (has_bearer "") rest)
  /\ exists attempted,
       requests (log (MainGo.main (Sample.world (JObject []) 200 (Started (Exited 0)))
                        Sample.Args (boot Sample.host)).2)
       = token_request "busybox:latest"
         :: manifest_request "" "busybox" "latest"
         :: map (fun la => blob_request "" "busybox:latest" (MainGo.Digest la))
              attempted
       /\ attempted = Sample.layers.
Proof.
  destruct (C10_missing_token_field_gives_empty_bearer
              (Sample.world (JObject []) 200 (Started (Exited 0)))
              Sample.Args Sample.host "busybox:latest" [])
    as (Hlogin & Hall & Hrun).
  - reflexivity.
  - reflexivity.
  - vm_compute. reflexivity.
  - intros k v [].
  - split; [exact Hlogin|]. split.
    + destruct Hall as [Hnone|Hsome]; [vm_compute in Hnone; discriminate Hnone|].
      exact Hsome.
    + destruct (Hrun "/bin/echo" "/tmp/docker123" "busybox" "latest" [])
        as (attempted & Hreq & _ & Hspawn & _);
        try (vm_compute; reflexivity).
      exists attempted. split; [exact Hreq|].
      rewrite Hspawn; [vm_compute; reflexivity|].
      exists (ESpawn Sample.root "/bin/echo" ["hello"] (Started (Exited 0))).
      split; [|exact I].
      vm_compute. repeat (first [left; reflexivity|right]).
Defined.

(** The requests of the sample run when the token service answers with an
    empty object: the manifest and both blobs are asked for with an empty
    bearer token. *)
Lemma empty_token_sample_requests :
  requests (log (MainGo.main (Sample.world (JObject []) 200 (Started (Exited 0)))
                   Sample.Args (boot Sample.host)).2)
  = [token_request "busybox:latest";
     manifest_request "" "busybox" "latest";
     blob_request "" "busybox:latest" "sha256:a";
     blob_request "" "busybox:latest" "sha256:b"].
Proof. vm_compute. reflexivity. Qed.

(** ** The temporary directory *)

Lemma removals_app l1 l2 : removals (l1 ++ l2) = removals l1 ++ removals l2.
Proof.
  induction l1 as [|e l1 IH]; [reflexivity|].
  destruct e; simpl; rewrite IH; reflexivity.
Qed.

Lemma tame_removals (w : World) token l :
  Forall (tame w token) l -> removals l = [].
Proof.
  induction 1 as [|e l He _ IH]; [reflexivity|].
  destruct e; simpl in *; try assumption. destruct He.
Qed.

Lemma trace_removals (w : World) token r l :
  trace w token r l -> removals l = [].
Proof.
  intros [H|(pre & req & -> & Hpre & _)]; [now apply (tame_removals w token)|].
  rewrite removals_app, (tame_removals w token pre Hpre). reflexivity.
Qed.

(** The deferred removal is all the cleaning there is: it runs once, on
    the directory [ioutil.TempDir] returned, when [main] returns or panics,
    and not at all when [main] ends the process by [os.Exit]. *)
Lemma removal_runs_unless_exit (w : World) (Args : list string)
      (m : gmap string node) :
  let out := MainGo.main w Args (boot m) in
  log out.2 = []
  \/ exists dir rest,
       log out.2 = ETempDir dir :: rest
       /\ removals (log out.2) = match out.1 with
                                 | Exit _ => []
                                 | _ => [dir]
                                 end.
Proof.
  cbv zeta.
  destruct (main_shape w Args m) as [[E _]|(image & cmd & dir & lb & _ & _ & Hb & E)];
    cbv zeta in *; [left; exact E|].
  right. exists dir. eexists. split; [exact E|].
  rewrite E. simpl. rewrite removals_app.
  assert (Hlb : removals lb = []).
  { destruct Hb as [([->| ->] & _)|(token & lA & lrun & rA & -> & _ & T & Hend)];
      try reflexivity.
    simpl. rewrite removals_app, (trace_removals w token rA lA T).
    destruct Hend as [(_ & rr & -> & _)|(_ & -> & _)]; reflexivity. }
  rewrite Hlb. destruct (MainGo.main w Args (boot m)).1; reflexivity.
Qed.

(** C3 (the code departs from the claim).  In the sample run the child
    exits with code 7; [main] ends the process by [os.Exit(7)], the
    deferred [os.RemoveAll] never runs, and both the directory allocated at
    startup and the directory the layers were unpacked into are still
    there. *)
Theorem C3_temporary_root_survives_child_failure :
  let out := MainGo.main (Sample.world Sample.token_ok 200 (Started (Exited 7)))
               Sample.Args (boot Sample.host) in
  out.1 = Exit 7
  /\ removals (log out.2) = []
  /\ fs out.2 !! "/tmp/docker123" = Some (Dir 448)
  /\ fs out.2 !! "/tmp/tmp/docker123" = Some (Dir 493)
  /\ fs out.2 !! "/tmp/tmp/docker123/etc/motd" = Some (File 420 "hillo").
Proof. vm_compute. repeat split; reflexivity. Qed.

(** When the child exits with code 0 the removal runs once, on the
    directory [ioutil.TempDir] returned; the layers were unpacked below
    [filepath.Join("/tmp", dir)], another directory, which stays. *)
Lemma extraction_root_survives_success :
  let out := MainGo.main (Sample.world Sample.token_ok 200 (Started (Exited 0)))
               Sample.Args (boot Sample.host) in
  out.1 = Val tt
  /\ removals (log out.2) = ["/tmp/docker123"]
  /\ fs out.2 !! "/tmp/docker123" = None
  /\ fs out.2 !! "/tmp/tmp/docker123" = Some (Dir 493).
Proof. vm_compute. repeat split; reflexivity. Qed.

(** ** Failure to launch *)

(** When the child cannot be started, [main] returns as after a child that
    exited with code 0. *)
Lemma launch_failure_returns_normally
      (w : World) (Args : list string) (m : gmap string node)
      (chroot command : string) (args : list string) :
  In (ESpawn chroot command args StartFailed) (log (MainGo.main w Args (boot m)).2) ->
  (MainGo.main w Args (boot m)).1 = Val tt.
Proof.
  intros Hin.
  destruct (main_shape w Args m) as [[E _]|(image & cmd & dir & lb & _ & _ & Hb & E)];
    cbv zeta in *; rewrite E in Hin; [destruct Hin|].
  destruct Hin as [Hin|Hin]; [discriminate|].
  apply in_app_or in Hin as [Hin|Hin].
  2:{ destruct (MainGo.main w Args (boot m)).1; simpl in Hin;
      try destruct Hin as [Hin|[]]; try discriminate; destruct Hin. }
  destruct Hb as [([->| ->] & _)|(token & lA & lrun & rA & -> & _ & T & Hend)].
  - destruct Hin.
  - destruct Hin as [Hin|[]]; discriminate.
  - destruct Hin as [Hin|Hin]; [discriminate|].
    apply in_app_or in Hin as [Hin|Hin].
    { exfalso. eapply trace_no_spawn; [exact T|exact Hin|exact I]. }
    destruct Hend as [(_ & rr & -> & Hr)|(_ & -> & _)]; [|destruct Hin].
    destruct Hin as [Hin|[]]. injection Hin as _ _ _ ->.
    exact Hr.
Qed.

(** C6 (the code departs from the claim).  In the sample run the command
    cannot be started: [cmd.Run] returns an error that is no exit error,
    [main] ignores it and returns, and the process ends with status 0 and
    without a word on standard error. *)
Theorem C6_launch_failure_exits_as_success :
  let out := MainGo.main (Sample.world Sample.token_ok 200 StartFailed)
               Sample.Args (boot Sample.host) in
  In (ESpawn Sample.root "/bin/echo" ["hello"] StartFailed) (log out.2)
  /\ out.1 = Val tt
  /\ exit_status out.1 = 0
  /\ diagnostic out.1 = None.
Proof.
  cbv zeta.
  assert (Hin : In (ESpawn Sample.root "/bin/echo" ["hello"] StartFailed)
                   (log (MainGo.main (Sample.world Sample.token_ok 200 StartFailed)
                           Sample.Args (boot Sample.host)).2)).
  { vm_compute. do 17 right. left. reflexivity. }
  split; [exact Hin|].
  rewrite (launch_failure_returns_normally _ _ _ _ _ _ Hin).
  repeat split.
Qed.

(** * Further properties of the code *)

(** ** The arguments of [main] *)

(** X1.  With fewer than four process arguments [main] panics on
    [os.Args[2]] or [os.Args[3]] with an index out of range before it has
    done anything: no directory is created and no request is sent. *)
Theorem main_needs_four_arguments
        (w : World) (Args : list string) (st : state) :
  (List.length Args < 4)%nat ->
  exists i, (i = 2 \/ i = 3)%nat
            /\ MainGo.main w Args st
               = (Panic (IndexOutOfRange i (List.length Args)), st).
Proof.
  intros Hlen. rewrite main_eq.
  destruct (Args !! 2%nat) as [image|] eqn:E2;
    [|exists 2%nat; split; [left; reflexivity|reflexivity]].
  destruct (Args !! 3%nat) as [command|] eqn:E3;
    [|exists 3%nat; split; [right; reflexivity|reflexivity]].
  apply lookup_lt_Some in E3. lia.
Qed.

Lemma main_needs_four_arguments_witness :
  exists i, (i = 2 \/ i = 3)%nat
            /\ MainGo.main (Sample.world Sample.token_ok 200 StartFailed)
                 ["your_docker"; "run"; "busybox"] (boot Sample.host)
               = (Panic (IndexOutOfRange i 3), boot Sample.host).
Proof.
  apply (main_needs_four_arguments
           (Sample.world Sample.token_ok 200 StartFailed)
           ["your_docker"; "run"; "busybox"] (boot Sample.host)).
  simpl. lia.
Defined.

(** ** The child *)

(** Where the start of the child stands in the log of a run, and what the
    run is then. *)
Lemma spawn_position
      (w : World) (Args : list string) (m : gmap string node)
      (chroot command : string) (args : list string) (rr : run_result) :
  In (ESpawn chroot command args rr) (log (MainGo.main w Args (boot m)).2) ->
  exists dir image token lA,
    log (MainGo.main w Args (boot m)).2
    = ETempDir dir :: EHttp (token_request image) :: lA
      ++ [ESpawn chroot command args rr]
      ++ match after_run rr with
         | Exit _ => []
         | _ => [ERemoveAll dir]
         end
    /\ trace w token (Val tt) lA
    /\ chroot = filepath.Join ["/tmp"; dir]
    /\ Args !! 3%nat = Some command
    /\ args = drop 4 Args
    /\ (MainGo.main w Args (boot m)).1 = after_run rr.
Proof.
  intros Hin.
  destruct (main_shape w Args m) as [[E _]|(image & cmd & dir & lb & _ & Hcmd & Hb & E)];
    cbv zeta in *; rewrite E in Hin; [destruct Hin|].
  destruct Hin as [Hin|Hin]; [discriminate|].
  apply in_app_or in Hin as [Hin|Hin].
  2:{ destruct (MainGo.main w Args (boot m)).1; simpl in Hin;
      try destruct Hin as [Hin|[]]; try discriminate; destruct Hin. }
  destruct Hb as [([->| ->] & _)|(token & lA & lrun & rA & -> & _ & T & Hend)].
  - destruct Hin.
  - destruct Hin as [Hin|[]]; discriminate.
  - destruct Hin as [Hin|Hin]; [discriminate|].
    apply in_app_or in Hin as [Hin|Hin].
    { exfalso. eapply trace_no_spawn; [exact T|exact Hin|exact I]. }
    destruct Hend as [(-> & rr' & -> & Hr)|(_ & -> & _)]; [|destruct Hin].
    destruct Hin as [Hin|[]]. injection Hin as <- <- <- <-.
    exists dir, image, token, lA. rewrite E, Hr.
    repeat split; try assumption; try reflexivity.
    cbn [app]. now rewrite <- app_assoc.
Qed.

(** X2.  Once the child has been run, how it ended alone decides how
    [main] ends: [main] returns when the child exited with code 0 and when
    it could not be started, and ends the process by [os.Exit] with the
    exit code of the child otherwise, -1 for a child killed by a signal. *)
Theorem child_decides_the_result
        (w : World) (Args : list string) (m : gmap string node)
        (chroot command : string) (args : list string) (rr : run_result) :
  In (ESpawn chroot command args rr) (log (MainGo.main w Args (boot m)).2) ->
  (MainGo.main w Args (boot m)).1 = after_run rr.
Proof.
  intros Hin.
  destruct (spawn_position w Args m chroot command args rr Hin)
    as (dir & image & token & lA & _ & _ & _ & _ & _ & H).
  exact H.
Qed.

Lemma child_decides_the_result_witness :
  (MainGo.main (Sample.world Sample.token_ok 200 (Started (Signaled 9)))
     Sample.Args (boot Sample.host)).1 = Exit (-1).
Proof.
  apply (child_decides_the_result
           (Sample.world Sample.token_ok 200 (Started (Signaled 9)))
           Sample.Args Sample.host Sample.root "/bin/echo" ["hello"]
           (Started (Signaled 9))).
  vm_compute. do 17 right. left. reflexivity.
Defined.

(** X3.  When the child is killed by a signal the tool ends with exit
    status 255: [ExitCode] is -1 and [os.Exit(-1)] leaves its low byte. *)
Theorem signaled_child_gives_status_255
        (w : World) (Args : list string) (m : gmap string node)
        (chroot command : string) (args : list string) (sig : Z) :
  In (ESpawn chroot command args (Started (Signaled sig)))
     (log (MainGo.main w Args (boot m)).2) ->
  exit_status (MainGo.main w Args (boot m)).1 = 255.
Proof.
  intros Hin.
  destruct (spawn_position w Args m chroot command args _ Hin)
    as (dir & image & token & lA & _ & _ & _ & _ & _ & H).
  rewrite H. reflexivity.
Qed.

Lemma signaled_child_gives_status_255_witness :
  exit_status
    (MainGo.main (Sample.world Sample.token_ok 200 (Started (Signaled 9)))
       Sample.Args (boot Sample.host)).1 = 255.
Proof.
  apply (signaled_child_gives_status_255
           (Sample.world Sample.token_ok 200 (Started (Signaled 9)))
           Sample.Args Sample.host Sample.root "/bin/echo" ["hello"] 9).
  vm_compute. do 17 right. left. reflexivity.
Defined.

(** X4.  The child is started at most once, with the root
    [filepath.Join("/tmp", dir)], the fourth process argument as command
    and the arguments after it, and it is the last thing the run does but
    for the deferred removal: before it the log has no other start of a
    child, and after it at most the removal. *)
Theorem child_is_started_last
        (w : World) (Args : list string) (m : gmap string node)
        (chroot command : string) (args : list string) (rr : run_result) :
  In (ESpawn chroot command args rr) (log (MainGo.main w Args (boot m)).2) ->
  exists pre post dir,
    log (MainGo.main w Args (boot m)).2
    = pre ++ ESpawn chroot command args rr :: post
    /\ Forall (fun e => ~ is_spawn e) pre
    /\ (post = [] \/ post = [ERemoveAll dir])
    /\ chroot = filepath.Join ["/tmp"; dir]
    /\ Args !! 3%nat = Some command
    /\ args = drop 4 Args.
Proof.
  intros Hin.
  destruct (spawn_position w Args m chroot command args rr Hin)
    as (dir & image & token & lA & E & T & Hc & Hcmd & Hargs & _).
  exists (ETempDir dir :: EHttp (token_request image) :: lA),
    (match after_run rr with Exit _ => [] | _ => [ERemoveAll dir] end), dir.
  split; [rewrite E; reflexivity|].
  split.
  - constructor; [intros []|]. constructor; [intros []|].
    apply Forall_forall. intros e He.
    eapply trace_no_spawn; [exact T|]. now apply list_elem_of_In.
  - split; [destruct (after_run rr); auto|]. repeat split; assumption.
Qed.

Lemma child_is_started_last_witness :
  exists pre post dir,
    log (MainGo.main (Sample.world Sample.token_ok 200 (Started (Exited 0)))
           Sample.Args (boot Sample.host)).2
    = pre ++ ESpawn Sample.root "/bin/echo" ["hello"] (Started (Exited 0)) :: post
    /\ Forall (fun e => ~ is_spawn e) pre
    /\ (post = [] \/ post = [ERemoveAll dir])
    /\ Sample.root = filepath.Join ["/tmp"; dir]
    /\ Sample.Args !! 3%nat = Some "/bin/echo"
    /\ ["hello"] = drop 4 Sample.Args.
Proof.
  apply (child_is_started_last
           (Sample.world Sample.token_ok 200 (Started (Exited 0)))
           Sample.Args Sample.host Sample.root "/bin/echo" ["hello"]
           (Started (Exited 0))).
  vm_compute. do 17 right. left. reflexivity.
Defined.

(** ** The token and the requests *)

(** X5.  A run asks for a token at most once, first of all its requests,
    and every other request of the run carries exactly the token that
    answer yielded; when the login yields no token there is no other
    request. *)
Theorem one_token_for_all_requests
        (w : World) (Args : list string) (m : gmap string node) (image : string) :
  Args !! 2%nat = Some image ->
  requests (log (MainGo.main w Args (boot m)).2) = []
  \/ exists rest,
       requests (log (MainGo.main w Args (boot m)).2)
       = token_request image :: rest
       /\ match login_token w image with
          | Some token => Forall (has_bearer token) rest
          | None => rest = []
          end.
Proof.
  intros Himage.
  destruct (main_shape w Args m)
    as [[E _]|(image' & cmd & dir & lb & Hi & _ & Hb & E)];
    cbv zeta in *; rewrite E; [left; reflexivity|].
  rewrite Himage in Hi. injection Hi as <-.
  assert (Hclean : requests
                     (match (MainGo.main w Args (boot m)).1 with
                      | Exit _ => []
                      | _ => [ERemoveAll dir]
                      end) = []).
  { destruct (MainGo.main w Args (boot m)).1; reflexivity. }
  simpl. rewrite requests_app, Hclean, app_nil_r.
  destruct Hb as [([->| ->] & _)|(token & lA & lrun & rA & -> & Htok & T & Hend)].
  - left. reflexivity.
  - right. exists []. split; [reflexivity|].
    destruct (login_token w image); [constructor|reflexivity].
  - right. simpl. rewrite requests_app.
    assert (Hrun : requests lrun = []).
    { destruct Hend as [(_ & rr & -> & _)|(_ & -> & _)]; reflexivity. }
    rewrite Hrun, app_nil_r, Htok.
    exists (requests lA). split; [reflexivity|].
    eapply trace_requests. exact T.
Qed.

Lemma one_token_for_all_requests_witness :
  requests (log (MainGo.main (Sample.world Sample.token_ok 200 (Started (Exited 0)))
                   Sample.Args (boot Sample.host)).2) = []
  \/ exists rest,
       requests (log (MainGo.main (Sample.world Sample.token_ok 200 (Started (Exited 0)))
                        Sample.Args (boot Sample.host)).2)
       = token_request "busybox:latest" :: rest
       /\ match login_token (Sample.world Sample.token_ok 200 (Started (Exited 0)))
                "busybox:latest" with
          | Some token => Forall (has_bearer token) rest
          | None => rest = []
          end.
Proof.
  apply (one_token_for_all_requests
           (Sample.world Sample.token_ok 200 (Started (Exited 0)))
           Sample.Args Sample.host "busybox:latest").
  reflexivity.
Defined.

Lemma split_byte_head sep a b :
  strings.contains_byte sep a = false ->
  strings.split_byte sep (a +:+ String sep b) = a :: strings.split_byte sep b.
Proof.
  intros Ha. induction a as [|c r IH].
  - rewrite append_empty. simpl. now rewrite decide_True by reflexivity.
  - rewrite append_cons. simpl in *.
    destruct (decide (c = sep)); [discriminate|].
    now rewrite IH.
Qed.

Lemma token_request_name name rest :
  strings.contains_byte ":" name = false ->
  token_request (name +:+ String ":" rest) = token_request name.
Proof.
  intros H. unfold token_request, strings.Split.
  rewrite split_byte_head, (split_byte_absent ":" name) by assumption. reflexivity.
Qed.

Lemma blob_request_name token name rest digest :
  strings.contains_byte ":" name = false ->
  blob_request token (name +:+ String ":" rest) digest
  = blob_request token name digest.
Proof.
  intros H. unfold blob_request, strings.Split.
  rewrite split_byte_head, (split_byte_absent ":" name) by assumption. reflexivity.
Qed.

(** X6.  [registryLogin] looks only at the part of the reference before
    the first colon: with or without a tag it sends the same request and
    returns the same result; and it never touches the file system. *)
Theorem registryLogin_ignores_the_tag
        (w : World) (name rest : string) (st : state) :
  strings.contains_byte ":" name = false ->
  MainGo.registryLogin w (name +:+ String ":" rest) st
  = MainGo.registryLogin w name st
  /\ fs (MainGo.registryLogin w name st).2 = fs st.
Proof.
  intros H. rewrite !registryLogin_eq. unfold login_token.
  rewrite token_request_name by assumption. split; [reflexivity|].
  cbv zeta.
  destruct (url_parses w _); [|reflexivity].
  destruct (round_trip w _) as [resp|]; [|reflexivity].
  destruct (decide (StatusCode resp <> http.StatusOK)); [reflexivity|].
  destruct (Body resp) as [j| |]; try reflexivity.
  destruct (option_map _ _); reflexivity.
Qed.

Lemma registryLogin_ignores_the_tag_witness :
  MainGo.registryLogin (Sample.world Sample.token_ok 200 StartFailed)
    ("busybox" +:+ String ":" "1.36") (boot Sample.host)
  = MainGo.registryLogin (Sample.world Sample.token_ok 200 StartFailed)
      "busybox" (boot Sample.host)
  /\ fs (MainGo.registryLogin (Sample.world Sample.token_ok 200 StartFailed)
           "busybox" (boot Sample.host)).2 = fs (boot Sample.host).
Proof.
  apply (registryLogin_ignores_the_tag
           (Sample.world Sample.token_ok 200 StartFailed) "busybox" "1.36").
  reflexivity.
Defined.

(** X7.  [extractLayer] asks for the blob of a digest in the repository
    named before the first colon of the reference, whatever follows it:
    the tag plays no part in the download of a layer. *)
Theorem extractLayer_ignores_the_tag
        (w : World) (token name rest digest rootDir : string) (st : state) :
  strings.contains_byte ":" name = false ->
  MainGo.extractLayer w token (name +:+ String ":" rest) digest rootDir st
  = MainGo.extractLayer w token name digest rootDir st.
Proof.
  intros H. rewrite !extractLayer_eq.
  rewrite blob_request_name by assumption. reflexivity.
Qed.

Lemma extractLayer_ignores_the_tag_witness :
  MainGo.extractLayer (Sample.world Sample.token_ok 200 StartFailed)
    "tok" ("busybox" +:+ String ":" "latest") "sha256:a" Sample.root (boot Sample.host)
  = MainGo.extractLayer (Sample.world Sample.token_ok 200 StartFailed)
      "tok" "busybox" "sha256:a" Sample.root (boot Sample.host).
Proof.
  apply (extractLayer_ignores_the_tag
           (Sample.world Sample.token_ok 200 StartFailed)
           "tok" "busybox" "latest" "sha256:a" Sample.root).
  reflexivity.
Defined.

(** X8.  In [app/main.go] a reference with more than one colon,
    [name:tag:rest], resolves to [tag]: what follows the second colon is
    dropped without an error. *)
Theorem MainGo_fetchManifest_drops_what_follows_the_tag
        (w : World) (token name tag rest : string) (st : state) :
  strings.contains_byte ":" name = false ->
  strings.contains_byte ":" tag = false ->
  url_parses w (manifest_url name tag) = true ->
  log (MainGo.fetchManifest w token
         (name +:+ String ":" (tag +:+ String ":" rest)) st).2
  = log st ++ [EHttp (manifest_request token name tag)].
Proof.
  intros Hn Ht Hu. rewrite fetchManifest_eq. unfold strings.Split.
  rewrite !split_byte_head by assumption.
  cbn [lookup list_lookup default]. cbv zeta. unfold id.
  change (URL (manifest_request token name tag)) with (manifest_url name tag).
  rewrite Hu.
  destruct (round_trip w _) as [resp|]; [|reflexivity].
  destruct (decide (StatusCode resp <> http.StatusOK)); [reflexivity|].
  destruct (Body resp) as [j| |]; try reflexivity.
  destruct (json_decode.into_struct _ _ j); reflexivity.
Qed.

Lemma MainGo_fetchManifest_drops_witness :
  log (MainGo.fetchManifest (Sample.world Sample.token_ok 200 StartFailed) "tok"
         ("busybox" +:+ String ":" ("latest" +:+ String ":" "x")) (boot Sample.host)).2
  = log (boot Sample.host) ++ [EHttp (manifest_request "tok" "busybox" "latest")].
Proof.
  apply (MainGo_fetchManifest_drops_what_follows_the_tag
           (Sample.world Sample.token_ok 200 StartFailed)
           "tok" "busybox" "latest" "x"); reflexivity.
Defined.

(** [fetchManifest] of the revision with the default, step by step. *)
Lemma Part001_fetchManifest_eq (w : World) token image st :
  Part001.fetchManifest w token image st
  = let split := strings.Split image ":" in
    let tag := if decide (List.length split = 2%nat)
               then default "latest" (split !! 1%nat) else "latest" in
    let req := manifest_request token (default "" (split !! 0%nat)) tag in
    if url_parses w (URL req) then
      let st1 := mkState (fs st) (log st ++ [EHttp req]) in
      match round_trip w req with
      | None => (Fail ErrTransport, st1)
      | Some resp =>
          if decide (StatusCode resp <> http.StatusOK) then
            (Fail (ErrStatus "failed to get image manifest" (StatusCode resp)), st1)
          else
            match Body resp with
            | BodyJSON j =>
                match json_decode.into_struct MainGo.manifest_field
                        (MainGo.mkManifest []) j with
                | Some v => (Val v, st1)
                | None => (Fail ErrDecode, st1)
                end
            | _ => (Fail ErrDecode, st1)
            end
      end
    else (Fail (ErrURL (URL req)), st).
Proof.
  unfold Part001.fetchManifest. rewrite index_Split_0. cbv zeta.
  generalize (if decide (List.length (strings.Split image ":") = 2%nat)
              then default "latest" (strings.Split image ":" !! 1%nat)
              else "latest").
  intros tag.
  unfold manifest_request, manifest_url, http.NewRequest, http.Do,
    http.Header_Add, json_decode.Decode.
  unfold bind, ret, fail, emit. simpl.
  destruct (url_parses w _); [|reflexivity].
  destruct (round_trip w _) as [[status b]|]; [|reflexivity].
  simpl.
  destruct (decide (status <> http.StatusOK)); [reflexivity|].
  destruct b as [j|es trailer|]; try reflexivity.
  destruct (json_decode.into_struct _ _ j); reflexivity.
Qed.

(** X9.  In the revision with the default, a reference with more than one
    colon resolves to [latest]: the tag is taken from the reference only
    when it has exactly two components. *)
Theorem Part001_fetchManifest_many_colons
        (w : World) (token name tag rest : string) (st : state) :
  strings.contains_byte ":" name = false ->
  url_parses w (manifest_url name "latest") = true ->
  log (Part001.fetchManifest w token
         (name +:+ String ":" (tag +:+ String ":" rest)) st).2
  = log st ++ [EHttp (manifest_request token name "latest")].
Proof.
  intros Hn Hu. rewrite Part001_fetchManifest_eq. unfold strings.Split.
  rewrite split_byte_head by assumption.
  assert (Hlen : List.length (name :: strings.split_byte ":" (tag +:+ String ":" rest))
                 <> 2%nat).
  { cbn [List.length]. rewrite split_byte_length.
    assert (1 <= strings.count_byte ":" (tag +:+ String ":" rest))%nat; [|lia].
    clear. induction tag as [|c r IH].
    - rewrite append_empty. cbn [strings.count_byte].
      destruct (decide (":"%char = ":"%char)); [lia|congruence].
    - rewrite append_cons. cbn [strings.count_byte]. lia. }
  cbv zeta.
  destruct (decide (List.length (name :: strings.split_byte ":" (tag +:+ String ":" rest))
                    = 2%nat)) as [Hc|_]; [destruct (Hlen Hc)|].
  cbn [lookup list_lookup default]. unfold id.
  change (URL (manifest_request token name "latest"))
    with (manifest_url name "latest").
  rewrite Hu.
  destruct (round_trip w _) as [resp|]; [|reflexivity].
  destruct (decide (StatusCode resp <> http.StatusOK)); [reflexivity|].
  destruct (Body resp) as [j| |]; try reflexivity.
  destruct (json_decode.into_struct _ _ j); reflexivity.
Qed.

Lemma Part001_fetchManifest_many_colons_witness :
  log (Part001.fetchManifest (Sample.world Sample.token_ok 200 StartFailed) "tok"
         ("busybox" +:+ String ":" ("1.36" +:+ String ":" "x")) (boot Sample.host)).2
  = log (boot Sample.host) ++ [EHttp (manifest_request "tok" "busybox" "latest")].
Proof.
  apply (Part001_fetchManifest_many_colons
           (Sample.world Sample.token_ok 200 StartFailed)
           "tok" "busybox" "1.36" "x"); reflexivity.
Defined.

Lemma Part001_fetchManifest_untagged_witness :
  log (Part001.fetchManifest (Sample.world Sample.token_ok 200 StartFailed) "tok"
         "busybox" (boot Sample.host)).2
  = log (boot Sample.host) ++ [EHttp (manifest_request "tok" "busybox" "latest")].
Proof.
  apply (Part001_fetchManifest_untagged
           (Sample.world Sample.token_ok 200 StartFailed) "tok" "busybox");
    reflexivity.
Defined.

Lemma Part001_fetchManifest_tagged_witness :
  log (Part001.fetchManifest (Sample.world Sample.token_ok 200 StartFailed) "tok"
         ("busybox" +:+ String ":" "1.36") (boot Sample.host)).2
  = log (boot Sample.host) ++ [EHttp (manifest_request "tok" "busybox" "1.36")].
Proof.
  apply (Part001_fetchManifest_tagged
           (Sample.world Sample.token_ok 200 StartFailed) "tok" "busybox" "1.36");
    reflexivity.
Defined.

(** ** [copy] *)





(** A source below a regular file: the walk to it ends at the file, and
    the error is [ENOTDIR]. *)
Lemma copy_of_a_source_below_a_file :
  MainGo.copy (Sample.world Sample.token_ok 200 StartFailed)
    "/bin/echo/sh" "/tmp/sh" (boot Sample.host)
  = (Fail (ErrPath "open" "/bin/echo/sh" "ENOTDIR"), boot Sample.host).
Proof. vm_compute. reflexivity. Qed.

(** X11.  [copy] of a directory onto an existing file returns an error,
    but only after [os.Create] has truncated the destination: the
    destination is left empty. *)
Theorem copy_of_a_directory_empties_the_destination
        (w : World) (src dst : string) (st : state) (dm fm : Z) (data : string) :
  src <> "" ->
  os.node_at (fs st) (os.key src) = Some (Dir dm) ->
  os.node_at (fs st) (os.key dst) = Some (File fm data) ->
  (exists e, (MainGo.copy w src dst st).1 = Fail e)
  /\ fs (MainGo.copy w src dst st).2 !! os.key dst = Some (File fm "").
Proof.
  intros Hname Hs Hd.
  assert (Hne : os.key dst <> os.key src) by congruence.
  assert (Hs' : os.node_at (<[os.key dst := File fm ""]> (fs st)) (os.key src)
                = Some (Dir dm)).
  { unfold os.node_at in *.
    repeat case_decide; try assumption; try congruence;
      rewrite lookup_insert_ne; assumption. }
  unfold MainGo.copy, os.Open, os.Stat, os.Create, os.OpenFile, os.read_all,
    bind, emit, get_fs, put_fs, ret, fail.
  rewrite (decide_False (P := src = "")) by exact Hname.
  simpl. rewrite Hs. simpl. rewrite Hs. simpl. rewrite Hd. simpl.
  rewrite Hs'. simpl. split; [eexists; reflexivity|apply lookup_insert_eq].
Qed.

Lemma copy_of_a_directory_witness :
  (exists e, (MainGo.copy (Sample.world Sample.token_ok 200 StartFailed)
                "/bin" "/bin/echo" (boot Sample.host)).1 = Fail e)
  /\ fs (MainGo.copy (Sample.world Sample.token_ok 200 StartFailed)
           "/bin" "/bin/echo" (boot Sample.host)).2 !! os.key "/bin/echo"
     = Some (File 493 "").
Proof.
  apply (copy_of_a_directory_empties_the_destination
           (Sample.world Sample.token_ok 200 StartFailed)
           "/bin" "/bin/echo" (boot Sample.host) 493 493 "ELF");
    [discriminate|vm_compute; reflexivity..].
Defined.

(** X12.  [copy] of a file onto itself succeeds and empties it:
    [os.Create] truncates the file before a byte of it is read. *)
Theorem copy_onto_itself_empties_the_file
        (w : World) (path : string) (st : state) (mode : Z) (data : string) :
  os.node_at (fs st) (os.key path) = Some (File mode data) ->
  (MainGo.copy w path path st).1 = Val tt
  /\ fs (MainGo.copy w path path st).2 !! os.key path
     = Some (File (os.chmod_mode mode) "").
Proof.
  intros H.
  assert (Hat : forall n, os.node_at (<[os.key path := n]> (fs st)) (os.key path)
                          = Some n).
  { intros n. unfold os.node_at in *.
    repeat case_decide; try congruence; apply lookup_insert_eq. }
  unfold MainGo.copy, os.Open, os.Stat, os.Create, os.OpenFile, os.read_all,
    os.write_all, os.Chmod, bind, emit, get_fs, put_fs, ret, fail.
  rewrite (decide_False (P := path = "")) by exact (name_of_a_file _ _ _ _ H).
  simpl. rewrite H. simpl. rewrite H. simpl. rewrite H. simpl.
  rewrite Hat. simpl. rewrite lookup_insert_eq. simpl.
  rewrite lookup_insert_eq. simpl.
  split; [reflexivity|apply lookup_insert_eq].
Qed.

Lemma copy_onto_itself_witness :
  (MainGo.copy (Sample.world Sample.token_ok 200 StartFailed)
     "/bin/echo" "/bin/echo" (boot Sample.host)).1 = Val tt
  /\ fs (MainGo.copy (Sample.world Sample.token_ok 200 StartFailed)
           "/bin/echo" "/bin/echo" (boot Sample.host)).2 !! os.key "/bin/echo"
     = Some (File (os.chmod_mode 493) "").
Proof.
  apply (copy_onto_itself_empties_the_file
           (Sample.world Sample.token_ok 200 StartFailed)
           "/bin/echo" (boot Sample.host) 493 "ELF").
  vm_compute. reflexivity.
Defined.

(** *** What [copy] leaves alone *)

Lemma frames_ret {A} (a : A) k : frames (ret a) k.
Proof. intros st. reflexivity. Qed.

Lemma frames_fail {A} (e : error) k : frames (@fail A e) k.
Proof. intros st. reflexivity. Qed.

Lemma frames_get_fs k : frames get_fs k.
Proof. intros st. reflexivity. Qed.

Lemma frames_emit e k : frames (emit e) k.
Proof. intros st. reflexivity. Qed.

(** Sequencing, knowing something of the value passed on. *)
Lemma frames_bind {A B} (m : M A) (f : A -> M B) (P : A -> Prop) k :
  frames m k ->
  (forall st a st', m st = (Val a, st') -> P a) ->
  (forall a, P a -> frames (f a) k) ->
  frames (bind m f) k.
Proof.
  intros Hm HP Hf st. unfold bind.
  pose proof (Hm st) as H1. pose proof (HP st) as H2.
  destruct (m st) as [[a|e|v|c] st1]; simpl in *; try assumption.
  rewrite <- H1. apply Hf. eapply H2. reflexivity.
Qed.

Lemma frames_bind_any {A B} (m : M A) (f : A -> M B) k :
  frames m k -> (forall a, frames (f a) k) -> frames (bind m f) k.
Proof.
  intros Hm Hf. apply (frames_bind m f (fun _ => True)); auto.
Qed.

Lemma frames_Open name k : frames (os.Open name) k.
Proof.
  unfold os.Open. apply frames_bind_any; [apply frames_get_fs|intros m].
  destruct (decide (name = "")); [apply frames_fail|].
  destruct (os.node_at m (os.key name)); [apply frames_ret|apply frames_fail].
Qed.

Lemma frames_Stat name k : frames (os.Stat name) k.
Proof.
  unfold os.Stat. apply frames_bind_any; [apply frames_get_fs|intros m].
  destruct (os.node_at m (os.key name)); [apply frames_ret|apply frames_fail].
Qed.

Lemma frames_read_all h h' k : frames (os.read_all h h') k.
Proof.
  unfold os.read_all. apply frames_bind_any; [apply frames_get_fs|intros m].
  destruct (os.node_at m h) as [[dm|fm fd]|];
    [apply frames_fail|apply frames_ret|apply frames_fail].
Qed.

Lemma frames_OpenFile (w : World) name flag perm k :
  k <> os.key name -> frames (os.OpenFile w name flag perm) k.
Proof.
  intros Hne st. unfold os.OpenFile, bind, emit, get_fs, put_fs, ret, fail.
  generalize (Z.testbit flag 9), (Z.testbit flag 6). intros t9 t6. simpl.
  destruct (os.node_at (fs st) (os.key name)) as [[dm|fm fd]|]; simpl;
    [reflexivity| |].
  - destruct t9; simpl; [|reflexivity].
    apply lookup_insert_ne. congruence.
  - destruct t6; simpl; [|reflexivity].
    destruct (os.node_at (fs st) (filepath.Dir (os.key name))) as [[dm|fm fd]|];
      simpl; try reflexivity.
    apply lookup_insert_ne. congruence.
Qed.

Lemma OpenFile_handle (w : World) name flag perm st h st' :
  os.OpenFile w name flag perm st = (Val h, st') -> h = os.key name.
Proof.
  unfold os.OpenFile, bind, emit, get_fs, put_fs, ret, fail.
  generalize (Z.testbit flag 9), (Z.testbit flag 6). intros t9 t6. simpl.
  destruct (os.node_at (fs st) (os.key name)) as [[dm|fm fd]|]; simpl;
    [discriminate| |].
  - destruct t9; simpl; congruence.
  - destruct t6; simpl; [|discriminate].
    destruct (os.node_at (fs st) (filepath.Dir (os.key name))) as [[dm|fm fd]|];
      simpl; congruence.
Qed.

Lemma frames_write_all h data k : k <> h -> frames (os.write_all h data) k.
Proof.
  intros Hne st. unfold os.write_all, bind, emit, get_fs, put_fs, fail. simpl.
  destruct (fs st !! h) as [[dm|fm fd]|]; simpl; try reflexivity.
  apply lookup_insert_ne. congruence.
Qed.

Lemma frames_Chmod name mode k : k <> os.key name -> frames (os.Chmod name mode) k.
Proof.
  intros Hne st. unfold os.Chmod, bind, emit, get_fs, put_fs, fail. simpl.
  destruct (fs st !! os.key name) as [[dm|fm fd]|]; simpl; try reflexivity;
    apply lookup_insert_ne; congruence.
Qed.

(** X13.  Whatever its outcome, [copy] changes nothing but its
    destination: every other path holds afterwards what it held before. *)
Theorem copy_changes_only_its_destination
        (w : World) (src dst k : string) (st : state) :
  k <> os.key dst ->
  fs (MainGo.copy w src dst st).2 !! k = fs st !! k.
Proof.
  intros Hne. revert st. change (frames (MainGo.copy w src dst) k).
  unfold MainGo.copy, os.Create.
  apply frames_bind_any; [apply frames_Open|intros in_].
  apply frames_bind_any; [apply frames_Stat|intros info].
  apply (frames_bind _ _ (fun out => out = os.key dst));
    [now apply frames_OpenFile|apply OpenFile_handle|intros out ->].
  apply frames_bind_any; [apply frames_read_all|intros data].
  apply frames_bind_any; [now apply frames_write_all|intros _].
  now apply frames_Chmod.
Qed.

Lemma copy_changes_only_its_destination_witness :
  fs (MainGo.copy (Sample.world Sample.token_ok 200 StartFailed)
        "/bin/echo" "/tmp/echo" (boot Sample.host)).2 !! "/bin/echo"
  = fs (boot Sample.host) !! "/bin/echo".
Proof.
  apply (copy_changes_only_its_destination
           (Sample.world Sample.token_ok 200 StartFailed)
           "/bin/echo" "/tmp/echo" "/bin/echo" (boot Sample.host)).
  vm_compute. congruence.
Defined.

(** ** More on the extraction loop *)

Lemma extractEntry_unhandled (w : World) rootDir e st :
  ~ handled e -> MainGo.extractEntry w rootDir e st = (Val tt, st).
Proof.
  destruct e as [h d]. unfold handled, MainGo.extractEntry. simpl. intros H.
  rewrite decide_False by tauto. rewrite decide_False by tauto. reflexivity.
Qed.

(** X14.  Entries that are neither directories nor regular files
    (symbolic links, hard links, devices) are passed over without a trace:
    unpacking an archive is unpacking its directory and regular-file
    entries alone, with the same result and the same final state. *)
Theorem extractEntries_skips_other_entries
        (w : World) (rootDir : string) (es : list tar_entry) (st : state) :
  MainGo.extractEntries w rootDir es st
  = MainGo.extractEntries w rootDir (filter handled es) st.
Proof.
  revert st. induction es as [|e es IH]; intros st; [reflexivity|].
  rewrite filter_cons. destruct (decide (handled e)) as [He|He].
  - simpl. unfold bind.
    destruct (MainGo.extractEntry w rootDir e st) as [[[]|err|v|c] st1];
      try reflexivity.
    apply IH.
  - simpl. unfold bind. rewrite extractEntry_unhandled by assumption. apply IH.
Qed.



(** An entry for a file two names below a regular file: the error is
    [ENOTDIR], and nothing has changed. *)
Lemma extractEntry_below_a_regular_file :
  MainGo.extractEntry (Sample.world Sample.token_ok 200 StartFailed) "/"
    (mkHeader "bin/echo/etc/motd" tar.TypeReg 420, "hello") (boot Sample.host)
  = (Fail (ErrPath "open" "/bin/echo/etc/motd" "ENOTDIR"),
     mkState Sample.host
       [EOpenFile "/bin/echo/etc/motd" (Z.lor os.O_CREATE os.O_RDWR)
          (os.FileMode 420)]).
Proof. vm_compute. reflexivity. Qed.

Lemma extractEntry_creates_witness :
  fs (MainGo.extractEntry (Sample.world Sample.token_ok 200 StartFailed) "/tmp"
        (mkHeader "motd" tar.TypeReg 438, "hello") (boot Sample.host)).2
  !! os.key (filepath.Join ["/tmp"; "motd"])
  = Some (File (os.create_mode 18 (os.FileMode 438)) "hello").
Proof.
  eapply (extractEntry_creates (Sample.world Sample.token_ok 200 StartFailed)
            "/tmp" (mkHeader "motd" tar.TypeReg 438) "hello" (boot Sample.host)).
  - reflexivity.
  - vm_compute. reflexivity.
  - vm_compute. reflexivity.
Defined.

(** *** Nothing is removed *)

Lemma same_shape_refl n : same_shape n n.
Proof. destruct n; reflexivity. Qed.

Lemma same_shape_trans n1 n2 n3 :
  same_shape n1 n2 -> same_shape n2 n3 -> same_shape n1 n3.
Proof. destruct n1, n2, n3; simpl; try tauto; congruence. Qed.

Lemma persists_same {A} (m : M A) :
  (forall st, fs (m st).2 = fs st) -> persists m.
Proof.
  intros H st k n Hk. exists n. rewrite H. split; [assumption|apply same_shape_refl].
Qed.

Lemma persists_bind {A B} (m : M A) (f : A -> M B) :
  persists m -> (forall a, persists (f a)) -> persists (bind m f).
Proof.
  intros Hm Hf st k n Hk. unfold bind.
  destruct (Hm st k n Hk) as (n1 & H1 & S1).
  destruct (m st) as [[a|e|v|c] st1]; simpl in *; try (exists n1; tauto).
  destruct (Hf a st1 k n1 H1) as (n2 & H2 & S2).
  exists n2. split; [assumption|]. eapply same_shape_trans; eassumption.
Qed.

Lemma persists_must {A} (m : M A) : persists m -> persists (must m).
Proof. intros Hm st k n Hk. rewrite must_state. now apply Hm. Qed.

Lemma persists_catch {A} (m : M A) : persists m -> persists (catch m).
Proof.
  intros Hm st k n Hk. destruct (Hm st k n Hk) as (n' & H & S).
  exists n'. split; [|assumption].
  unfold catch. destruct (m st) as [[a|e|v|c] st1]; assumption.
Qed.

Section Persistence.
Variable w : World.

Lemma persists_MkdirAll path perm : persists (os.MkdirAll w path perm).
Proof.
  intros st k n Hk. exists n. split; [|apply same_shape_refl].
  now apply MkdirAll_keeps.
Qed.

Lemma persists_OpenFile name flag perm : persists (os.OpenFile w name flag perm).
Proof.
  intros st k n Hk. unfold os.OpenFile, bind, emit, get_fs, put_fs, ret, fail.
  generalize (Z.testbit flag 9), (Z.testbit flag 6). intros t9 t6. simpl.
  destruct (os.node_at (fs st) (os.key name)) as [[dm|fm fd]|] eqn:E; simpl.
  - exists n. split; [assumption|apply same_shape_refl].
  - destruct t9; simpl; [|exists n; split; [assumption|apply same_shape_refl]].
    destruct (decide (os.key name = k)) as [<-|Hne].
    + apply node_at_File in E. rewrite E in Hk. injection Hk as <-.
      eexists. split; [apply lookup_insert_eq|reflexivity].
    + exists n. rewrite lookup_insert_ne by assumption.
      split; [assumption|apply same_shape_refl].
  - apply node_at_None in E.
    destruct t6; simpl; [|exists n; split; [assumption|apply same_shape_refl]].
    destruct (os.node_at (fs st) (filepath.Dir (os.key name))) as [[dm|fm fd]|];
      simpl; try (exists n; split; [assumption|apply same_shape_refl]).
    exists n. rewrite lookup_insert_ne by congruence.
    split; [assumption|apply same_shape_refl].
Qed.

Lemma persists_write_all h data : persists (os.write_all h data).
Proof.
  intros st k n Hk. unfold os.write_all, bind, emit, get_fs, put_fs, fail. simpl.
  destruct (fs st !! h) as [[dm|fm fd]|] eqn:E; simpl;
    try (exists n; split; [assumption|apply same_shape_refl]).
  destruct (decide (h = k)) as [<-|Hne].
  - rewrite E in Hk. injection Hk as <-.
    eexists. split; [apply lookup_insert_eq|reflexivity].
  - exists n. rewrite lookup_insert_ne by assumption.
    split; [assumption|apply same_shape_refl].
Qed.

Lemma persists_extractEntry rootDir e : persists (MainGo.extractEntry w rootDir e).
Proof.
  destruct e as [h d]. unfold MainGo.extractEntry.
  destruct (decide (Typeflag h = tar.TypeDir)).
  - apply persists_bind.
    + apply persists_catch, persists_same. intros st. unfold os.Stat, bind, get_fs.
      simpl. destruct (os.node_at _ _); reflexivity.
    + intros [n|err]; [apply persists_same; reflexivity|apply persists_MkdirAll].
  - destruct (decide (Typeflag h = tar.TypeReg)).
    + apply persists_bind; [apply persists_OpenFile|intros f].
      apply persists_write_all.
    + apply persists_same. reflexivity.
Qed.

Lemma persists_extractEntries rootDir es :
  persists (MainGo.extractEntries w rootDir es).
Proof.
  induction es as [|e es IH]; simpl; [apply persists_same; reflexivity|].
  apply persists_bind; [apply persists_extractEntry|intros _; exact IH].
Qed.

Lemma persists_extractLayer token image digest rootDir :
  persists (MainGo.extractLayer w token image digest rootDir).
Proof.
  intros st k n Hk.
  destruct (extractLayer_fs w rootDir token image digest st)
    as [->|(st1 & E1 & ->)].
  - exists n. split; [assumption|apply same_shape_refl].
  - apply persists_extractEntries. now rewrite E1.
Qed.

Lemma persists_extractLayers token image layers rootDir :
  persists (MainGo.extractLayers w token image layers rootDir).
Proof.
  induction layers as [|l layers IH]; simpl; [apply persists_same; reflexivity|].
  apply persists_bind; [|intros _; exact IH].
  apply persists_must, persists_extractLayer.
Qed.

End Persistence.

(** X16.  Unpacking layers removes nothing: whatever its outcome, every
    path that named a node before names afterwards a node of the same kind
    (a file stays a file, a directory a directory) and of the same mode. *)
Theorem extraction_removes_nothing
        (w : World) (token image rootDir : string) (layers : list MainGo.layer)
        (st : state) (k : string) (n : node) :
  fs st !! k = Some n ->
  exists n',
    fs (MainGo.extractLayers w token image layers rootDir st).2 !! k = Some n'
    /\ same_shape n n'.
Proof. apply persists_extractLayers. Qed.

Lemma extraction_removes_nothing_witness :
  exists n',
    fs (MainGo.extractLayers (Sample.world Sample.token_ok 200 StartFailed)
          "tok" "busybox:latest" Sample.layers "/" (boot Sample.host)).2
    !! "/bin/echo" = Some n'
    /\ same_shape (File 493 "ELF") n'.
Proof.
  apply (extraction_removes_nothing
           (Sample.world Sample.token_ok 200 StartFailed)
           "tok" "busybox:latest" "/" Sample.layers (boot Sample.host)
           "/bin/echo" (File 493 "ELF")).
  vm_compute. reflexivity.
Defined.

(** X17.  Unpacking the layers of a manifest is sequential: the layers
    [x ++ y] are unpacked as [x] and then, from the state [x] left and only
    if [x] succeeded, [y]; a failure in [x] is the result of the whole. *)
Theorem extractLayers_composes
        (w : World) (token image rootDir : string) (x y : list MainGo.layer)
        (st : state) :
  MainGo.extractLayers w token image (x ++ y) rootDir st
  = match MainGo.extractLayers w token image x rootDir st with
    | (Val _, st1) => MainGo.extractLayers w token image y rootDir st1
    | other => other
    end.
Proof. apply extractLayers_app. Qed.

(** ** The revision that truncates *)

(** X18.  In the revision that opens with [O_TRUNC], every entry that is
    not a directory (a regular file, but a symbolic link or a device as
    well) leaves at its path, when its turn succeeds, a regular file
    holding exactly the bytes of the entry; the file keeps the mode it had
    when it existed, and has the permission bits of the entry less the
    umask when the entry creates it. *)
Theorem Part000_entry_replaces_the_content
        (w : World) (rootDir : string) (h : tar_header) (data : string)
        (st st' : state) :
  Part000.FileInfo_IsDir h = false ->
  Part000.extractEntry w rootDir (h, data) st = (Val tt, st') ->
  exists mode,
    fs st' !! os.key (filepath.Join [rootDir; Name h]) = Some (File mode data)
    /\ (forall m0 c0,
          fs st !! os.key (filepath.Join [rootDir; Name h]) = Some (File m0 c0) ->
          mode = m0)
    /\ (os.node_at (fs st) (os.key (filepath.Join [rootDir; Name h])) = None ->
        mode = os.create_mode (umask w) (Part000.FileInfo_Mode h)).
Proof.
  intros Hnd. unfold Part000.extractEntry. rewrite Hnd.
  set (target := filepath.Join [rootDir; Name h]).
  unfold bind, os.OpenFile, os.write_all, bind, emit, get_fs, put_fs, ret, fail.
  change (Z.testbit (Z.lor os.O_CREATE (Z.lor os.O_TRUNC os.O_WRONLY)) 9) with true.
  change (Z.testbit (Z.lor os.O_CREATE (Z.lor os.O_TRUNC os.O_WRONLY)) 6) with true.
  generalize (Part000.FileInfo_Mode h). intros perm.
  simpl.
  destruct (os.node_at (fs st) (os.key target)) as [[dm|fm fd]|] eqn:E; simpl.
  - discriminate.
  - rewrite lookup_insert_eq. simpl. intros [= <-]. simpl.
    exists fm. rewrite lookup_insert_eq, overwrite_empty.
    split; [reflexivity|]. split; [|discriminate].
    intros m0 c0 H0. apply node_at_File in E. congruence.
  - destruct (os.node_at (fs st) (filepath.Dir (os.key target))) as [[dm|fm fd]|];
      simpl; try discriminate.
    rewrite lookup_insert_eq. simpl. intros [= <-]. simpl.
    eexists. rewrite lookup_insert_eq, overwrite_empty.
    split; [reflexivity|]. split; [|reflexivity].
    intros m0 c0 H0. apply node_at_None in E. congruence.
Qed.

Lemma Part000_entry_replaces_the_content_witness :
  exists mode,
    fs (Part000.extractEntry (Sample.world Sample.token_ok 200 StartFailed) "/"
          (mkHeader "bin/echo" "2"%char 511, "") (boot Sample.host)).2
    !! os.key (filepath.Join ["/"; "bin/echo"]) = Some (File mode "")
    /\ (forall m0 c0,
          fs (boot Sample.host) !! os.key (filepath.Join ["/"; "bin/echo"])
          = Some (File m0 c0) -> mode = m0)
    /\ (os.node_at (fs (boot Sample.host)) (os.key (filepath.Join ["/"; "bin/echo"]))
        = None ->
        mode = os.create_mode 18
                 (Part000.FileInfo_Mode (mkHeader "bin/echo" "2"%char 511))).
Proof.
  eapply (Part000_entry_replaces_the_content
            (Sample.world Sample.token_ok 200 StartFailed) "/"
            (mkHeader "bin/echo" "2"%char 511) "" (boot Sample.host)).
  - vm_compute. reflexivity.
  - vm_compute. reflexivity.
Defined.

(** ** The temporary directory and the root of the extraction *)

Lemma prefix_app (p k : string) :
  String.prefix p k = true -> exists x, k = p +:+ x.
Proof.
  revert k. induction p as [|c p IH]; intros k H.
  - exists k. reflexivity.
  - destruct k as [|d k]; simpl in H; [discriminate|].
    destruct (ascii_dec c d) as [->|]; [|discriminate].
    destruct (IH k H) as (x & ->). exists x. reflexivity.
Qed.

Lemma append_assoc_string (a b c : string) : (a +:+ b) +:+ c = a +:+ (b +:+ c).
Proof. induction a as [|x a IH]; [reflexivity|]. rewrite !append_cons. now rewrite IH. Qed.

Lemma split_tmp_docker r :
  strings.contains_byte "/" r = false ->
  strings.split_byte "/" ("/tmp/docker" +:+ r) = [""; "tmp"; "docker" +:+ r].
Proof.
  intros H.
  change ("/tmp/docker" +:+ r)
    with ("" +:+ String "/" ("tmp" +:+ String "/" ("docker" +:+ r))).
  rewrite !split_byte_head by reflexivity.
  now rewrite split_byte_absent by exact H.
Qed.

Lemma split_tmp_tmp_docker r :
  strings.contains_byte "/" r = false ->
  strings.split_byte "/" ("/tmp//tmp/docker" +:+ r)
  = [""; "tmp"; ""; "tmp"; "docker" +:+ r].
Proof.
  intros H.
  change ("/tmp//tmp/docker" +:+ r)
    with ("" +:+ String "/" ("tmp" +:+ String "/" ("" +:+ String "/"
            ("tmp" +:+ String "/" ("docker" +:+ r))))).
  rewrite !split_byte_head by reflexivity.
  now rewrite split_byte_absent by exact H.
Qed.

(** [filepath.Clean] of a rooted path, from its components. *)
Lemma Clean_of_split p cs :
  p <> "" -> filepath.is_rooted p = true -> strings.split_byte "/" p = cs ->
  filepath.Clean p
  = "/" +:+ strings.Join (rev (fold_left (filepath.clean_step true) cs [])) "/".
Proof.
  intros Hp Hr Hs. unfold filepath.Clean.
  rewrite decide_False by assumption. cbv zeta. rewrite Hr, Hs. reflexivity.
Qed.

Lemma Clean_tmp_docker r :
  strings.contains_byte "/" r = false ->
  filepath.Clean ("/tmp/docker" +:+ r) = "/tmp/docker" +:+ r.
Proof.
  intros H.
  assert (Hp : "/tmp/docker" +:+ r <> "")
    by (intros Hc; vm_compute in Hc; discriminate Hc).
  rewrite (Clean_of_split _ _ Hp eq_refl (split_tmp_docker r H)).
  vm_compute. reflexivity.
Qed.

Lemma Join_tmp_docker r :
  strings.contains_byte "/" r = false ->
  filepath.Join ["/tmp"; "docker" +:+ r] = "/tmp/docker" +:+ r.
Proof.
  intros H.
  change (filepath.Join ["/tmp"; "docker" +:+ r])
    with (filepath.Clean ("/tmp/docker" +:+ r)).
  now apply Clean_tmp_docker.
Qed.

Lemma Join_tmp_tmp_docker r :
  strings.contains_byte "/" r = false ->
  filepath.Join ["/tmp"; "/tmp/docker" +:+ r] = "/tmp/tmp/docker" +:+ r.
Proof.
  intros H.
  change (filepath.Join ["/tmp"; "/tmp/docker" +:+ r])
    with (filepath.Clean ("/tmp//tmp/docker" +:+ r)).
  assert (Hp : "/tmp//tmp/docker" +:+ r <> "")
    by (intros Hc; vm_compute in Hc; discriminate Hc).
  rewrite (Clean_of_split _ _ Hp eq_refl (split_tmp_tmp_docker r H)).
  vm_compute. reflexivity.
Qed.

Lemma under_tmp_tmp_docker r k :
  os.is_under ("/tmp/tmp/docker" +:+ r) k = true ->
  exists x, k = "/tmp/tmp/docker" +:+ x.
Proof.
  unfold os.is_under.
  destruct (decide ("/tmp/tmp/docker" +:+ r = "/")) as [Hc|_];
    [vm_compute in Hc; discriminate Hc|].
  destruct (decide (k = "/tmp/tmp/docker" +:+ r)) as [->|_]; [exists r; reflexivity|].
  intros Hp. apply prefix_app in Hp as (y & ->).
  exists (r +:+ "/" +:+ y). now rewrite !append_assoc_string.
Qed.

Lemma not_under_tmp_docker r x :
  os.is_under ("/tmp/docker" +:+ r) ("/tmp/tmp/docker" +:+ x) = false.
Proof. vm_compute. reflexivity. Qed.

(** X19.  [main] removes the directory [ioutil.TempDir] returned,
    [/tmp/docker] followed by the random suffix, but unpacks the layers
    under [filepath.Join("/tmp", dir)], which is [/tmp/tmp/docker] followed
    by the suffix: the deferred [os.RemoveAll(dir)] leaves every node at or
    below the root of the extraction where it is. *)
Theorem removal_misses_the_extraction_root (r k : string) (st : state) :
  strings.contains_byte "/" r = false ->
  os.is_under (filepath.Join ["/tmp"; filepath.Join ["/tmp"; "docker" +:+ r]]) k
  = true ->
  filepath.Join ["/tmp"; "docker" +:+ r] = "/tmp/docker" +:+ r
  /\ filepath.Join ["/tmp"; filepath.Join ["/tmp"; "docker" +:+ r]]
     = "/tmp/tmp/docker" +:+ r
  /\ fs (os.RemoveAll (filepath.Join ["/tmp"; "docker" +:+ r]) st).2 !! k
     = fs st !! k.
Proof.
  intros H. rewrite (Join_tmp_docker r H), (Join_tmp_tmp_docker r H).
  intros Hu. split; [reflexivity|]. split; [reflexivity|].
  apply under_tmp_tmp_docker in Hu as (x & ->).
  unfold os.RemoveAll, bind, emit, get_fs, put_fs, ret.
  destruct (decide ("/tmp/docker" +:+ r = "")) as [Hc|_];
    [vm_compute in Hc; discriminate Hc|].
  cbn [fst snd fs log]. unfold os.key. rewrite (Clean_tmp_docker r H).
  destruct (fs st !! ("/tmp/tmp/docker" +:+ x)) as [n|] eqn:E.
  - apply map_lookup_filter_Some. split; [assumption|].
    cbn [fst]. apply not_under_tmp_docker.
  - apply map_lookup_filter_None. left. assumption.
Qed.

Lemma removal_misses_the_extraction_root_witness :
  filepath.Join ["/tmp"; "docker" +:+ "123"] = "/tmp/docker" +:+ "123"
  /\ filepath.Join ["/tmp"; filepath.Join ["/tmp"; "docker" +:+ "123"]]
     = "/tmp/tmp/docker" +:+ "123"
  /\ fs (os.RemoveAll (filepath.Join ["/tmp"; "docker" +:+ "123"]) Sample.unpacked).2
     !! "/tmp/tmp/docker123/etc/motd"
     = fs Sample.unpacked !! "/tmp/tmp/docker123/etc/motd".
Proof.
  apply (removal_misses_the_extraction_root "123" "/tmp/tmp/docker123/etc/motd"
           Sample.unpacked); vm_compute; reflexivity.
Defined.

(** The directory [ioutil.TempDir] returns is named by the prefix and one
    of the random suffixes. *)
Lemma TempDir_try_name (w : World) dir pre tries i m name m' :
  os.TempDir_try w dir pre tries i m = Some (name, m') ->
  exists j, name = filepath.Join [dir; pre +:+ next_random w j].
Proof.
  revert i. induction tries as [|n IH]; intros i; simpl; [discriminate|].
  destruct (os.node_at m (filepath.Join [dir; pre +:+ next_random w i])) as [x|].
  - apply IH.
  - destruct (os.node_at m (os.key dir)) as [[dm|fm fd]|]; try discriminate.
    intros [= <- _]. exists i. reflexivity.
Qed.
